(** * Schema inference, value normalization and per-sheet materialization

    A shallow embedding of the validation and normalization engine of the
    automatizacion application:

    - [automatizacion/utils/validators.py]: [normalize_name],
      [infer_sql_type], [normalize_value_by_type],
      [normalize_dataframe_by_mappings], [validate_column_mappings];
    - [automatizacion/models.py]: [_save_dataframe_to_destination] and the
      sheet loop of [_process_excel_sheets_individually].

    Conventions of the embedding.

    - A Python [str] is a Rocq [string] whose characters are code points
      0..255 (Basic Latin and Latin-1 Supplement).  [lower], [upper],
      [strip], [isdigit] and [isalnum] follow CPython on that range.
    - A cell value is a small tagged union [pyval]; Python's [None] is the
      constructor [VNone].
    - A double is modelled by its exact value ([FFin q]) or by one of the
      special values ([FNan], [FInf]); a decimal literal denotes its exact
      decimal value, and a value beyond the largest double becomes infinite.
      [int(float(s))] therefore agrees with CPython whenever the literal is
      exactly a double, which covers every integer below 2^53.
    - Exceptions are explicit: a computation returns [Ok v] or [Raise e].
    - Printing and the text of log entries do not influence computed
      values and are left out, except where a log entry is the only
      observable effect of a step (the validation report).  The tracker
      and migration-log calls of the sheet loop save to the logs database
      and may raise; they are the fields of a record [log_writes].
    - Library functions of pandas whose behaviour is not fixed by this
      repository (date parsing, numeric coercion of a column, sampling, the
      text of a float, the dtype of a column built by [apply]) are fields
      of an environment record [pandas].
    - A column mapping is a dictionary of dictionaries, as the functions
      declare it; the older format that maps a column to a plain string
      is outside the model.  The destination database answers through a
      record [destination]. *)

From Stdlib Require Import ZArith QArith Ascii String List Bool Lia.
From stdpp Require Import base decidable option list strings pretty.

Local Open Scope string_scope.

(** ** Python strings *)

Module PyStr.

Definition code (c : ascii) : N := N_of_ascii c.

Definition in_range (lo hi : N) (c : ascii) : bool :=
  ((lo <=? code c) && (code c <=? hi))%N.

Definition chr (n : N) : ascii := ascii_of_N n.

Definition is_ascii_lower (c : ascii) : bool := in_range 97 122 c.
Definition is_ascii_upper (c : ascii) : bool := in_range 65 90 c.
Definition is_ascii_digit (c : ascii) : bool := in_range 48 57 c.

(** [str.isspace] on a single character. *)
Definition isspace (c : ascii) : bool :=
  in_range 9 13 c || in_range 28 32 c
  || (code c =? 133)%N || (code c =? 160)%N.

(** [str.isdigit] on a single character: the ASCII digits and the
    superscripts two, three and one. *)
Definition isdigit (c : ascii) : bool :=
  is_ascii_digit c
  || (code c =? 178)%N || (code c =? 179)%N || (code c =? 185)%N.

(** [str.isalnum] on a single character. *)
Definition isalnum (c : ascii) : bool :=
  isdigit c || is_ascii_lower c || is_ascii_upper c
  || (code c =? 170)%N || (code c =? 181)%N || (code c =? 186)%N
  || in_range 188 190 c
  || (in_range 192 255 c && negb (code c =? 215)%N && negb (code c =? 247)%N).

Definition lower_char (c : ascii) : ascii :=
  if is_ascii_upper c || (in_range 192 222 c && negb (code c =? 215)%N)
  then chr (code c + 32) else c.

(** [str.lower]. *)
Fixpoint lower (s : string) : string :=
  match s with
  | EmptyString => EmptyString
  | String c r => String (lower_char c) (lower r)
  end.

(** [str.upper]; the sharp s becomes two letters.  The micro sign and the
    y with diaeresis have their capitals outside the modelled range and are
    kept. *)
Fixpoint upper (s : string) : string :=
  match s with
  | EmptyString => EmptyString
  | String c r =>
      if (code c =? 223)%N then String "S" (String "S" (upper r))
      else if is_ascii_lower c
              || (in_range 224 254 c && negb (code c =? 247)%N)
           then String (chr (code c - 32)) (upper r)
           else String c (upper r)
  end.

Fixpoint lstrip (s : string) : string :=
  match s with
  | EmptyString => EmptyString
  | String c r => if isspace c then lstrip r else s
  end.

(** Removes trailing white space: a character is dropped when it is white
    space and everything after it has been dropped. *)
Fixpoint rstrip (s : string) : string :=
  match s with
  | EmptyString => EmptyString
  | String c r =>
      match rstrip r with
      | EmptyString => if isspace c then EmptyString else String c EmptyString
      | r' => String c r'
      end
  end.

(** [str.strip()]. *)
Definition strip (s : string) : string := rstrip (lstrip s).

(** [s.replace(a, b)] for single characters. *)
Fixpoint replace_char (a b : ascii) (s : string) : string :=
  match s with
  | EmptyString => EmptyString
  | String c r =>
      String (if Ascii.eqb c a then b else c) (replace_char a b r)
  end.

Fixpoint filter (p : ascii -> bool) (s : string) : string :=
  match s with
  | EmptyString => EmptyString
  | String c r => if p c then String c (filter p r) else filter p r
  end.

Fixpoint forallb (p : ascii -> bool) (s : string) : bool :=
  match s with
  | EmptyString => true
  | String c r => p c && forallb p r
  end.

(** [s[:n]]. *)
Fixpoint take (n : nat) (s : string) : string :=
  match n, s with
  | O, _ => EmptyString
  | S _, EmptyString => EmptyString
  | S k, String c r => String c (take k r)
  end.

Fixpoint startswith (p s : string) : bool :=
  match p, s with
  | EmptyString, _ => true
  | String _ _, EmptyString => false
  | String a p', String b s' => Ascii.eqb a b && startswith p' s'
  end.

(** [needle in hay]. *)
Fixpoint contains (needle hay : string) : bool :=
  startswith needle hay
  || match hay with
     | EmptyString => false
     | String _ r => contains needle r
     end.

(** [any(t in s for t in words)]. *)
Definition contains_any (words : list string) (s : string) : bool :=
  existsb (fun t => contains t s) words.

(** Membership of a string in a list of strings, [x in xs]. *)
Definition mem (x : string) (xs : list string) : bool :=
  existsb (String.eqb x) xs.

(** The longest prefix of ASCII digits and the rest. *)
Fixpoint span_digits (s : string) : string * string :=
  match s with
  | EmptyString => (EmptyString, EmptyString)
  | String c r =>
      if is_ascii_digit c
      then let '(d, t) := span_digits r in (String c d, t)
      else (EmptyString, s)
  end.

Definition digit_value (c : ascii) : N := (code c - 48)%N.

Fixpoint int_of_digits_from (acc : N) (s : string) : N :=
  match s with
  | EmptyString => acc
  | String c r => int_of_digits_from (10 * acc + digit_value c)%N r
  end.

(** [int(ds)] for a non-empty string of ASCII digits. *)
Definition int_of_digits (ds : string) : N := int_of_digits_from 0 ds.

End PyStr.

(** ** Name normalization ([normalize_name]) *)

Module Names.
Import PyStr.

(** The character class [[a-z0-9_\-]]. *)
Definition allowed_char (c : ascii) : bool :=
  is_ascii_lower c || is_ascii_digit c
  || Ascii.eqb c "_" || Ascii.eqb c "-".

Definition is_sep (c : ascii) : bool := Ascii.eqb c "_" || Ascii.eqb c "-".

(** [re.sub(r'[_\-]+', '_', s)]: every maximal run of underscores and
    hyphens becomes one underscore. *)
Fixpoint collapse_from (in_run : bool) (s : string) : string :=
  match s with
  | EmptyString => EmptyString
  | String c r =>
      if is_sep c
      then if in_run then collapse_from true r
           else String "_" (collapse_from true r)
      else String c (collapse_from false r)
  end.

Definition collapse (s : string) : string := collapse_from false s.

Definition newline : string := String (chr 10) EmptyString.

(** [re.search(r'_(\d+)$', s)]: the leftmost underscore followed by digits
    up to the end of the string (or up to a final line feed).  Returns
    [s[:match.start()]] and [match.group(1)]. *)
Fixpoint search_numeric_suffix (s : string) : option (string * string) :=
  match s with
  | EmptyString => None
  | String c r =>
      let '(d, t) := span_digits r in
      if Ascii.eqb c "_" && negb (String.eqb d "")
         && (String.eqb t "" || String.eqb t newline)
      then Some (EmptyString, d)
      else match search_numeric_suffix r with
           | Some (b, g) => Some (String c b, g)
           | None => None
           end
  end.

(** The candidate [f"{base_name}_{counter}"]. *)
Definition suffixed (base : string) (counter : N) : string :=
  base +:+ "_" +:+ pretty counter.

(** The loop [while f"{base_name}_{counter}" in existing_lower: counter += 1].
    [fuel] bounds the number of tests; [next_free_enough] shows that
    one more than the number of existing names always suffices. *)
Fixpoint next_free (fuel : nat) (base : string) (counter : N)
    (existing_lower : list string) : N :=
  match fuel with
  | O => counter
  | S f =>
      if mem (suffixed base counter) existing_lower
      then next_free f base (counter + 1)%N existing_lower
      else counter
  end.

(** Steps 1 to 7 of [normalize_name]: the candidate before the duplicate
    check. *)
Definition candidate (name : string) : string :=
  let name := if String.eqb name "" then "sin_nombre" else name in
  let normalized := strip (lower name) in
  let normalized := replace_char " " "_" normalized in
  let normalized := filter allowed_char normalized in
  let normalized := collapse normalized in
  let normalized :=
    match normalized with
    | String c _ => if isdigit c then "tabla_" +:+ normalized else normalized
    | EmptyString => normalized
    end in
  let normalized :=
    if String.eqb normalized "" then "sin_nombre" else normalized in
  take 128 normalized.

(** The base name and the first counter to try: a candidate that already
    ends in [_digits] continues from that number. *)
Definition suffix_start (normalized : string) : string * N :=
  match search_numeric_suffix normalized with
  | Some (b, g) => (b, (int_of_digits g + 1)%N)
  | None => (normalized, 1%N)
  end.

(** Step 8: the duplicate check.  [existing_names = None] and the empty
    list take the same branch of [if existing_names:]. *)
Definition deduplicate (normalized : string) (existing_names : list string)
    : string :=
  match existing_names with
  | [] => normalized
  | _ =>
      let existing_lower := map lower existing_names in
      if mem normalized existing_lower
      then
        let '(base_name, counter) := suffix_start normalized in
        let counter :=
          next_free (S (length existing_lower)) base_name counter
                    existing_lower in
        suffixed base_name counter
      else normalized
  end.

Definition normalize_name (name : string) (existing_names : list string)
    : string :=
  deduplicate (candidate name) existing_names.

(** Normalizing a list of names one after the other, each against the
    names produced so far. *)
Fixpoint normalize_all (existing : list string) (names : list string)
    : list string :=
  match names with
  | [] => []
  | n :: rest =>
      let r := normalize_name n existing in
      r :: normalize_all (existing ++ [r]) rest
  end.

End Names.

(** ** Exceptions and numbers *)

Module PyNum.
Import PyStr.

Inductive exn : Type := ValueError | TypeError | OverflowError.

Inductive res (A : Type) : Type :=
  | Ok (a : A)
  | Raise (e : exn).
Arguments Ok {A} a.
Arguments Raise {A} e.

Definition bind {A B : Type} (m : res A) (k : A -> res B) : res B :=
  match m with
  | Ok a => k a
  | Raise e => Raise e
  end.

(** [except (ValueError, TypeError)]. *)
Definition caught (e : exn) : bool :=
  match e with
  | ValueError | TypeError => true
  | OverflowError => false
  end.

(** [try: body except (ValueError, TypeError): handler]. *)
Definition try_except {A : Type} (body : res A) (handler : res A) : res A :=
  match body with
  | Ok a => Ok a
  | Raise e => if caught e then handler else Raise e
  end.

(** [mapM] over a list: the first exception wins. *)
Fixpoint map_res {A B : Type} (f : A -> res B) (l : list A) : res (list B) :=
  match l with
  | [] => Ok []
  | x :: r =>
      match f x with
      | Ok y =>
          match map_res f r with
          | Ok ys => Ok (y :: ys)
          | Raise e => Raise e
          end
      | Raise e => Raise e
      end
  end.

Inductive pyfloat : Type :=
  | FNan
  | FInf (negative : bool)
  | FFin (q : Q).

(** Magnitudes from here on round to infinity: 2^1024 - 2^970. *)
Definition overflow_threshold : Z := (2 ^ 1024 - 2 ^ 970)%Z.

Definition overflows (q : Q) : bool :=
  (overflow_threshold * Zpos (Qden q) <=? Z.abs (Qnum q))%Z.

(** The double denoted by the exact value [q]. *)
Definition double_of_Q (q : Q) : pyfloat :=
  if overflows q then FInf (Qnum q <? 0)%Z else FFin q.

(** [float(z)] for a Python integer. *)
Definition float_of_Z (z : Z) : res pyfloat :=
  if overflows (inject_Z z) then Raise OverflowError else Ok (FFin (inject_Z z)).

(** [int(f)]: truncation toward zero. *)
Definition int_of_float (f : pyfloat) : res Z :=
  match f with
  | FNan => Raise ValueError
  | FInf _ => Raise OverflowError
  | FFin q => Ok (Z.quot (Qnum q) (Zpos (Qden q)))
  end.

Definition float_is_zero (f : pyfloat) : bool :=
  match f with
  | FFin q => (Qnum q =? 0)%Z
  | _ => false
  end.

(** Underscores in a numeric literal: only between two digits. *)
Fixpoint valid_underscores_from (prev : option ascii) (s : string) : bool :=
  let prev_digit :=
    match prev with Some p => is_ascii_digit p | None => false end in
  let prev_underscore :=
    match prev with Some p => Ascii.eqb p "_" | None => false end in
  match s with
  | EmptyString => negb prev_underscore
  | String c r =>
      if Ascii.eqb c "_"
      then prev_digit && valid_underscores_from (Some c) r
      else negb (prev_underscore && negb (is_ascii_digit c))
           && valid_underscores_from (Some c) r
  end.

Definition strip_sign (s : string) : bool * string :=
  match s with
  | String "-" r => (true, r)
  | String "+" r => (false, r)
  | _ => (false, s)
  end.

(** The exact value of [mantissa * 10 ^ exponent]. *)
Definition decimal_value (negative : bool) (mantissa : N) (exponent : Z) : Q :=
  let m := if negative then (- Z.of_N mantissa)%Z else Z.of_N mantissa in
  if (0 <=? exponent)%Z
  then inject_Z (m * 10 ^ exponent)%Z
  else Qmake m (Z.to_pos (10 ^ (- exponent))%Z).

(** An optional exponent part at the end of a literal. *)
Definition parse_exponent (s : string) : option Z :=
  match s with
  | EmptyString => Some 0%Z
  | String c r =>
      if Ascii.eqb c "e" || Ascii.eqb c "E"
      then
        let '(negative, ds) := strip_sign r in
        let '(d, t) := span_digits ds in
        if negb (String.eqb d "") && String.eqb t ""
        then Some (if negative then (- Z.of_N (int_of_digits d))%Z
                   else Z.of_N (int_of_digits d))
        else None
      else None
  end.

(** [float(s)] for a string: white space around the literal is ignored;
    the literal is a signed [inf], [infinity] or [nan] in any letter case,
    or a decimal number with optional fraction and exponent. *)
Definition parse_float (s : string) : res pyfloat :=
  if negb (valid_underscores_from None s) then Raise ValueError
  else
    let s := filter (fun c => negb (Ascii.eqb c "_")) s in
    let '(negative, body) := strip_sign (strip s) in
    let word := lower body in
    if String.eqb word "inf" || String.eqb word "infinity"
    then Ok (FInf negative)
    else if String.eqb word "nan" then Ok FNan
    else
      let '(ip, r1) := span_digits body in
      let '(fp, r2) :=
        match r1 with
        | String "." r => span_digits r
        | _ => (EmptyString, r1)
        end in
      if String.eqb (ip +:+ fp) "" then Raise ValueError
      else
        match parse_exponent r2 with
        | None => Raise ValueError
        | Some e =>
            Ok (double_of_Q
                  (decimal_value negative (int_of_digits (ip +:+ fp))
                                 (e - Z.of_nat (String.length fp))))
        end.

End PyNum.

(** ** Cell values and value normalization ([normalize_value_by_type]) *)

Module Values.
Import PyStr PyNum.

(** A cell of a frame, a default value of a mapping, or a normalized
    value.  [VTimestamp] carries nanoseconds since the epoch. *)
Inductive pyval : Type :=
  | VNone
  | VNaT
  | VBool (b : bool)
  | VInt (z : Z)
  | VFloat (f : pyfloat)
  | VStr (s : string)
  | VTimestamp (t : Z).

(** The pandas functions the engine calls with data-dependent results. *)
Record pandas : Type := {
  (** [pd.Timestamp.now()] *)
  now : Z;
  (** [pd.to_datetime(s)] for one string *)
  to_datetime : string -> res pyval;
  (** [str(f)] for a float *)
  str_of_float : pyfloat -> string;
  (** [str(t)] for a timestamp *)
  str_of_timestamp : Z -> string;
  (** [pd.to_numeric(column, errors='coerce')], one entry per value;
      [None] stands for NaN *)
  to_numeric_coerce : list pyval -> list (option pyfloat);
  (** [pd.to_datetime(column, errors='coerce').notna().sum()] *)
  to_datetime_coerce_count : list pyval -> nat;
  (** [series.sample(n=sample_size, random_state=42)] *)
  sample : nat -> list pyval -> list pyval;
  (** [Series.apply] builds the new column from the values the function
      returned and infers its dtype from all of them: the cell stored for
      one returned value, given the whole list (integers next to a missing
      value are stored as floats, the missing value as NaN) *)
  apply_result : list pyval -> pyval -> pyval
}.

(** [pd.isna(value)]. *)
Definition isna (v : pyval) : bool :=
  match v with
  | VNone | VNaT | VFloat FNan => true
  | _ => false
  end.

(** [value is None]. *)
Definition is_none (v : pyval) : bool :=
  match v with
  | VNone => true
  | _ => false
  end.

(** [str(value)]. *)
Definition py_str (E : pandas) (v : pyval) : string :=
  match v with
  | VNone => "None"
  | VNaT => "NaT"
  | VBool true => "True"
  | VBool false => "False"
  | VInt z => pretty z
  | VFloat f => str_of_float E f
  | VStr s => s
  | VTimestamp t => str_of_timestamp E t
  end.

(** [float(value)]. *)
Definition py_float (v : pyval) : res pyfloat :=
  match v with
  | VStr s => parse_float s
  | VInt z => float_of_Z z
  | VBool b => Ok (FFin (if b then 1 else 0))
  | VFloat f => Ok f
  | VNone | VNaT | VTimestamp _ => Raise TypeError
  end.

Definition int_types : list string := ["INT"; "BIGINT"; "SMALLINT"; "TINYINT"].
Definition float_types : list string :=
  ["FLOAT"; "DECIMAL"; "NUMERIC"; "MONEY"; "REAL"].
Definition date_types : list string := ["DATE"; "DATETIME"; "TIME"; "TIMESTAMP"].
Definition date_functions : list string :=
  ["GETDATE()"; "NOW()"; "CURRENT_TIMESTAMP"].

(** [isinstance(v, str) and v.upper() in ['GETDATE()', 'NOW()',
    'CURRENT_TIMESTAMP']]. *)
Definition is_date_function (v : pyval) : bool :=
  match v with
  | VStr s => mem (upper s) date_functions
  | _ => false
  end.

(** [value == '' or (isinstance(value, str) and not value.strip())],
    preceded by [pd.isna(value)]. *)
Definition is_empty (v : pyval) : bool :=
  isna v
  || match v with
     | VStr s => String.eqb s "" || String.eqb (strip s) ""
     | _ => false
     end.

(** The letter i with acute accent, for the word [si] with accent. *)
Definition i_acute : ascii := chr 237.

Definition true_values : list string :=
  ["true"; "1"; "s"; "si"; String "s" (String i_acute ""); "yes"; "y"].
Definition false_values : list string := ["false"; "0"; "n"; "no"].

(** [re.search(r'\((\d+)\)', s)]: the digits of the leftmost parenthesised
    group of digits. *)
Fixpoint search_paren_digits (s : string) : option string :=
  match s with
  | EmptyString => None
  | String c r =>
      let '(d, t) := span_digits r in
      if Ascii.eqb c "(" && negb (String.eqb d "") && startswith ")" t
      then Some d
      else search_paren_digits r
  end.

(** [value.strip()] when the value is a string. *)
Definition strip_if_str (v : pyval) : pyval :=
  match v with
  | VStr s => VStr (strip s)
  | _ => v
  end.

Definition normalize_value_by_type (E : pandas) (value : pyval)
    (sql_type : string) (nullable : bool) (default_value : pyval)
    : res pyval :=
  let upper_type := upper sql_type in
  if is_empty value then
    if nullable then Ok VNone
    else if negb (is_none default_value) then
      if is_date_function default_value then Ok (VTimestamp (now E))
      else Ok default_value
    else if contains_any int_types upper_type then Ok (VInt 0)
    else if contains_any float_types upper_type then Ok (VFloat (FFin 0))
    else if contains_any date_types upper_type then Ok (VTimestamp (now E))
    else if contains "BIT" upper_type then Ok (VInt 0)
    else Ok (VStr "")
  else if contains_any int_types upper_type then
    try_except
      (bind (py_float (strip_if_str value)) (fun f =>
       bind (int_of_float f) (fun converted => Ok (VInt converted))))
      (Ok (if negb (is_none default_value) then default_value
           else if nullable then VNone else VInt 0))
  else if contains_any float_types upper_type then
    try_except
      (bind (py_float (strip_if_str value)) (fun converted =>
       Ok (VFloat converted)))
      (Ok (if negb (is_none default_value) then default_value
           else if nullable then VNone else VFloat (FFin 0)))
  else if contains_any date_types upper_type then
    if is_date_function value then Ok (VTimestamp (now E))
    else
      try_except
        (match value with
         | VStr s => to_datetime E s
         | _ => Ok value
         end)
        (if negb (is_none default_value) then
           if is_date_function default_value then Ok (VTimestamp (now E))
           else Ok default_value
         else Ok (if nullable then VNone else VTimestamp (now E)))
  else if contains "BIT" upper_type then
    let fallback :=
      Ok (if negb (is_none default_value) then default_value
          else if nullable then VNone else VInt 0) in
    match value with
    | VBool b => Ok (VInt (if b then 1 else 0))
    | VInt z => Ok (VInt (if (z =? 0)%Z then 0 else 1))
    | VFloat f => Ok (VInt (if float_is_zero f then 0 else 1))
    | VStr s =>
        let value_lower := strip (lower s) in
        if mem value_lower true_values then Ok (VInt 1)
        else if mem value_lower false_values then Ok (VInt 0)
        else fallback
    | _ => fallback
    end
  else
    if is_none value || isna value then Ok (if nullable then VNone else VStr "")
    else
      let str_value := py_str E value in
      let str_value :=
        if contains "VARCHAR" upper_type || contains "CHAR" upper_type then
          match search_paren_digits sql_type with
          | Some ds =>
              let max_length := int_of_digits ds in
              if (max_length <? N.of_nat (String.length str_value))%N
              then take (N.to_nat max_length) str_value
              else str_value
          | None => str_value
          end
        else str_value in
      Ok (VStr str_value).

(** The declared maximum length of a text type: the type reaches the text
    branch (no integer, decimal, temporal or bit word in it), it contains
    [CHAR], and its first parenthesised group of digits gives the length. *)
Definition declared_max_length (sql_type : string) : option N :=
  let upper_type := upper sql_type in
  if contains_any int_types upper_type
     || contains_any float_types upper_type
     || contains_any date_types upper_type
     || contains "BIT" upper_type
  then None
  else if contains "VARCHAR" upper_type || contains "CHAR" upper_type
  then option_map int_of_digits (search_paren_digits sql_type)
  else None.

End Values.

(** ** Frames, column mappings, frame normalization and validation *)

Module Frames.
Import PyStr PyNum Values.

(** A frame: its column labels and its rows, each row holding one cell per
    column.  [len(df)] is the number of rows. *)
Record DataFrame : Type := {
  columns : list string;
  rows : list (list pyval)
}.

(** The configuration of one column.  An absent key is [None]; an absent
    or null [default_value] is [VNone]. *)
Record config : Type := {
  cfg_renamed_to : option string;
  cfg_sql_type : option string;
  cfg_nullable : option bool;
  cfg_default_value : pyval
}.

(** [column_mappings]: original column name to configuration, in the
    order of the dictionary. *)
Definition mapping : Type := list (string * config).

Definition keys (m : mapping) : list string := map fst m.

(** The positions of a label among the columns. *)
Fixpoint positions_from (i : nat) (name : string) (cols : list string)
    : list nat :=
  match cols with
  | [] => []
  | c :: r =>
      if String.eqb c name
      then i :: positions_from (S i) name r
      else positions_from (S i) name r
  end.

Definition positions (name : string) (cols : list string) : list nat :=
  positions_from 0 name cols.

Definition cell (row : list pyval) (j : nat) : pyval :=
  default VNone (row !! j).

(** The values of the column at position [j]. *)
Definition column_values (j : nat) (rs : list (list pyval)) : list pyval :=
  map (fun row => cell row j) rs.

(** The cells at position [j], row by row; [None] where a row is shorter. *)
Definition column_at (j : nat) (rs : list (list pyval)) : list (option pyval) :=
  map (fun row => row !! j) rs.

(** Assigning a column: one new value per row. *)
Definition set_column (j : nat) (vals : list pyval) (rs : list (list pyval))
    : list (list pyval) :=
  zip_with (fun row v => <[j := v]> row) rs vals.

Inductive warning : Type :=
  | ColumnMissing (column : string)
  | NormalizeError (column : string) (e : exn).

(** One iteration of the loop of [normalize_dataframe_by_mappings].  When
    the label occurs once, [df[col]] is a column and [apply] calls the
    normalizer on each cell and builds the new column from the results
    ([apply_result]); an exception in any cell leaves the column as it
    was.  When the label is duplicated, [df[col]] is a sub-frame and
    [apply] hands whole columns to the normalizer, whose emptiness test
    raises [ValueError] (not reached when there are no rows). *)
Definition normalize_column (E : pandas) (df_result : DataFrame)
    (original_col : string) (cfg : config) : DataFrame * list warning :=
  if negb (mem original_col (columns df_result))
  then (df_result, [ColumnMissing original_col])
  else
    let sql_type := default "NVARCHAR(255)" (cfg_sql_type cfg) in
    let nullable := default true (cfg_nullable cfg) in
    let default_value := cfg_default_value cfg in
    match positions original_col (columns df_result) with
    | [j] =>
        match map_res
                (fun x => normalize_value_by_type E x sql_type nullable
                                                  default_value)
                (column_values j (rows df_result)) with
        | Ok vals =>
            ({| columns := columns df_result;
                rows := set_column j (map (apply_result E vals) vals)
                                   (rows df_result) |}, [])
        | Raise e => (df_result, [NormalizeError original_col e])
        end
    | _ =>
        match rows df_result with
        | [] => (df_result, [])
        | _ => (df_result, [NormalizeError original_col ValueError])
        end
    end.

Fixpoint normalize_columns (E : pandas) (df_result : DataFrame)
    (column_mappings : mapping) : DataFrame * list warning :=
  match column_mappings with
  | [] => (df_result, [])
  | (original_col, cfg) :: rest =>
      let '(df1, w1) := normalize_column E df_result original_col cfg in
      let '(df2, w2) := normalize_columns E df1 rest in
      (df2, (w1 ++ w2)%list)
  end.

Definition normalize_dataframe_by_mappings (E : pandas) (df : DataFrame)
    (column_mappings : mapping) : DataFrame * list warning :=
  normalize_columns E df column_mappings.

(** *** [validate_column_mappings] *)

Inductive validation_error : Type :=
  | COLUMN_NOT_FOUND (column : string)
  | DUPLICATE_SQL_NAME (column sql_name : string)
  | INVALID_SQL_TYPE (column sql_type : string)
  | NAME_TOO_LONG (column sql_name : string)
  | INVALID_SQL_NAME (column sql_name : string).

Definition valid_types : list string :=
  ["INT"; "BIGINT"; "SMALLINT"; "TINYINT";
   "FLOAT"; "REAL"; "DECIMAL"; "NUMERIC"; "MONEY";
   "DATE"; "DATETIME"; "DATETIME2"; "TIME"; "TIMESTAMP";
   "BIT";
   "VARCHAR"; "NVARCHAR"; "CHAR"; "NCHAR"; "TEXT"; "NTEXT"].

Definition is_name_start (c : ascii) : bool :=
  is_ascii_lower c || is_ascii_upper c || Ascii.eqb c "_".

Definition is_name_char (c : ascii) : bool :=
  is_name_start c || is_ascii_digit c.

(** The rest of a name up to the end of the string or up to a final line
    feed, where [$] also matches. *)
Fixpoint name_tail (s : string) : bool :=
  match s with
  | EmptyString => true
  | String c r =>
      if Ascii.eqb c (chr 10) && String.eqb r "" then true
      else is_name_char c && name_tail r
  end.

(** [re.match(r'^[a-zA-Z_][a-zA-Z0-9_]*$', s)]. *)
Definition valid_sql_name (s : string) : bool :=
  match s with
  | EmptyString => false
  | String c r => is_name_start c && name_tail r
  end.

Definition sql_name_of (original_col : string) (cfg : config) : string :=
  default original_col (cfg_renamed_to cfg).

(** Check 1: every mapped column exists. *)
Definition check_columns (df : DataFrame) (m : mapping)
    : list validation_error :=
  flat_map (fun '(original_col, _) =>
              if negb (mem original_col (columns df))
              then [COLUMN_NOT_FOUND original_col] else []) m.

(** Check 2: no two SQL names equal up to letter case. *)
Fixpoint check_duplicates (sql_names : list string) (m : mapping)
    : list validation_error :=
  match m with
  | [] => []
  | (original_col, cfg) :: rest =>
      let sql_name := lower (sql_name_of original_col cfg) in
      ((if mem sql_name sql_names
        then [DUPLICATE_SQL_NAME original_col sql_name] else [])
       ++ check_duplicates (sql_names ++ [sql_name]) rest)%list
  end.

(** Check 3: the SQL type contains one of the known type words. *)
Definition check_types (m : mapping) : list validation_error :=
  flat_map (fun '(original_col, cfg) =>
              let sql_type := upper (default "" (cfg_sql_type cfg)) in
              if negb (contains_any valid_types sql_type)
              then [INVALID_SQL_TYPE original_col sql_type] else []) m.

(** Check 4: length and shape of the SQL names. *)
Definition check_names (m : mapping) : list validation_error :=
  flat_map (fun '(original_col, cfg) =>
              let sql_name := sql_name_of original_col cfg in
              ((if (128 <? String.length sql_name)%nat
                then [NAME_TOO_LONG original_col sql_name] else [])
               ++ (if negb (valid_sql_name sql_name)
                   then [INVALID_SQL_NAME original_col sql_name] else [])
              )%list) m.

Definition validate_column_mappings (df : DataFrame) (column_mappings : mapping)
    : bool * list validation_error :=
  let errors :=
    (check_columns df column_mappings
     ++ check_duplicates [] column_mappings
     ++ check_types column_mappings
     ++ check_names column_mappings)%list in
  (match errors with [] => true | _ => false end, errors).

End Frames.

(** ** Type inference ([infer_sql_type]) *)

Module Inference.
Import PyStr PyNum Values.

(** The dtype classes the function distinguishes.  [DObject] covers the
    object and string dtypes; [DOther] covers the rest (boolean,
    categorical, ...). *)
Inductive Dtype : Type := DInt | DFloat | DDatetime | DObject | DOther.

Record Series : Type := {
  dtype : Dtype;
  values : list pyval
}.

(** The messages appended to [result['warnings']]; the two shares carry
    the number of successes and the number of values instead of the
    formatted percentage. *)
Inductive profile_warning : Type :=
  | EmptyColumn
  | NonNumericShare (converted total : nat)
  | NonDateShare (converted total : nat)
  | UnknownDtype.

Record profile : Type := {
  sql_type : string;
  confidence : Q;
  nullable : bool;
  default_value : option string;
  warnings : list profile_warning;
  mixed_types : bool
}.

Definition bool_values : list string :=
  ["true"; "false"; "1"; "0"; "s"; "n"; "si";
   String "s" (String i_acute ""); "no"; "yes"].

(** The distinct elements of a list of strings, first occurrences kept. *)
Fixpoint distinct (l : list string) : list string :=
  match l with
  | [] => []
  | x :: r => x :: List.filter (fun y => negb (String.eqb x y)) (distinct r)
  end.

Definition int_values (l : list pyval) : list Z :=
  flat_map (fun v => match v with VInt z => [z] | _ => [] end) l.

Definition min_of (l : list Z) : Z :=
  match l with
  | [] => 0%Z
  | x :: r => fold_left Z.min r x
  end.

Definition max_of (l : list Z) : Z :=
  match l with
  | [] => 0%Z
  | x :: r => fold_left Z.max r x
  end.

Definition is_nan_entry (o : option pyfloat) : bool :=
  match o with
  | None | Some FNan => true
  | _ => false
  end.

Definition is_infinite_entry (o : option pyfloat) : bool :=
  match o with
  | Some (FInf _) => true
  | _ => false
  end.

Definition is_integral_entry (o : option pyfloat) : bool :=
  match o with
  | Some (FFin q) => (Z.rem (Qnum q) (Zpos (Qden q)) =? 0)%Z
  | _ => false
  end.

(** [(converted == converted.astype(int, errors='ignore')).all()]: a NaN
    never equals itself; with an infinite entry the cast is abandoned and
    the column is compared with itself; otherwise every entry must equal
    its truncation.  This is the comparison for entries within the range
    of a 64-bit integer; beyond it the cast depends on the platform. *)
Definition all_integral (converted : list (option pyfloat)) : bool :=
  if existsb is_nan_entry converted then false
  else if existsb is_infinite_entry converted then true
  else List.forallb is_integral_entry converted.

(** The observed maximum of [len(str(v))]. *)
Definition max_length (E : pandas) (non_null : list pyval) : N :=
  fold_left N.max
            (map (fun v => N.of_nat (String.length (py_str E v))) non_null)
            0%N.

(** The size of the text type for an observed maximum length. *)
Definition varchar_size (max_length : N) : N :=
  if (max_length <=? 50)%N then 50%N
  else if (max_length <=? 100)%N then 100%N
  else if (max_length <=? 255)%N then 255%N
  else if (max_length <=? 500)%N then 500%N
  else N.max (max_length * 5 / 4) 1000.

(** The fixed sizes below the proportional rule. *)
Definition text_tiers : list N := [50; 100; 255; 500]%N.

(** [a / b > 0.9] for counts [a] and [b > 0]. *)
Definition above_nine_tenths (a b : nat) : bool := (9 * b <? 10 * a)%nat.

Definition rate (a b : nat) : Q := Qmake (Z.of_nat a) (Pos.of_nat b).

(** The part of the series that is analysed. *)
Definition sampled (E : pandas) (series : Series) (sample_size : nat)
    : list pyval :=
  if (sample_size <? length (values series))%nat
  then sample E sample_size (values series)
  else values series.

(** [sample.dropna()]. *)
Definition dropna (l : list pyval) : list pyval :=
  List.filter (fun v => negb (isna v)) l.

(** The test of the boolean rule: the distinct lower-cased texts all belong
    to [bool_values] and there are at most four of them. *)
Definition boolean_like (E : pandas) (non_null : list pyval) : bool :=
  let unique_values :=
    distinct (map (fun v => lower (py_str E v)) non_null) in
  List.forallb (fun u => mem u bool_values) unique_values
  && (length unique_values <=? 4)%nat.

(** [numeric_converted.notna().sum()]. *)
Definition numeric_ok (E : pandas) (non_null : list pyval) : nat :=
  length (List.filter (fun o => negb (is_nan_entry o))
                      (to_numeric_coerce E non_null)).

Definition infer_sql_type (E : pandas) (series : Series) (sample_size : nat)
    : profile :=
  let sample := sampled E series sample_size in
  let null_count := length (List.filter isna sample) in
  let total_count := length sample in
  let non_null := dropna sample in
  (* null_count / total_count > 0.05 *)
  let nullable0 := (total_count <? 20 * null_count)%nat in
  match non_null with
  | [] =>
      {| sql_type := "NVARCHAR(255)"; confidence := 0; nullable := true;
         default_value := None; warnings := [EmptyColumn];
         mixed_types := false |}
  | _ =>
      if boolean_like E non_null
      then
        {| sql_type := "BIT"; confidence := 1; nullable := nullable0;
           default_value := Some "0"; warnings := []; mixed_types := false |}
      else
        match dtype series with
        | DInt =>
            let min_val := min_of (int_values non_null) in
            let max_val := max_of (int_values non_null) in
            let t :=
              if (0 <=? min_val)%Z && (max_val <=? 255)%Z then "TINYINT"
              else if (-32768 <=? min_val)%Z && (max_val <=? 32767)%Z
                   then "SMALLINT"
              else if (-2147483648 <=? min_val)%Z
                      && (max_val <=? 2147483647)%Z
                   then "INT"
              else "BIGINT" in
            {| sql_type := t; confidence := 1; nullable := nullable0;
               default_value := Some "0"; warnings := [];
               mixed_types := false |}
        | DFloat =>
            {| sql_type := "FLOAT"; confidence := 1; nullable := nullable0;
               default_value := Some "0.0"; warnings := [];
               mixed_types := false |}
        | DDatetime =>
            {| sql_type := "DATETIME2"; confidence := 1; nullable := nullable0;
               default_value := Some "GETDATE()"; warnings := [];
               mixed_types := false |}
        | DObject =>
            let n := length non_null in
            let k := numeric_ok E non_null in
            if above_nine_tenths k n then
              let is_int := all_integral (to_numeric_coerce E non_null) in
              let mixed := (k <? n)%nat in
              {| sql_type := if is_int then "INT" else "FLOAT";
                 confidence := rate k n;
                 nullable := nullable0;
                 default_value := Some (if is_int then "0" else "0.0");
                 warnings := if mixed then [NonNumericShare k n] else [];
                 mixed_types := mixed |}
            else
              let date_ok := to_datetime_coerce_count E non_null in
              if above_nine_tenths date_ok n then
                let mixed := (date_ok <? n)%nat in
                {| sql_type := "DATE"; confidence := rate date_ok n;
                   nullable := nullable0;
                   default_value := Some "GETDATE()";
                   warnings := if mixed then [NonDateShare date_ok n] else [];
                   mixed_types := mixed |}
              else
                {| sql_type :=
                     "NVARCHAR(" +:+ pretty (varchar_size (max_length E non_null))
                     +:+ ")";
                   confidence := 1; nullable := nullable0;
                   default_value := Some "''"; warnings := [];
                   mixed_types := false |}
        | DOther =>
            {| sql_type := "NVARCHAR(255)"; confidence := 0;
               nullable := nullable0; default_value := None;
               warnings := [UnknownDtype]; mixed_types := false |}
        end
  end.

End Inference.

(** ** Saving one frame ([_save_dataframe_to_destination]) *)

Module Destination.
Import PyStr PyNum Values Frames.

Inductive db_command : Type :=
  | Execute (sql : string)
  | ExecuteRow (sql : string) (params : list pyval)
  | ExecuteMany (sql : string) (params : list (list pyval))
  | Commit
  (* the row saved by [ResultadosProcesados(...).save(using='destino')] *)
  | SaveResumen (estado : string) (tabla : string) (registros : Z).

(** What the function does, in order: commands the destination accepted,
    commands it rejected (the call raised), and the two log entries that
    report the outcome of the validation. *)
Inductive event : Type :=
  | Db (c : db_command)
  | DbRejected (c : db_command)
  | LogValidationErrors (errors : list validation_error)
  | LogValidationOk.

(** The destination database: whether the connection opens, which
    commands it accepts, and [cursor.rowcount] after [executemany]. *)
Record destination : Type := {
  connect_ok : bool;
  accepts : db_command -> bool;
  rowcount : Z
}.

(** The functions of the repository that the pipeline calls and that are
    not embedded here; [None] stands for a raised exception. *)
Record helpers : Type := {
  (** [self._generate_create_table_sql(df, table, source)] *)
  generate_create_table_sql : DataFrame -> string -> mapping -> option string;
  (** [sql_utils.normalize_df_for_sql(df, strict=False)] *)
  normalize_df_for_sql : DataFrame -> option DataFrame;
  (** [sql_utils.apply_default_values_from_mappings(df, mappings)] *)
  apply_default_values_from_mappings : DataFrame -> mapping -> option DataFrame
}.

(** A computation that appends to the trace and may raise. *)
Definition M (A : Type) : Type := list event -> option A * list event.

Definition ret {A : Type} (a : A) : M A := fun tr => (Some a, tr).

Definition mbind {A B : Type} (m : M A) (k : A -> M B) : M B :=
  fun tr =>
    match m tr with
    | (Some a, tr') => k a tr'
    | (None, tr') => (None, tr')
    end.

Notation "x <- m ;; k" := (mbind m (fun x => k))
  (at level 100, m at next level, right associativity).
Notation "m ;;; k" := (mbind m (fun _ => k))
  (at level 100, right associativity).

Definition emit (e : event) : M unit := fun tr => (Some tt, (tr ++ [e])%list).

Definition raise {A : Type} : M A := fun tr => (None, tr).

Definition lift {A : Type} (o : option A) : M A :=
  match o with
  | Some a => ret a
  | None => raise
  end.

(** A call on the cursor or the connection. *)
Definition run_db (D : destination) (c : db_command) : M unit :=
  if accepts D c then emit (Db c) else (emit (DbRejected c) ;;; raise).

(** [try: body except Exception: handler]. *)
Definition catch {A : Type} (body handler : M A) : M A :=
  fun tr =>
    match body tr with
    | (Some a, tr') => (Some a, tr')
    | (None, tr') => handler tr'
    end.

(** [self.column_mappings[source_table_name]] when both exist, else the
    empty dictionary. *)
Definition lookup_mappings (self_column_mappings : list (string * mapping))
    (source_table_name : option string) : mapping :=
  match source_table_name with
  | Some name =>
      if String.eqb name "" then []
      else
        match List.find (fun p => String.eqb (fst p) name)
                        self_column_mappings with
        | Some (_, m) => m
        | None => []
        end
  | None => []
  end.

Definition lookup_config (m : mapping) (col : string) : option config :=
  match List.find (fun p => String.eqb (fst p) col) m with
  | Some (_, cfg) => Some cfg
  | None => None
  end.

(** The cleaned target name of a column. *)
Definition clean_column (m : mapping) (col : string) : string :=
  let custom_name :=
    match lookup_config m col with
    | Some cfg => default col (cfg_renamed_to cfg)
    | None => col
    end in
  let clean_col := replace_char "-" "_" (replace_char " " "_" custom_name) in
  filter (fun c => isalnum c || Ascii.eqb c "_") clean_col.

Fixpoint join (sep : string) (l : list string) : string :=
  match l with
  | [] => ""
  | [x] => x
  | x :: r => x +:+ sep +:+ join sep r
  end.

Definition drop_sql (table : string) : string :=
  "IF OBJECT_ID('" +:+ table +:+ "', 'U') IS NOT NULL DROP TABLE ["
  +:+ table +:+ "]".

Definition insert_sql (table : string) (clean_columns_list : list string)
    : string :=
  "INSERT INTO [" +:+ table +:+ "] ("
  +:+ join ", " (map (fun c => "[" +:+ c +:+ "]") clean_columns_list)
  +:+ ") VALUES ("
  +:+ join ", " (map (fun _ => "?") clean_columns_list) +:+ ")".

(** [df.empty]: one of the two axes has length zero. *)
Definition df_empty (df : DataFrame) : bool :=
  match rows df, columns df with
  | [], _ | _, [] => true
  | _, _ => false
  end.

(** The tuples handed to the cursor: a missing value becomes [None]. *)
Definition insert_values (df : DataFrame) : list (list pyval) :=
  map (map (fun v => if isna v then VNone else v)) (rows df).

(** The row-by-row retry after a failed [executemany]. *)
Fixpoint insert_rows (D : destination) (sql : string)
    (vals : list (list pyval)) (inserted : Z) : M Z :=
  match vals with
  | [] => ret inserted
  | v :: r =>
      if accepts D (ExecuteRow sql v)
      then emit (Db (ExecuteRow sql v)) ;;; insert_rows D sql r (inserted + 1)%Z
      else emit (DbRejected (ExecuteRow sql v)) ;;; insert_rows D sql r inserted
  end.

(** The defaults step: skipped without a mapping; when the helper raises,
    the normalized frame is used as it is. *)
Definition with_defaults (H : helpers) (df_normalized : DataFrame)
    (column_configs : mapping) : DataFrame :=
  match column_configs with
  | [] => df_normalized
  | _ =>
      match apply_default_values_from_mappings H df_normalized
                                               column_configs with
      | Some d => d
      | None => df_normalized
      end
  end.

(** The result of the function, and the trace of the calls on the
    connection and of the validation report; the summary row that both
    exits save afterwards is added by [destination_trace]. *)
Record outcome : Type := {
  success : bool;
  records_inserted : Z;
  trace : list event
}.

(** Step 2 of the function: validation, normalization, defaults and
    insertion of the rows of a non-empty frame.  The result is
    [registros_insertados]. *)
Definition insert_frame (E : pandas) (H : helpers) (D : destination)
    (column_mappings : mapping) (df_datos : DataFrame)
    (nombre_tabla_destino : string) : M Z :=
  if df_empty df_datos then ret 0%Z
  else
    let sql :=
      insert_sql nombre_tabla_destino
                 (map (clean_column column_mappings) (columns df_datos)) in
    (match column_mappings with
     | [] => ret tt
     | _ =>
         let '(is_valid, validation_errors) :=
           validate_column_mappings df_datos column_mappings in
         if is_valid then emit LogValidationOk
         else emit (LogValidationErrors validation_errors)
         (* "Continuar pero registrar errores" *)
     end) ;;;
    df_normalized <-
      (match column_mappings with
       | [] => lift (normalize_df_for_sql H df_datos)
       | _ =>
           ret (fst (normalize_dataframe_by_mappings E df_datos
                                                     column_mappings))
       end) ;;
    let df_with_defaults := with_defaults H df_normalized column_mappings in
    let valores_a_insertar := insert_values df_with_defaults in
    catch
      (match valores_a_insertar with
       | [] => ret 0%Z
       | _ =>
           run_db D (ExecuteMany sql valores_a_insertar) ;;;
           ret (if (rowcount D =? -1)%Z
                then Z.of_nat (length valores_a_insertar)
                else rowcount D)
       end)
      (insert_rows D sql valores_a_insertar 0%Z).

(** The body of the outer [try]: connect, build the CREATE TABLE text,
    drop and create the table and commit (step 1), insert (step 2),
    commit. *)
Definition save_body (E : pandas) (H : helpers) (D : destination)
    (self_column_mappings : list (string * mapping))
    (df_datos : DataFrame) (nombre_tabla_destino : string)
    (source_table_name : option string) : M Z :=
  (if connect_ok D then ret tt else raise) ;;;
  let column_mappings :=
    lookup_mappings self_column_mappings source_table_name in
  create_table_sql <-
    lift (generate_create_table_sql H df_datos nombre_tabla_destino
                                    column_mappings) ;;
  run_db D (Execute (drop_sql nombre_tabla_destino)) ;;;
  run_db D (Execute create_table_sql) ;;;
  run_db D Commit ;;;
  registros_insertados <-
    insert_frame E H D column_mappings df_datos nombre_tabla_destino ;;
  run_db D Commit ;;;
  ret registros_insertados.

Definition _save_dataframe_to_destination (E : pandas) (H : helpers)
    (D : destination) (self_column_mappings : list (string * mapping))
    (df_datos : DataFrame) (nombre_tabla_destino : string)
    (source_table_name : option string) : outcome :=
  match save_body E H D self_column_mappings df_datos nombre_tabla_destino
                  source_table_name [] with
  | (Some n, tr) => {| success := true; records_inserted := n; trace := tr |}
  | (None, tr) => {| success := false; records_inserted := 0; trace := tr |}
  end.

(** Both exits of the function then save a summary row into the
    destination database through the ORM: state [COMPLETADO] with the
    number of inserted records, or state [ERROR] with zero records.  When
    this save raises, the exception is printed and the result stays as it
    is. *)
Definition resumen (o : outcome) (nombre_tabla_destino : string)
    : db_command :=
  if success o
  then SaveResumen "COMPLETADO" nombre_tabla_destino (records_inserted o)
  else SaveResumen "ERROR" nombre_tabla_destino 0.

(** Everything one call asks of the destination database: the trace of
    the connection, then the summary row. *)
Definition destination_trace (E : pandas) (H : helpers) (D : destination)
    (self_column_mappings : list (string * mapping)) (df_datos : DataFrame)
    (nombre_tabla_destino : string) (source_table_name : option string)
    : list event :=
  let o :=
    _save_dataframe_to_destination E H D self_column_mappings df_datos
                                   nombre_tabla_destino source_table_name in
  let c := resumen o nombre_tabla_destino in
  (trace o ++ [if accepts D c then Db c else DbRejected c])%list.

(** The log entries written by the validation step. *)
Definition is_validation_log (e : event) : bool :=
  match e with
  | LogValidationErrors _ | LogValidationOk => true
  | _ => false
  end.

(** A computation that only adds to the end of the trace. *)
Definition extends {A : Type} (m : M A) : Prop :=
  forall tr, exists suffix, snd (m tr) = (tr ++ suffix)%list.

(** The commands the destination carried out. *)
Definition executed (tr : list event) : list db_command :=
  flat_map (fun e => match e with Db c => [c] | _ => [] end) tr.

End Destination.

(** ** The sheet loop ([_process_excel_sheets_individually]) *)

Module Sheets.

(** [result_info_hoja], the dictionary returned for one sheet. *)
Record sheet_info : Type := {
  info_table_name : option string;
  info_resultado_id : option string;
  info_error : option string
}.

(** What the body of the per-sheet [try] does up to the test of
    [success_hoja]: it creates and starts the tracker of the sheet, reads,
    cleans and filters the sheet, counts its records and saves them, which
    yields a success flag and a dictionary, or one of these steps raises
    an exception with the given text. *)
Inductive sheet_run : Type :=
  | Returned (registros_hoja : nat) (success_hoja : bool) (info : sheet_info)
  | Raised (message : string).

(** The calls around [run] that write to the logs database or to the log
    file and are not protected by a [try] of their own.  [Some message]
    stands for an exception with that text, [None] for a call that
    returns. *)
Record log_writes : Type := {
  (** [logging.basicConfig] with the file handler, before the outer
      [try]; [false] when it raises, and the function with it *)
  configurar_logging : bool;
  (** [self._get_excel_file()] *)
  get_excel_file : option string;
  (** [MigrationLog.log] and [main_tracker.actualizar_estado] before the
      loop *)
  antes_del_bucle : option string;
  (** [tracker_hoja.finalizar_exito] after the sheet was saved *)
  finalizar_exito : nat -> string -> option string;
  (** [tracker_hoja.finalizar_error] after the save of the sheet returned
      a failure *)
  finalizar_error : nat -> string -> option string;
  (** [tracker_hoja.finalizar_error] in the [except] of the sheet; [None]
      also when there is no tracker to call *)
  finalizar_error_en_except : nat -> string -> option string;
  (** [main_tracker.actualizar_estado] and [MigrationLog.log] after the
      loop, for the overall flag *)
  despues_del_bucle : bool -> option string;
  (** [main_tracker.actualizar_estado] and [MigrationLog.log] in the outer
      [except]; [false] when one raises, and the function with it *)
  except_general : bool
}.

Record hoja_procesada : Type := {
  ok_sheet_name : string;
  ok_table_name : string;
  ok_registros : nat;
  ok_resultado_id : string
}.

Record hoja_con_error : Type := {
  err_sheet_name : string;
  err_error : string
}.

(** The loop variables. *)
Record loop_state : Type := {
  hojas_procesadas : list hoja_procesada;
  hojas_con_error : list hoja_con_error;
  total_registros_procesados : nat
}.

(** [result_info_consolidado]. *)
Record consolidated : Type := {
  success : bool;
  n_hojas_procesadas : nat;
  n_hojas_con_error : nat;
  total_hojas : nat;
  total_registros : nat;
  detalles_hojas_exitosas : list hoja_procesada;
  detalles_hojas_error : list hoja_con_error
}.

(** The second component of the result: the consolidated dictionary, or
    the dictionary of the outer [except], which reports no processed
    sheet. *)
Inductive resultado : Type :=
  | Consolidado (info : consolidated)
  | ErrorGeneral (error : string) (n_hojas_con_error : nat).

(** One iteration either goes on with the next sheet or lets an exception
    escape from the loop. *)
Inductive step : Type :=
  | Continue (st : loop_state)
  | Escapes (message : string).

(** The [except] of the sheet: the tracker records the error, then the
    sheet is listed as failed. *)
Definition en_except (L : log_writes) (hoja_index : nat) (sheet_name : string)
    (message : string) (st : loop_state) : step :=
  match finalizar_error_en_except L hoja_index sheet_name with
  | Some fault => Escapes fault
  | None =>
      Continue
        {| hojas_procesadas := hojas_procesadas st;
           hojas_con_error :=
             hojas_con_error st ++
             [{| err_sheet_name := sheet_name; err_error := message |}];
           total_registros_procesados := total_registros_procesados st |}
  end.

(** One iteration of [for sheet_name in selected_sheets]. *)
Definition process_sheet (L : log_writes) (run : nat -> string -> sheet_run)
    (hoja_index : nat) (sheet_name : string) (st : loop_state) : step :=
  match run hoja_index sheet_name with
  | Returned registros_hoja true info =>
      match finalizar_exito L hoja_index sheet_name with
      | None =>
          Continue
            {| hojas_procesadas :=
                 hojas_procesadas st ++
                 [{| ok_sheet_name := sheet_name;
                     ok_table_name :=
                       default ("Proceso_" +:+ sheet_name)
                               (info_table_name info);
                     ok_registros := registros_hoja;
                     ok_resultado_id :=
                       default "N/A" (info_resultado_id info) |}];
               hojas_con_error := hojas_con_error st;
               total_registros_procesados :=
                 total_registros_procesados st + registros_hoja |}
      | Some fault => en_except L hoja_index sheet_name fault st
      end
  | Returned _ false info =>
      match finalizar_error L hoja_index sheet_name with
      | None =>
          Continue
            {| hojas_procesadas := hojas_procesadas st;
               hojas_con_error :=
                 hojas_con_error st ++
                 [{| err_sheet_name := sheet_name;
                     err_error :=
                       default "Error desconocido procesando hoja"
                               (info_error info) |}];
               total_registros_procesados := total_registros_procesados st |}
      | Some fault => en_except L hoja_index sheet_name fault st
      end
  | Raised message => en_except L hoja_index sheet_name message st
  end.

(** The loop; [hoja_index] is the index of the previous sheet. *)
Fixpoint process_sheets (L : log_writes) (run : nat -> string -> sheet_run)
    (hoja_index : nat) (selected_sheets : list string) (st : loop_state)
    : step :=
  match selected_sheets with
  | [] => Continue st
  | sheet_name :: rest =>
      match process_sheet L run (S hoja_index) sheet_name st with
      | Continue st' => process_sheets L run (S hoja_index) rest st'
      | Escapes message => Escapes message
      end
  end.

Definition initial_state : loop_state :=
  {| hojas_procesadas := []; hojas_con_error := [];
     total_registros_procesados := 0 |}.

(** The outer [except]: [n] is [len(selected_sheets)], or 0 when the list
    was not read yet. *)
Definition error_general (L : log_writes) (message : string) (n : nat)
    : option (bool * resultado) :=
  if except_general L
  then Some (false,
             ErrorGeneral ("Error general procesando Excel: " +:+ message) n)
  else None.

(** The function; [None] when it raises. *)
Definition _process_excel_sheets_individually (L : log_writes)
    (run : nat -> string -> sheet_run) (selected_sheets : list string)
    : option (bool * resultado) :=
  if negb (configurar_logging L) then None
  else
    match get_excel_file L with
    | Some message => error_general L message 0
    | None =>
        match selected_sheets with
        | [] => error_general L "No hay hojas seleccionadas en el Excel" 0
        | _ =>
            let n := length selected_sheets in
            match antes_del_bucle L with
            | Some message => error_general L message n
            | None =>
                match process_sheets L run 0 selected_sheets initial_state with
                | Escapes message => error_general L message n
                | Continue st =>
                    let hojas_exitosas := length (hojas_procesadas st) in
                    let hojas_fallidas := length (hojas_con_error st) in
                    let success_general := (0 <? hojas_exitosas)%nat in
                    match despues_del_bucle L success_general with
                    | Some message => error_general L message n
                    | None =>
                        Some (success_general,
                              Consolidado
                                {| success := success_general;
                                   n_hojas_procesadas := hojas_exitosas;
                                   n_hojas_con_error := hojas_fallidas;
                                   total_hojas := n;
                                   total_registros :=
                                     total_registros_procesados st;
                                   detalles_hojas_exitosas :=
                                     hojas_procesadas st;
                                   detalles_hojas_error :=
                                     hojas_con_error st |})
                    end
                end
            end
        end
    end.

(** A sheet succeeds when its run returns with a true success flag and
    the tracker records the success. *)
Definition succeeded (L : log_writes) (run : nat -> string -> sheet_run)
    (hoja_index : nat) (sheet_name : string) : bool :=
  match run hoja_index sheet_name with
  | Returned _ true _ =>
      match finalizar_exito L hoja_index sheet_name with
      | None => true
      | Some _ => false
      end
  | _ => false
  end.

(** The sheets that succeed, in order; [hoja_index] is the index of the
    previous sheet. *)
Fixpoint succeeded_sheets (L : log_writes) (run : nat -> string -> sheet_run)
    (hoja_index : nat) (selected_sheets : list string) : list string :=
  match selected_sheets with
  | [] => []
  | sheet_name :: rest =>
      if succeeded L run (S hoja_index) sheet_name
      then sheet_name :: succeeded_sheets L run (S hoja_index) rest
      else succeeded_sheets L run (S hoja_index) rest
  end.

(** The sheets that do not succeed, in order. *)
Fixpoint failed_sheets (L : log_writes) (run : nat -> string -> sheet_run)
    (hoja_index : nat) (selected_sheets : list string) : list string :=
  match selected_sheets with
  | [] => []
  | sheet_name :: rest =>
      if succeeded L run (S hoja_index) sheet_name
      then failed_sheets L run (S hoja_index) rest
      else sheet_name :: failed_sheets L run (S hoja_index) rest
  end.

(** [registros_hoja] of a run that returned. *)
Definition registros_de (r : sheet_run) : nat :=
  match r with
  | Returned registros_hoja _ _ => registros_hoja
  | Raised _ => 0
  end.

(** The record counts of the sheets that succeed, in order. *)
Fixpoint succeeded_records (L : log_writes) (run : nat -> string -> sheet_run)
    (hoja_index : nat) (selected_sheets : list string) : list nat :=
  match selected_sheets with
  | [] => []
  | sheet_name :: rest =>
      if succeeded L run (S hoja_index) sheet_name
      then registros_de (run (S hoja_index) sheet_name)
           :: succeeded_records L run (S hoja_index) rest
      else succeeded_records L run (S hoja_index) rest
  end.

(** Log writes none of which raises in the [except] of a sheet or around
    the loop. *)
Definition logs_respond (L : log_writes) : Prop :=
  configurar_logging L = true
  /\ get_excel_file L = None
  /\ antes_del_bucle L = None
  /\ (forall hoja_index sheet_name,
        finalizar_error_en_except L hoja_index sheet_name = None)
  /\ (forall flag, despues_del_bucle L flag = None).

End Sheets.

(** ** Sample inputs *)

Module Samples.
Import PyStr PyNum Values Frames Inference Destination Sheets.

(** An environment for columns of plain words: nothing coerces to a number
    or to a date, and a column built by [apply] keeps the returned values
    as they are, which is what pandas does when all of them are integers
    or all of them are strings. *)
Definition words_env : pandas :=
  {| now := 0;
     to_datetime := fun _ => Raise ValueError;
     str_of_float := fun _ => "";
     str_of_timestamp := fun _ => "";
     to_numeric_coerce := fun l => map (fun _ => None) l;
     to_datetime_coerce_count := fun _ => 0%nat;
     sample := fun n l => firstn n l;
     apply_result := fun _ v => v |}.

(** The letter n with tilde. *)
Definition n_tilde : ascii := chr 241.

(** The name [A], n with tilde, [o 2024]. *)
Definition anio_2024 : string := String "A" (String n_tilde "o 2024").

Fixpoint repeat_char (c : ascii) (n : nat) : string :=
  match n with
  | O => EmptyString
  | S k => String c (repeat_char c k)
  end.

(** The column of scenario E. *)
Definition bool_words : Series :=
  {| dtype := DObject;
     values := map VStr ["true"; "false"; "1"; "0"; "yes"] |}.

(** A frame with two columns and a mapping for the first one. *)
Definition two_columns : DataFrame :=
  {| columns := ["col1"; "col2"];
     rows := [[VStr "1"; VStr "a"]; [VStr ""; VStr "b"]; [VStr "x"; VStr "c"]] |}.

Definition col1_as_int : mapping :=
  [("col1", {| cfg_renamed_to := Some "col1"; cfg_sql_type := Some "INT";
               cfg_nullable := Some false; cfg_default_value := VStr "0" |})].

(** One sheet with one column and one row, mapped to a target name that
    starts with a digit. *)
Definition one_cell : DataFrame :=
  {| columns := ["col1"]; rows := [[VStr "1"]] |}.

Definition bad_target_name : mapping :=
  [("col1", {| cfg_renamed_to := Some "123_columna"; cfg_sql_type := Some "INT";
               cfg_nullable := None; cfg_default_value := VNone |})].

Definition process_mappings : list (string * mapping) :=
  [("Hoja1", bad_target_name)].

(** The helpers as they behave on the sample: the CREATE TABLE text has
    one definition per column (white space apart), and the defaults step
    leaves a nullable column alone. *)
Definition plain_helpers : helpers :=
  {| generate_create_table_sql := fun df table m =>
       Some ("CREATE TABLE [" +:+ table +:+ "] ("
             +:+ join ", " (map (fun c => "[" +:+ clean_column m c +:+ "] INT")
                                (columns df))
             +:+ ")");
     normalize_df_for_sql := fun df => Some df;
     apply_default_values_from_mappings := fun df _ => Some df |}.

(** A destination that accepts every command and does not report a row
    count. *)
Definition accepting : destination :=
  {| connect_ok := true; accepts := fun _ => true; rowcount := (-1)%Z |}.

(** Three sheets of which the second fails to materialize. *)
Definition second_sheet_fails (hoja_index : nat) (sheet_name : string)
    : sheet_run :=
  let info ok err :=
    {| info_table_name := ok; info_resultado_id := None; info_error := err |} in
  match hoja_index with
  | 2%nat => Returned 10 false (info None (Some "Error guardando DataFrame"))
  | _ => Returned 10 true (info (Some ("Proceso_hoja" +:+ sheet_name)) None)
  end.

(** Log writes that all return. *)
Definition quiet_logs : log_writes :=
  {| configurar_logging := true; get_excel_file := None;
     antes_del_bucle := None;
     finalizar_exito := fun _ _ => None;
     finalizar_error := fun _ _ => None;
     finalizar_error_en_except := fun _ _ => None;
     despues_del_bucle := fun _ => None;
     except_general := true |}.

(** The logs database does not answer while the second sheet is handled:
    both calls of [finalizar_error] for that sheet raise. *)
Definition logs_down_at_second : log_writes :=
  let down (hoja_index : nat) (_ : string) :=
    match hoja_index with
    | 2%nat => Some "logs database is not available"
    | _ => None
    end in
  {| configurar_logging := true; get_excel_file := None;
     antes_del_bucle := None;
     finalizar_exito := fun _ _ => None;
     finalizar_error := down;
     finalizar_error_en_except := down;
     despues_del_bucle := fun _ => None;
     except_general := true |}.

(** A text column whose longest value has 600 characters. *)
Definition long_text : Series :=
  {| dtype := DObject; values := [VStr "abc"; VStr (repeat_char "x" 600)] |}.

End Samples.

(** ** Validation of a sheet or column name ([validate_sheet_name]) *)

Module SheetNames.
Import PyStr Names.

(** The four messages of [validate_sheet_name]. *)
Inductive name_message : Type :=
  | EMPTY_NAME              (* El nombre no puede estar vacio *)
  | LONGER_THAN_128         (* El nombre excede 128 caracteres *)
  | STARTS_WITH_DIGIT       (* El nombre no puede empezar con numero *)
  | ALREADY_EXISTS (normalized : string).  (* El nombre '...' ya existe *)

(** The returned triple, or the [IndexError] of [normalized[0]] on an
    empty string. *)
Inductive name_check : Type :=
  | Checked (is_valid : bool) (normalized : option string)
            (error : option name_message)
  | RaisedIndexError.

Definition validate_sheet_name (name : string) (existing_names : list string)
    : name_check :=
  if String.eqb name "" || String.eqb (strip name) ""
  then Checked false None (Some EMPTY_NAME)
  else
    let normalized := normalize_name name existing_names in
    if (128 <? String.length normalized)%nat
    then Checked false None (Some LONGER_THAN_128)
    else
      match normalized with
      | EmptyString => RaisedIndexError
      | String c _ =>
          if isdigit c then Checked false None (Some STARTS_WITH_DIGIT)
          else if match existing_names with [] => false | _ => true end
                  && mem (lower normalized) (map lower existing_names)
          then Checked false None (Some (ALREADY_EXISTS normalized))
          else Checked true (Some normalized) None
      end.

(** [validate_column_name]: the same rules as for sheets. *)
Definition validate_column_name (name : string) (existing_names : list string)
    : name_check :=
  validate_sheet_name name existing_names.

(** A lower-case letter, a digit or an underscore. *)
Definition word_char (c : ascii) : bool :=
  is_ascii_lower c || is_ascii_digit c || Ascii.eqb c "_".

(** No hyphen, and no underscore that follows another separator;
    [after_sep] tells whether the previous character was one. *)
Fixpoint no_run (after_sep : bool) (s : string) : bool :=
  match s with
  | EmptyString => true
  | String c r =>
      if is_sep c
      then negb after_sep && Ascii.eqb c "_" && no_run true r
      else no_run false r
  end.

End SheetNames.

(** ** Table names ([_process_excel_sheets_individually],
       [_normalize_table_name]) *)

Module TableNames.
Import PyStr.

(** The class [\w]: letters, digits and the underscore. *)
Definition is_word (c : ascii) : bool := isalnum c || Ascii.eqb c "_".

Fixpoint map_chars (f : ascii -> ascii) (s : string) : string :=
  match s with
  | EmptyString => EmptyString
  | String c r => String (f c) (map_chars f r)
  end.

(** [re.sub(r'[^\w]', '_', s)]. *)
Definition sub_non_word (s : string) : string :=
  map_chars (fun c => if is_word c then c else "_"%char) s.

(** [re.sub(r'[...]+', '_', s)] for a class [p] of characters: every
    maximal run of characters of the class becomes one underscore. *)
Fixpoint sub_runs (p : ascii -> bool) (in_run : bool) (s : string) : string :=
  match s with
  | EmptyString => EmptyString
  | String c r =>
      if p c
      then if in_run then sub_runs p true r
           else String "_" (sub_runs p true r)
      else String c (sub_runs p false r)
  end.

Definition is_underscore (c : ascii) : bool := Ascii.eqb c "_".

(** [s.lstrip(ch)], [s.rstrip(ch)] and [s.strip(ch)] for one character. *)
Fixpoint lstrip_char (ch : ascii) (s : string) : string :=
  match s with
  | EmptyString => EmptyString
  | String c r => if Ascii.eqb c ch then lstrip_char ch r else s
  end.

Fixpoint rstrip_char (ch : ascii) (s : string) : string :=
  match s with
  | EmptyString => EmptyString
  | String c r =>
      match rstrip_char ch r with
      | EmptyString =>
          if Ascii.eqb c ch then EmptyString else String c EmptyString
      | r' => String c r'
      end
  end.

Definition strip_char (ch : ascii) (s : string) : string :=
  rstrip_char ch (lstrip_char ch s).

(** The destination table of the sheet with index [hoja_index] in the
    process called [name]. *)
Definition sheet_table_name (name : string) (hoja_index : nat) : string :=
  let nombre_tabla_destino :=
    replace_char "-" "_"
      (replace_char " " "_" (name +:+ "_hoja" +:+ pretty hoja_index)) in
  let nombre_tabla_destino := sub_non_word nombre_tabla_destino in
  strip_char "_" (sub_runs is_underscore false nombre_tabla_destino).

(** The replacements of [_normalize_table_name] for the letters with a
    tilde, an acute accent or a diaeresis, in the order of the source. *)
Definition replace_accents (s : string) : string :=
  let r (a : N) (b : ascii) (s : string) := replace_char (chr a) b s in
  let s := r 241%N "n"%char (r 209%N "N"%char s) in
  let s := r 225%N "a"%char (r 193%N "A"%char s) in
  let s := r 233%N "e"%char (r 201%N "E"%char s) in
  let s := r 237%N "i"%char (r 205%N "I"%char s) in
  let s := r 243%N "o"%char (r 211%N "O"%char s) in
  let s := r 250%N "u"%char (r 218%N "U"%char s) in
  r 252%N "u"%char (r 220%N "U"%char s).

(** [str.isdigit]: not empty and digits only. *)
Definition str_isdigit (s : string) : bool :=
  negb (String.eqb s "") && forallb isdigit s.

Definition _normalize_table_name (sheet_name : string) : string :=
  let normalized := replace_accents sheet_name in
  (* re.sub(r'[^\w\s-]', '_', normalized) *)
  let normalized :=
    map_chars (fun c => if is_word c || isspace c || Ascii.eqb c "-"
                        then c else "_"%char) normalized in
  (* re.sub(r'[\s-]+', '_', normalized) *)
  let normalized :=
    sub_runs (fun c => isspace c || Ascii.eqb c "-") false normalized in
  let normalized := strip_char "_" normalized in
  let normalized :=
    if String.eqb normalized "" || str_isdigit normalized
    then "Hoja_" +:+ (if String.eqb normalized "" then "1" else normalized)
    else normalized in
  if (50 <? String.length normalized)%nat
  then rstrip_char "_" (take 50 normalized)
  else normalized.

End TableNames.

(** ** The loop over SQL tables ([_process_sql_tables_individually]) *)

Module SqlTables.
Import PyStr Values.

(** A data row: column name to value. *)
Definition row : Type := list (string * pyval).

(** One entry of [datos_sql], as the grouping loop classifies it: an
    entry with a true [metadata], else an entry with an [error] key, else
    a data row ([datos_limpios] is the row without its control fields).
    A missing [table_name] is [None]. *)
Inductive registro : Type :=
  | Metadata (table_name : option string) (columns : list string)
             (row_count : Z)
  | TableError (table_name : option string) (error : string)
  | DataRow (table_name : option string) (datos_limpios : row).

(** A dictionary in insertion order. *)
Definition dict (V : Type) : Type := list (string * V).

Definition dict_mem {V : Type} (k : string) (d : dict V) : bool :=
  existsb (fun p => String.eqb (fst p) k) d.

(** [d[k] = v]: an existing key keeps its place. *)
Fixpoint dict_set {V : Type} (k : string) (v : V) (d : dict V) : dict V :=
  match d with
  | [] => [(k, v)]
  | (k', v') :: r =>
      if String.eqb k' k then (k, v) :: r else (k', v') :: dict_set k v r
  end.

(** [d[k].append(x)] for a key that may be new: [if k not in d: d[k] = []]
    comes first. *)
Fixpoint dict_append {V : Type} (k : string) (x : V) (d : dict (list V))
    : dict (list V) :=
  match d with
  | [] => [(k, [x])]
  | (k', l) :: r =>
      if String.eqb k' k then (k', (l ++ [x])%list) :: r
      else (k', l) :: dict_append k x r
  end.

(** [if k not in d: d[k] = []]. *)
Definition dict_touch {V : Type} (k : string) (d : dict (list V))
    : dict (list V) :=
  if dict_mem k d then d else (d ++ [(k, [])])%list.

(** The truth value of a table name: neither missing nor empty. *)
Definition named (table_name : option string) : option string :=
  match table_name with
  | Some s => if String.eqb s "" then None else Some s
  | None => None
  end.

Record grouping : Type := {
  tablas_data : dict (list row);
  total_registros : nat;
  tablas_con_error : list (string * string);
  tablas_columnas : dict (list string)
}.

Definition no_groups : grouping :=
  {| tablas_data := []; total_registros := 0; tablas_con_error := [];
     tablas_columnas := [] |}.

(** One iteration of [for registro in datos_sql]. *)
Definition group_record (g : grouping) (r : registro) : grouping :=
  match r with
  | Metadata table_name cols row_count =>
      match named table_name with
      | Some nombre_tabla_meta =>
          {| tablas_data :=
               if (row_count =? 0)%Z
               then dict_touch nombre_tabla_meta (tablas_data g)
               else tablas_data g;
             total_registros := total_registros g;
             tablas_con_error := tablas_con_error g;
             tablas_columnas :=
               dict_set nombre_tabla_meta cols (tablas_columnas g) |}
      | None => g
      end
  | TableError table_name error =>
      {| tablas_data := tablas_data g;
         total_registros := total_registros g;
         tablas_con_error :=
           (tablas_con_error g
            ++ [(default "desconocida" table_name, error)])%list;
         tablas_columnas := tablas_columnas g |}
  | DataRow table_name datos_limpios =>
      match named table_name with
      | Some table =>
          {| tablas_data := dict_append table datos_limpios (tablas_data g);
             total_registros := S (total_registros g);
             tablas_con_error := tablas_con_error g;
             tablas_columnas := tablas_columnas g |}
      | None => g
      end
  end.

Definition group_records (datos_sql : list registro) : grouping :=
  fold_left group_record datos_sql no_groups.

(** [f"{self.name.replace(' ', '_')}_{nombre_tabla.replace('.', '_')}"]. *)
Definition destination_table (name nombre_tabla : string) : string :=
  replace_char " " "_" name +:+ "_" +:+ replace_char "." "_" nombre_tabla.

Inductive failure : Type :=
  | ErrorInTable (tabla error : string)   (* the only entry is an error *)
  | ErrorInAllTables
  | NoValidTables.

Record summary : Type := {
  success : bool;
  tablas_procesadas : nat;
  n_tablas_con_error : nat;
  total : nat;
  detalles_tablas : list (string * nat)
}.

(** The loop [for nombre_tabla, datos_tabla in tablas_data.items()]: the
    counters of saved and failed tables.  [save] stands for the call of
    [_save_dataframe_to_destination] on the frame built from the rows (or
    from the known columns when there is no row); it returns the success
    flag. *)
Fixpoint save_tables
    (save : string -> string -> list row -> option (list string) -> bool)
    (name : string) (columnas : dict (list string))
    (tablas : dict (list row)) (exitosas con_error : nat) : nat * nat :=
  match tablas with
  | [] => (exitosas, con_error)
  | (nombre_tabla, datos_tabla) :: rest =>
      let known :=
        match List.find (fun p => String.eqb (fst p) nombre_tabla) columnas with
        | Some (_, cols) => Some cols
        | None => None
        end in
      if save (destination_table name nombre_tabla) nombre_tabla datos_tabla
              known
      then save_tables save name columnas rest (S exitosas) con_error
      else save_tables save name columnas rest exitosas (S con_error)
  end.

(** The function from the extracted entries on.  The calls of the
    tracker, which write to the logs database, are taken to return; when
    one of them raises, the function returns the failure of its outer
    handler, which is not among the results below. *)
Definition _process_sql_tables_individually
    (save : string -> string -> list row -> option (list string) -> bool)
    (name : string) (datos_sql : list registro) : failure + summary :=
  let g := group_records datos_sql in
  if negb (match tablas_con_error g with [] => true | _ => false end)
     && (length (tablas_con_error g) =? length datos_sql)%nat
  then
    match tablas_con_error g with
    | [(tabla, error)] => inl (ErrorInTable tabla error)
    | _ => inl ErrorInAllTables
    end
  else
    match tablas_data g, tablas_columnas g with
    | [], [] => inl NoValidTables
    | _, _ =>
        let tablas :=
          fold_left (fun d nombre_tabla => dict_touch nombre_tabla d)
                    (map fst (tablas_columnas g)) (tablas_data g) in
        let '(tablas_exitosas, con_error) :=
          save_tables save name (tablas_columnas g) tablas 0 0 in
        inr {| success := (0 <? tablas_exitosas)%nat;
               tablas_procesadas := tablas_exitosas;
               n_tablas_con_error := con_error;
               total := total_registros g;
               detalles_tablas :=
                 map (fun p => (fst p, length (snd p))) tablas |}
    end.

(** The data rows that name a table. *)
Definition named_rows (datos_sql : list registro) : nat :=
  length (List.filter (fun r => match r with
                                | DataRow table_name _ =>
                                    match named table_name with
                                    | Some _ => true
                                    | None => false
                                    end
                                | _ => false
                                end) datos_sql).




(** The number of rows a dictionary of tables holds. *)
Definition rows_held (d : dict (list row)) : nat :=
  list_sum (map (fun p => length (snd p)) d).

(** What the grouping loop maintains: the tables have pairwise different
    names, and the counter is the number of rows held. *)
Definition grouped (g : grouping) : Prop :=
  NoDup (map fst (tablas_data g))
  /\ total_registros g = rows_held (tablas_data g).

End SqlTables.

(** ** Further sample inputs *)

Module MoreSamples.
Import Values Frames Inference.

(** A column of an integer dtype whose largest value needs 16 bits. *)
Definition small_ints : Series :=
  {| dtype := DInt; values := [VInt 3; VInt 200; VInt 1000] |}.

(** A mapping for a column that [two_columns] does not have. *)
Definition unknown_column : mapping :=
  [("col9", {| cfg_renamed_to := None; cfg_sql_type := Some "INT";
               cfg_nullable := Some false; cfg_default_value := VNone |})].

(** A frame with one column and no rows. *)
Definition no_rows : DataFrame := {| columns := ["col1"]; rows := [] |}.


(** A destination whose connection cannot be opened. *)
Definition unreachable : Destination.destination :=
  {| Destination.connect_ok := false;
     Destination.accepts := fun _ => true;
     Destination.rowcount := (-1)%Z |}.

(** Extracted entries: two tables with rows, one entry with an error. *)
Definition three_entries : list SqlTables.registro :=
  [SqlTables.Metadata (Some "dbo.t") ["a"] 1;
   SqlTables.DataRow (Some "dbo.t") [("a", VInt 1)];
   SqlTables.DataRow (Some "dbo.u") [("b", VStr "x")];
   SqlTables.TableError (Some "dbo.v") "boom"].


(** A frame whose only cell is an infinite float. *)
Definition infinite_cell : DataFrame :=
  {| columns := ["col1"]; rows := [[VFloat (PyNum.FInf false)]] |}.

End MoreSamples.
(** * Properties *)

Import PyStr PyNum Names Values Frames Inference Samples.

Local Arguments String.append : simpl nomatch.

(** ** Strings and decimal numerals *)

Section StringFacts.

(** [len(a + b) == len(a) + len(b)]. *)
Lemma length_of_append (a b : string) :
  String.length (a +:+ b) = (String.length a + String.length b)%nat.
Proof.
  induction a as [| x a IH]; simpl; [| rewrite IH]; reflexivity.
Qed.

Lemma forallb_append (p : ascii -> bool) (a b : string) :
  PyStr.forallb p (a +:+ b) = PyStr.forallb p a && PyStr.forallb p b.
Proof.
  induction a as [| x a IH]; simpl; [reflexivity |].
  rewrite IH, andb_assoc. reflexivity.
Qed.

Lemma forallb_filter (p : ascii -> bool) (s : string) :
  PyStr.forallb p (PyStr.filter p s) = true.
Proof.
  induction s as [| c r IH]; simpl; [reflexivity |].
  destruct (p c) eqn:Hc; simpl; [rewrite Hc, IH; reflexivity | exact IH].
Qed.

Lemma forallb_take (p : ascii -> bool) (n : nat) (s : string) :
  PyStr.forallb p s = true -> PyStr.forallb p (take n s) = true.
Proof.
  revert s. induction n as [| n IH]; intros s H; [reflexivity |].
  destruct s as [| c r]; simpl in *; [reflexivity |].
  apply andb_true_iff in H as [Hc Hr]. rewrite Hc, (IH r Hr). reflexivity.
Qed.

Lemma take_length (n : nat) (s : string) :
  (n <= String.length s)%nat -> String.length (take n s) = n.
Proof.
  revert s. induction n as [| n IH]; intros s Hn; [reflexivity |].
  destruct s as [| c r]; simpl in *; [lia |].
  rewrite IH; [reflexivity | lia].
Qed.

Lemma mem_true_iff (x : string) (xs : list string) : mem x xs = true <-> x ∈ xs.
Proof.
  unfold mem. induction xs as [| y ys IH]; simpl.
  - split; [discriminate | intros H; apply elem_of_nil in H; contradiction].
  - rewrite orb_true_iff, IH, String.eqb_eq, elem_of_cons. reflexivity.
Qed.

Lemma span_digits_spec (s : string) :
  s = fst (span_digits s) +:+ snd (span_digits s)
  /\ PyStr.forallb is_ascii_digit (fst (span_digits s)) = true.
Proof.
  induction s as [| c r [IH1 IH2]]; simpl; [auto |].
  destruct (is_ascii_digit c) eqn:Hc; [| simpl; auto].
  destruct (span_digits r) as [d t]. simpl in *.
  rewrite Hc, IH2, <- IH1. auto.
Qed.

Lemma span_digits_stop (d : string) (c : ascii) (t : string) :
  PyStr.forallb is_ascii_digit d = true ->
  is_ascii_digit c = false ->
  span_digits (d +:+ String c t) = (d, String c t).
Proof.
  intros Hd Hc. induction d as [| x d IH]; simpl in *.
  - rewrite Hc. reflexivity.
  - apply andb_true_iff in Hd as [Hx Hd]. rewrite Hx, (IH Hd). reflexivity.
Qed.

Lemma span_digits_all (d : string) :
  PyStr.forallb is_ascii_digit d = true -> span_digits d = (d, "").
Proof.
  intros Hd. induction d as [| x d IH]; simpl in *; [reflexivity |].
  apply andb_true_iff in Hd as [Hx Hd]. rewrite Hx, (IH Hd). reflexivity.
Qed.

(** What is left after the leading digits of a text that contains an
    underscore is longer than what follows that underscore. *)
Lemma span_digits_rest_long (b rest : string) :
  (String.length rest
   < String.length (snd (span_digits (b +:+ String "_" rest))))%nat.
Proof.
  induction b as [| x b IH]; simpl; [lia |].
  destruct (is_ascii_digit x).
  - destruct (span_digits (b +:+ String "_" rest)). simpl in *. exact IH.
  - simpl. rewrite length_of_append. simpl. lia.
Qed.

Lemma upper_digit (c : ascii) (r : string) :
  is_ascii_digit c = true -> upper (String c r) = String c (upper r).
Proof.
  intros Hc. simpl.
  unfold is_ascii_digit, is_ascii_lower, in_range in *.
  apply andb_true_iff in Hc as [Hlo Hhi].
  apply N.leb_le in Hlo, Hhi.
  destruct (N.eqb_spec (code c) 223); [lia |].
  destruct (N.leb_spec 97 (code c)); [lia |].
  destruct (N.leb_spec 224 (code c)); [lia |].
  reflexivity.
Qed.

Lemma upper_digits_then (ds rest : string) :
  PyStr.forallb is_ascii_digit ds = true ->
  upper (ds +:+ rest) = ds +:+ upper rest.
Proof.
  intros Hd. induction ds as [| c ds IH]; [reflexivity |].
  simpl in Hd. apply andb_true_iff in Hd as [Hc Hd].
  change (String c ds +:+ rest) with (String c (ds +:+ rest)).
  rewrite (upper_digit c _ Hc), (IH Hd). reflexivity.
Qed.

(** A word that starts with a letter does not occur in digits followed by
    a closing parenthesis. *)
Lemma contains_in_digits (c : ascii) (w ds : string) :
  is_ascii_digit c = false ->
  Ascii.eqb c ")" = false ->
  PyStr.forallb is_ascii_digit ds = true ->
  contains (String c w) (ds +:+ ")") = false.
Proof.
  intros Hc Hp Hd. induction ds as [| d ds IH].
  - simpl. rewrite Hp. reflexivity.
  - simpl in Hd. apply andb_true_iff in Hd as [Hd1 Hd].
    change (String d ds +:+ ")") with (String d (ds +:+ ")")).
    simpl. rewrite (IH Hd).
    destruct (Ascii.eqb_spec c d) as [-> | _]; [congruence | reflexivity].
Qed.

Lemma pretty_char_is_digit (d : N) : is_ascii_digit (pretty_N_char d) = true.
Proof.
  unfold pretty_N_char. repeat case_match; reflexivity.
Qed.

Lemma pretty_char_value (d : N) :
  (d < 10)%N -> digit_value (pretty_N_char d) = d.
Proof.
  intros Hd.
  assert (d = 0 \/ d = 1 \/ d = 2 \/ d = 3 \/ d = 4 \/ d = 5 \/ d = 6
          \/ d = 7 \/ d = 8 \/ d = 9)%N as Hcases by lia.
  repeat (destruct Hcases as [-> | Hcases]; [reflexivity |]).
  subst d. reflexivity.
Qed.

Lemma pretty_go_facts (x : N) :
  forall s,
    (PyStr.forallb is_ascii_digit s = true ->
     PyStr.forallb is_ascii_digit (pretty_N_go x s) = true)
    /\ (s <> "" -> pretty_N_go x s <> "")
    /\ int_of_digits_from 0 (pretty_N_go x s) = int_of_digits_from x s.
Proof.
  induction (N.lt_wf_0 x) as [x _ IH]. intros s.
  assert (x = 0 \/ 0 < x)%N as [-> | Hpos] by lia.
  - rewrite pretty_N_go_0. auto.
  - rewrite pretty_N_go_step by exact Hpos.
    assert (Hlt : (x `div` 10 < x)%N) by (apply N.div_lt; lia).
    destruct (IH _ Hlt (String (pretty_N_char (x `mod` 10)) s))
      as (Hdig & Hne & Hval).
    split; [| split].
    + intros Hs. apply Hdig. simpl. rewrite pretty_char_is_digit. exact Hs.
    + intros _. apply Hne. discriminate.
    + rewrite Hval. simpl.
      rewrite pretty_char_value by (apply N.mod_lt; lia).
      f_equal. pose proof (N.div_mod x 10). lia.
Qed.

(** The decimal text of a number, as an f-string prints it, is a
    non-empty string of digits that [int] reads back as the number. *)
Lemma pretty_digits (n : N) :
  PyStr.forallb is_ascii_digit (pretty n) = true
  /\ pretty n <> ""
  /\ int_of_digits (pretty n) = n.
Proof.
  unfold pretty, pretty_N. case_decide as Hn.
  - subst n. repeat split. discriminate.
  - destruct (pretty_go_facts n "") as (Hdig & _ & Hval).
    split; [apply Hdig; reflexivity |]. split; [| exact Hval].
    assert (0 < n)%N as Hpos by lia.
    rewrite pretty_N_go_step by exact Hpos.
    apply pretty_go_facts. discriminate.
Qed.

End StringFacts.

(** ** Value normalization *)

Section ValueNormalization.
Context (E : pandas).

(** C2.  Scenario A on the code: under an INT mapping with [nullable=False]
    and default ["0"], the cells ["25"] and ["30"] become the integers 25
    and 30, and the empty cell becomes the configured default as it stands,
    the text ["0"], which is not the integer 0. *)
Theorem scenario_A_empty_cell_keeps_text_default :
  map (fun v => normalize_value_by_type E v "INT" false (VStr "0"))
      [VStr "25"; VStr "30"; VStr ""]
  = [Ok (VInt 25); Ok (VInt 30); Ok (VStr "0")]
  /\ VStr "0" <> VInt 0.
Proof.
  split; [reflexivity | discriminate].
Qed.

(** C4.  Two inputs on which a not-nullable column does not get a usable
    value: the text [inf] under INT escapes as [OverflowError] (the handler
    catches [ValueError] and [TypeError] only), and the text [nan] under
    FLOAT is returned as the float NaN, which [pd.isna] counts as
    missing. *)
Theorem not_nullable_inf_raises_nan_is_missing :
  normalize_value_by_type E (VStr "inf") "INT" false VNone
  = Raise OverflowError
  /\ normalize_value_by_type E (VStr "nan") "FLOAT" false VNone
     = Ok (VFloat FNan)
  /\ isna (VFloat FNan) = true.
Proof.
  repeat split; reflexivity.
Qed.

Lemma not_empty_not_none (v : pyval) : is_empty v = false -> is_none v = false.
Proof.
  unfold is_empty. destruct v; simpl; congruence.
Qed.

(** Apart from such inputs the fallback policy holds: whenever the
    normalizer returns for a not-nullable column, the value is not
    [None] (date parsing itself never yields [None]). *)
Lemma not_nullable_result_is_not_none
    (value : pyval) (sql_type : string) (default_value result : pyval) :
  (forall s x, to_datetime E s = Ok x -> is_none x = false) ->
  normalize_value_by_type E value sql_type false default_value = Ok result ->
  is_none result = false.
Proof.
  intros Hdate Hres.
  unfold normalize_value_by_type, try_except, bind in Hres.
  destruct (is_empty value) eqn:Hemp.
  - destruct (is_none default_value) eqn:Hd; simpl in Hres;
      repeat case_match; simplify_eq; done.
  - apply not_empty_not_none in Hemp.
    destruct (is_none default_value) eqn:Hd; simpl in Hres;
      repeat case_match; simplify_eq; try done; eauto.
Qed.

(** The text types written as a name and a length declare that length. *)
Lemma declared_max_length_of_char_types (n : N) :
  declared_max_length ("VARCHAR(" +:+ pretty n +:+ ")") = Some n
  /\ declared_max_length ("NVARCHAR(" +:+ pretty n +:+ ")") = Some n
  /\ declared_max_length ("CHAR(" +:+ pretty n +:+ ")") = Some n
  /\ declared_max_length ("NCHAR(" +:+ pretty n +:+ ")") = Some n.
Proof.
  destruct (pretty_digits n) as (Hdig & Hne & Hval).
  apply String.eqb_neq in Hne.
  repeat split; unfold declared_max_length; simpl;
    rewrite (upper_digits_then _ _ Hdig); simpl upper;
    rewrite !contains_in_digits by (reflexivity || exact Hdig);
    simpl;
    rewrite (span_digits_stop _ ")" "" Hdig eq_refl);
    rewrite Hne; simpl; rewrite Hval; reflexivity.
Qed.

(** C9, as the code has it.  A text value that is not blank and is longer
    than the length declared by a text type is cut to exactly that length,
    and nothing is raised. *)
Theorem long_text_is_truncated_to_declared_length
    (s sql_type : string) (nullable : bool) (default_value : pyval) (n : N) :
  declared_max_length sql_type = Some n ->
  is_empty (VStr s) = false ->
  (n < N.of_nat (String.length s))%N ->
  normalize_value_by_type E (VStr s) sql_type nullable default_value
  = Ok (VStr (take (N.to_nat n) s))
  /\ String.length (take (N.to_nat n) s) = N.to_nat n.
Proof.
  intros Hdecl Hne Hlen. split; [| apply take_length; lia].
  unfold declared_max_length in Hdecl.
  unfold normalize_value_by_type. rewrite Hne.
  destruct (contains_any int_types (upper sql_type)); [discriminate |].
  destruct (contains_any float_types (upper sql_type)); [discriminate |].
  destruct (contains_any date_types (upper sql_type)); [discriminate |].
  destruct (contains "BIT" (upper sql_type)); [discriminate |].
  simpl in Hdecl |- *.
  destruct (contains "VARCHAR" (upper sql_type) || contains "CHAR" (upper sql_type));
    [| discriminate].
  destruct (search_paren_digits sql_type) as [ds |]; [| discriminate].
  simpl in Hdecl. injection Hdecl as ->.
  apply N.ltb_lt in Hlen. rewrite Hlen. reflexivity.
Qed.

End ValueNormalization.

(** C9, the input the stated claim misses: a blank text is treated as an
    empty cell before any length is looked at, so three spaces under
    VARCHAR(2) give the empty text (or [None] when nullable), not a text
    of length 2. *)
Lemma blank_text_is_emptied_not_truncated :
  declared_max_length "VARCHAR(2)" = Some 2%N
  /\ (2 < String.length "   ")%nat
  /\ normalize_value_by_type words_env (VStr "   ") "VARCHAR(2)" false VNone
     = Ok (VStr "")
  /\ normalize_value_by_type words_env (VStr "   ") "VARCHAR(2)" true VNone
     = Ok VNone
  /\ String.length "" <> 2%nat.
Proof.
  repeat split; try reflexivity; simpl; lia.
Qed.

Lemma long_text_is_truncated_witness :
  normalize_value_by_type words_env (VStr "Hola mundo") "NVARCHAR(4)" false VNone
  = Ok (VStr "Hola")
  /\ String.length "Hola" = 4%nat.
Proof.
  apply (long_text_is_truncated_to_declared_length words_env
           "Hola mundo" "NVARCHAR(4)" false VNone 4%N);
    [reflexivity | reflexivity | vm_compute; reflexivity].
Defined.

(** ** Names *)

(** C7.  On the code an accented letter is deleted, not replaced: the
    name A, n with tilde, [o 2024] normalizes to [ao_2024], one character
    shorter than [ano_2024]. *)
Theorem accented_letter_is_deleted :
  normalize_name anio_2024 [] = "ao_2024"
  /\ normalize_name anio_2024 [] <> "ano_2024".
Proof.
  split; [reflexivity | discriminate].
Qed.

Section Collisions.

Lemma forallb_collapse (in_run : bool) (s : string) :
  PyStr.forallb allowed_char s = true ->
  PyStr.forallb allowed_char (collapse_from in_run s) = true.
Proof.
  revert in_run. induction s as [| c r IH]; intros in_run H; [reflexivity |].
  simpl in H. apply andb_true_iff in H as [Hc Hr]. simpl.
  destruct (is_sep c); [destruct in_run |]; simpl;
    rewrite ?Hc, IH by exact Hr; reflexivity.
Qed.

(** Every character of a candidate is a lower-case letter, a digit, an
    underscore or a hyphen. *)
Lemma candidate_chars (name : string) :
  PyStr.forallb allowed_char (candidate name) = true.
Proof.
  unfold candidate. apply forallb_take.
  set (s := collapse _).
  assert (Hs : PyStr.forallb allowed_char s = true)
    by (apply forallb_collapse, forallb_filter).
  destruct s as [| c r] eqn:Es; [reflexivity |].
  destruct (isdigit c).
  - change (String.eqb ("tabla_" +:+ String c r) "") with false.
    cbv iota. rewrite forallb_append, Hs. reflexivity.
  - change (String.eqb (String c r) "") with false. exact Hs.
Qed.

(** The search finds a numeric suffix only where there is one. *)
Lemma search_numeric_suffix_sound (s base digits : string) :
  PyStr.forallb allowed_char s = true ->
  search_numeric_suffix s = Some (base, digits) ->
  s = base +:+ "_" +:+ digits
  /\ digits <> ""
  /\ PyStr.forallb is_ascii_digit digits = true.
Proof.
  revert base. induction s as [| c r IH]; intros base Hs H; [discriminate |].
  simpl in Hs. apply andb_true_iff in Hs as [Hc Hr].
  simpl in H.
  destruct (span_digits_spec r) as [Hsplit Hdig].
  destruct (span_digits r) as [d t]. simpl in Hsplit, Hdig.
  destruct (Ascii.eqb c "_" && negb (String.eqb d "")
            && (String.eqb t "" || String.eqb t newline)) eqn:Hhead.
  - injection H as <- <-.
    apply andb_true_iff in Hhead as [Hhead Ht].
    apply andb_true_iff in Hhead as [Hu Hd].
    apply Ascii.eqb_eq in Hu. subst c.
    apply negb_true_iff, String.eqb_neq in Hd.
    apply orb_true_iff in Ht as [Ht | Ht]; apply String.eqb_eq in Ht; subst t.
    + assert (r = d) as -> by (rewrite Hsplit; clear; induction d; simpl; congruence).
      auto.
    + rewrite Hsplit, forallb_append in Hr.
      apply andb_true_iff in Hr as [_ Hn]. discriminate.
  - destruct (search_numeric_suffix r) as [[b g] |]; [| discriminate].
    injection H as <- <-.
    destruct (IH b Hr eq_refl) as (-> & Hne & Hg). auto.
Qed.

(** The search finds every numeric suffix. *)
Lemma search_numeric_suffix_complete (base digits : string) :
  digits <> "" ->
  PyStr.forallb is_ascii_digit digits = true ->
  search_numeric_suffix (base +:+ "_" +:+ digits) = Some (base, digits).
Proof.
  intros Hne Hd. induction base as [| c b IH]; simpl.
  - rewrite (span_digits_all digits Hd).
    apply String.eqb_neq in Hne. rewrite Hne. reflexivity.
  - simpl in IH. rewrite IH.
    pose proof (span_digits_rest_long b digits) as Hlong.
    destruct (span_digits (b +:+ String "_" digits)) as [d t].
    simpl in Hlong.
    assert (Ht : String.eqb t "" || String.eqb t newline = false).
    { destruct digits as [| y ds]; [congruence |].
      apply orb_false_iff.
      split; apply String.eqb_neq; intros ->; simpl in Hlong; lia. }
    rewrite Ht, andb_false_r. reflexivity.
Qed.

Lemma suffixed_inj (base : string) : Inj (=) (=) (suffixed base).
Proof.
  intros a b H. unfold suffixed in H.
  apply (inj (String.app base)) in H.
  apply (inj (String.app "_")) in H.
  apply (inj pretty) in H. exact H.
Qed.

(** The loop stops at the first free counter, or runs out of fuel. *)
Lemma next_free_spec (fuel : nat) (base : string) (existing_lower : list string) :
  forall counter : N,
    let r := next_free fuel base counter existing_lower in
    (counter <= r)%N
    /\ (forall M, (counter <= M < r)%N ->
                  mem (suffixed base M) existing_lower = true)
    /\ (mem (suffixed base r) existing_lower = false
        \/ r = (counter + N.of_nat fuel)%N).
Proof.
  induction fuel as [| fuel IH]; intros counter; simpl.
  - split; [lia |]. split; [intros M HM; lia |]. right. lia.
  - destruct (mem (suffixed base counter) existing_lower) eqn:Hc.
    + destruct (IH (counter + 1)%N) as (Hle & Htaken & Hend).
      split; [lia |]. split.
      * intros M HM.
        destruct (N.eq_dec M counter) as [-> | Hne]; [exact Hc |].
        apply Htaken. lia.
      * destruct Hend as [Hfree | Hfuel]; [left; exact Hfree | right; lia].
    + split; [lia |]. split; [intros M HM; lia | left; exact Hc].
Qed.

(** Pigeonhole: a run of consecutive counters whose names are all taken is
    no longer than the list of existing names. *)
Lemma taken_run_is_short (base : string) (existing_lower : list string)
    (counter : N) (n : nat) :
  (forall M, (counter <= M < counter + N.of_nat n)%N ->
             mem (suffixed base M) existing_lower = true) ->
  (n <= length existing_lower)%nat.
Proof.
  intros Htaken.
  set (f := fun i : nat => suffixed base (counter + N.of_nat i)).
  assert (Hinj : Inj (=) (=) f).
  { intros i j Hij. unfold f in Hij. apply suffixed_inj in Hij. lia. }
  assert (Hsub : f <$> seq 0 n ⊆+ existing_lower).
  { apply NoDup_submseteq.
    - apply (NoDup_fmap_2 f), NoDup_seq.
    - intros x Hx. apply list_elem_of_fmap in Hx as (i & -> & Hi).
      apply elem_of_seq in Hi. apply mem_true_iff, Htaken. lia. }
  apply submseteq_length in Hsub.
  rewrite length_fmap, length_seq in Hsub. exact Hsub.
Qed.

(** One test more than there are existing names always finds a free
    counter, so the bound on the loop is never the reason to stop. *)
Lemma next_free_enough (base : string) (existing_lower : list string)
    (counter : N) :
  let r := next_free (S (length existing_lower)) base counter existing_lower in
  (counter <= r)%N
  /\ mem (suffixed base r) existing_lower = false
  /\ (forall M, (counter <= M < r)%N ->
                mem (suffixed base M) existing_lower = true).
Proof.
  destruct (next_free_spec (S (length existing_lower)) base existing_lower
                           counter) as (Hle & Htaken & Hend).
  cbv zeta. split; [exact Hle |]. split; [| exact Htaken].
  destruct Hend as [Hfree | Hfuel]; [exact Hfree |].
  rewrite Hfuel in Htaken.
  apply taken_run_is_short in Htaken. lia.
Qed.

(** How the first counter is chosen: after a candidate of the shape
    [base_digits] the count continues from those digits, and any other
    candidate starts at 1 under its own name. *)
Lemma suffix_start_cases (name : string) :
  let cand := candidate name in
  (exists base digits,
      cand = base +:+ "_" +:+ digits
      /\ digits <> ""
      /\ PyStr.forallb is_ascii_digit digits = true
      /\ suffix_start cand = (base, (int_of_digits digits + 1)%N))
  \/ (suffix_start cand = (cand, 1%N)
      /\ forall base digits,
           digits <> "" ->
           PyStr.forallb is_ascii_digit digits = true ->
           cand <> base +:+ "_" +:+ digits).
Proof.
  cbv zeta. unfold suffix_start.
  destruct (search_numeric_suffix (candidate name)) as [[b g] |] eqn:Hs.
  - left. exists b, g.
    destruct (search_numeric_suffix_sound _ _ _ (candidate_chars name) Hs)
      as (Heq & Hne & Hg).
    auto.
  - right. split; [reflexivity |].
    intros base digits Hne Hd Heq.
    rewrite Heq, (search_numeric_suffix_complete base digits Hne Hd) in Hs.
    discriminate.
Qed.

(** C6.  When the candidate collides with an existing name (compared in
    lower case) the result is [base_N], where the count starts after the
    candidate's own numeric suffix if it has one and at 1 otherwise, and
    [N] is the smallest counter from there on whose name is free; without
    a collision the candidate is returned.  In particular a colliding
    candidate [b_k], with [k] written in decimal, becomes [b_N] for the
    smallest free [N] above [k]: [hoja_2] next to [hoja_2] and [hoja_3]
    becomes [hoja_4], and [x_007] becomes [x_8].  Normalizing Ventas,
    ventas, Ventas in turn gives ventas, ventas_1, ventas_2. *)
Theorem collision_gets_smallest_free_suffix
    (name : string) (existing_names : list string) :
  let cand := candidate name in
  let existing_lower := map lower existing_names in
  (mem cand existing_lower = true ->
   exists base start N,
     suffix_start cand = (base, start)
     /\ ((exists digits,
            cand = base +:+ "_" +:+ digits
            /\ digits <> ""
            /\ PyStr.forallb is_ascii_digit digits = true
            /\ start = (int_of_digits digits + 1)%N)
         \/ (base = cand /\ start = 1%N
             /\ forall b digits,
                  digits <> "" ->
                  PyStr.forallb is_ascii_digit digits = true ->
                  cand <> b +:+ "_" +:+ digits))
     /\ (start <= N)%N
     /\ normalize_name name existing_names = suffixed base N
     /\ mem (suffixed base N) existing_lower = false
     /\ (forall M, (start <= M < N)%N ->
                   mem (suffixed base M) existing_lower = true))
  /\ (mem cand existing_lower = false ->
      normalize_name name existing_names = cand)
  /\ (forall (b : string) (k : N),
        cand = b +:+ "_" +:+ pretty k ->
        mem cand existing_lower = true ->
        exists N,
          (k < N)%N
          /\ normalize_name name existing_names = b +:+ "_" +:+ pretty N
          /\ mem (b +:+ "_" +:+ pretty N) existing_lower = false
          /\ (forall M, (k < M < N)%N ->
                        mem (b +:+ "_" +:+ pretty M) existing_lower = true))
  /\ normalize_name "Hoja_2" ["hoja_2"; "HOJA_3"] = "hoja_4"
  /\ normalize_name "x_007" ["x_007"] = "x_8"
  /\ normalize_name "x_5" ["x_5"] = "x_6"
  /\ normalize_all [] ["Ventas"; "ventas"; "Ventas"]
     = ["ventas"; "ventas_1"; "ventas_2"].
Proof.
  cbv zeta.
  split; [| split; [| split; [| repeat split]]].
  - intros Hmem. unfold normalize_name, deduplicate.
    destruct existing_names as [| e es]; [discriminate |].
    rewrite Hmem.
    destruct (suffix_start (candidate name)) as [base start] eqn:Hstart.
    destruct (next_free_enough base (map lower (e :: es)) start)
      as (Hle & Hfree & Htaken).
    exists base, start,
      (next_free (S (length (map lower (e :: es)))) base start
                 (map lower (e :: es))).
    split; [reflexivity |]. split.
    + destruct (suffix_start_cases name)
        as [(b & g & Heq & Hne & Hg & Hst) | (Hst & Hnone)];
        rewrite Hstart in Hst; injection Hst as -> ->.
      * left. exists g. auto.
      * right. auto.
    + auto.
  - intros Hmem. unfold normalize_name, deduplicate.
    destruct existing_names; [reflexivity |]. rewrite Hmem. reflexivity.
  - intros b k Hcand Hmem. unfold normalize_name, deduplicate.
    destruct existing_names as [| e es]; [discriminate |].
    rewrite Hmem. unfold suffix_start. rewrite Hcand.
    destruct (pretty_digits k) as (Hdig & Hne & Hval).
    rewrite (search_numeric_suffix_complete b (pretty k) Hne Hdig), Hval.
    destruct (next_free_enough b (map lower (e :: es)) (k + 1))
      as (Hle & Hfree & Htaken).
    exists (next_free (S (length (map lower (e :: es)))) b (k + 1)
                      (map lower (e :: es))).
    split; [lia |]. split; [reflexivity |]. split; [exact Hfree |].
    intros M HM. apply Htaken. lia.
Qed.

End Collisions.

Lemma collision_gets_smallest_free_suffix_witness :
  exists N,
    (2 < N)%N
    /\ normalize_name "Hoja_2" ["hoja_2"; "HOJA_3"] = "hoja" +:+ "_" +:+ pretty N
    /\ mem ("hoja" +:+ "_" +:+ pretty N) (map lower ["hoja_2"; "HOJA_3"])
       = false
    /\ (forall M, (2 < M < N)%N ->
                  mem ("hoja" +:+ "_" +:+ pretty M)
                      (map lower ["hoja_2"; "HOJA_3"]) = true).
Proof.
  destruct (collision_gets_smallest_free_suffix "Hoja_2" ["hoja_2"; "HOJA_3"])
    as (_ & _ & H & _).
  apply (H "hoja" 2%N); reflexivity.
Defined.


(** ** Inference *)

(** A column that fails the boolean rule is never typed BIT. *)
Lemma not_boolean_like_not_bit (E : pandas) (series : Series) (n : nat) :
  boolean_like E (dropna (sampled E series n)) = false ->
  sql_type (infer_sql_type E series n) <> "BIT".
Proof.
  intros Hb. unfold infer_sql_type. rewrite Hb.
  destruct (dropna _); [simpl; discriminate |].
  destruct (dtype series); simpl;
    repeat match goal with
           | |- context [if ?c then _ else _] => destruct c
           end; simpl; discriminate.
Qed.

(** C3.  The column of scenario E has five distinct values, so the boolean
    rule (at most four) does not fire and the inferred type is never BIT,
    whatever pandas coerces; when no value coerces to a number or a date
    the profile is NVARCHAR(50) with default [''] and confidence 1. *)
Theorem scenario_E_is_not_bit :
  (forall E : pandas,
      boolean_like E (dropna (values bool_words)) = false
      /\ sql_type (infer_sql_type E bool_words 1000) <> "BIT")
  /\ infer_sql_type words_env bool_words 1000
     = {| sql_type := "NVARCHAR(50)"; confidence := 1; nullable := false;
          default_value := Some "''"; warnings := []; mixed_types := false |}.
Proof.
  split; [| reflexivity].
  intros E. split; [reflexivity |].
  apply not_boolean_like_not_bit. reflexivity.
Qed.

Lemma varchar_size_small (L : N) :
  (L <= 500)%N ->
  varchar_size L ∈ text_tiers
  /\ (N.max L 50 <= varchar_size L)%N
  /\ (forall t, t ∈ text_tiers -> (N.max L 50 <= t)%N -> (varchar_size L <= t)%N).
Proof.
  intros HL. unfold varchar_size, text_tiers.
  destruct (N.leb_spec L 50); [| destruct (N.leb_spec L 100);
    [| destruct (N.leb_spec L 255); [| destruct (N.leb_spec L 500); [| lia]]]].
  all: split; [rewrite !elem_of_cons; auto 10 |]; split; [lia |].
  all: intros t Ht Hmax; rewrite !elem_of_cons, elem_of_nil in Ht; lia.
Qed.

Lemma varchar_size_large (L : N) :
  (500 < L)%N -> varchar_size L = N.max (L * 5 / 4) 1000.
Proof.
  intros HL. unfold varchar_size.
  destruct (N.leb_spec L 50); [lia |].
  destruct (N.leb_spec L 100); [lia |].
  destruct (N.leb_spec L 255); [lia |].
  destruct (N.leb_spec L 500); [lia | reflexivity].
Qed.

(** C8, as the code has it.  A column of the object dtype that is not
    boolean-like and passes neither the numeric nor the date threshold is
    typed NVARCHAR of the size computed from the longest value [L]: up to
    500 it is the smallest of 50, 100, 255, 500 that holds [max(L, 50)];
    beyond 500 it is [floor(L * 1.25)] but never less than 1000. *)
Theorem text_column_size (E : pandas) (series : Series) (sample_size : nat) :
  let non_null := dropna (sampled E series sample_size) in
  let L := max_length E non_null in
  dtype series = DObject ->
  non_null <> [] ->
  boolean_like E non_null = false ->
  above_nine_tenths (numeric_ok E non_null) (length non_null) = false ->
  above_nine_tenths (to_datetime_coerce_count E non_null) (length non_null)
  = false ->
  sql_type (infer_sql_type E series sample_size)
  = "NVARCHAR(" +:+ pretty (varchar_size L) +:+ ")"
  /\ ((L <= 500)%N ->
      varchar_size L ∈ text_tiers
      /\ (N.max L 50 <= varchar_size L)%N
      /\ (forall t, t ∈ text_tiers -> (N.max L 50 <= t)%N ->
                    (varchar_size L <= t)%N))
  /\ ((500 < L)%N -> varchar_size L = N.max (L * 5 / 4) 1000).
Proof.
  intros non_null L Hd Hne Hb Hnum Hdate.
  split; [| split; [apply varchar_size_small | apply varchar_size_large]].
  unfold infer_sql_type. fold non_null. rewrite Hb, Hd, Hnum, Hdate.
  destruct non_null; [congruence | reflexivity].
Qed.

(** C8, the input the stated claim misses: the longest value has 600
    characters and the declared size is 1000, not 750. *)
Lemma text_of_600_is_sized_1000 :
  max_length words_env (dropna (sampled words_env long_text 1000)) = 600%N
  /\ sql_type (infer_sql_type words_env long_text 1000) = "NVARCHAR(1000)"
  /\ sql_type (infer_sql_type words_env long_text 1000) <> "NVARCHAR(750)".
Proof.
  split; [vm_compute; reflexivity |].
  assert (H : sql_type (infer_sql_type words_env long_text 1000)
              = "NVARCHAR(1000)") by (vm_compute; reflexivity).
  split; [exact H | rewrite H; discriminate].
Qed.

Lemma text_column_size_witness :
  sql_type (infer_sql_type words_env long_text 1000)
  = "NVARCHAR(" +:+ pretty (varchar_size 600) +:+ ")".
Proof.
  pose proof (text_column_size words_env long_text 1000) as H.
  cbv zeta in H.
  replace (max_length words_env (dropna (sampled words_env long_text 1000)))
    with 600%N in H by (vm_compute; reflexivity).
  apply H; try (vm_compute; reflexivity).
  vm_compute. discriminate.
Defined.


(** ** Frame normalization *)

Section FrameNormalization.
Context (E : pandas).

Lemma map_res_length {A B : Type} (f : A -> res B) (l : list A) (ys : list B) :
  map_res f l = Ok ys -> length ys = length l.
Proof.
  revert ys. induction l as [| x r IH]; intros ys H; simpl in H.
  - injection H as <-. reflexivity.
  - destruct (f x); [| discriminate].
    destruct (map_res f r) as [zs |]; [| discriminate].
    injection H as <-. simpl. f_equal. apply IH. reflexivity.
Qed.

Lemma positions_from_lookup (i : nat) (name : string) (cols : list string) (k : nat) :
  k ∈ positions_from i name cols ->
  exists idx, k = (i + idx)%nat /\ cols !! idx = Some name.
Proof.
  revert i. induction cols as [| c r IH]; intros i Hk; simpl in Hk.
  - apply elem_of_nil in Hk. contradiction.
  - destruct (String.eqb c name) eqn:Hc.
    + apply elem_of_cons in Hk as [-> | Hk].
      * exists 0%nat. apply String.eqb_eq in Hc. subst c.
        split; [lia | reflexivity].
      * destruct (IH _ Hk) as (idx & -> & Hidx).
        exists (S idx). split; [lia | exact Hidx].
    + destruct (IH _ Hk) as (idx & -> & Hidx).
      exists (S idx). split; [lia | exact Hidx].
Qed.

Lemma set_column_length (j : nat) (vals : list pyval) (rs : list (list pyval)) :
  length vals = length rs -> length (set_column j vals rs) = length rs.
Proof.
  intros H. unfold set_column. rewrite length_zip_with. lia.
Qed.

Lemma set_column_other (j k : nat) (vals : list pyval) (rs : list (list pyval)) :
  k <> j -> length vals = length rs ->
  column_at j (set_column k vals rs) = column_at j rs.
Proof.
  intros Hkj. revert vals.
  induction rs as [| row rs IH]; intros vals Hlen; [reflexivity |].
  destruct vals as [| v vals]; [discriminate |].
  simpl in Hlen. unfold column_at, set_column in *. simpl.
  rewrite list_lookup_insert_ne by exact Hkj.
  f_equal. apply IH. lia.
Qed.

(** One mapped column: labels and row count stay, and so does every
    column under another label. *)
Lemma normalize_column_frame (df : DataFrame) (col : string) (cfg : config) :
  let df' := fst (normalize_column E df col cfg) in
  columns df' = columns df
  /\ length (rows df') = length (rows df)
  /\ forall j name, columns df !! j = Some name -> name <> col ->
       column_at j (rows df') = column_at j (rows df).
Proof.
  unfold normalize_column. cbv zeta.
  destruct (negb (mem col (columns df))); [simpl; auto |].
  destruct (positions col (columns df)) as [| k [| k' ks]] eqn:Hpos.
  - match goal with
    | |- context [fst ?t] =>
        replace (fst t) with df by (destruct (rows df); reflexivity)
    end.
    auto.
  - destruct (map_res _ _) as [vals |] eqn:Hvals; [| simpl; auto].
    apply map_res_length in Hvals.
    unfold column_values in Hvals. rewrite length_map in Hvals.
    rewrite <- (length_map (apply_result E vals)) in Hvals.
    simpl. split; [reflexivity |].
    split; [apply set_column_length; exact Hvals |].
    intros j name Hj Hne. apply set_column_other; [| exact Hvals].
    intros ->.
    assert (Hk : j ∈ positions col (columns df))
      by (rewrite Hpos; apply list_elem_of_here).
    apply positions_from_lookup in Hk as (idx & Hidx & Hcol).
    simpl in Hidx. subst idx. congruence.
  - match goal with
    | |- context [fst ?t] =>
        replace (fst t) with df by (destruct (rows df); reflexivity)
    end.
    auto.
Qed.

Lemma normalize_columns_frame (m : mapping) (df : DataFrame) :
  let df' := fst (normalize_columns E df m) in
  columns df' = columns df
  /\ length (rows df') = length (rows df)
  /\ forall j name, columns df !! j = Some name -> name ∉ keys m ->
       column_at j (rows df') = column_at j (rows df).
Proof.
  revert df. induction m as [| [col cfg] rest IH]; intros df; simpl.
  - auto.
  - pose proof (normalize_column_frame df col cfg) as H1.
    destruct (normalize_column E df col cfg) as [df1 w1]. simpl in H1.
    specialize (IH df1).
    destruct (normalize_columns E df1 rest) as [df2 w2]. simpl in IH |- *.
    destruct H1 as (Hc1 & Hl1 & Ho1). destruct IH as (Hc2 & Hl2 & Ho2).
    split; [congruence |]. split; [congruence |].
    intros j name Hj Hnot.
    apply not_elem_of_cons in Hnot as [Hne Hrest].
    rewrite (Ho2 j name); [apply (Ho1 j name); assumption
                          | rewrite Hc1; exact Hj | exact Hrest].
Qed.

(** C10.  Whole-frame normalization keeps the number of rows and the
    column labels, and leaves every column whose label is not a key of
    the mapping exactly as it was. *)
Theorem normalize_dataframe_keeps_rows_and_unmapped_columns
    (df : DataFrame) (column_mappings : mapping) :
  let df' := fst (normalize_dataframe_by_mappings E df column_mappings) in
  length (rows df') = length (rows df)
  /\ columns df' = columns df
  /\ forall j name, columns df !! j = Some name ->
       name ∉ keys column_mappings ->
       column_at j (rows df') = column_at j (rows df).
Proof.
  unfold normalize_dataframe_by_mappings.
  destruct (normalize_columns_frame column_mappings df) as (Hc & Hl & Ho).
  auto.
Qed.

End FrameNormalization.

Lemma normalize_dataframe_keeps_witness :
  column_at 1 (rows (fst (normalize_dataframe_by_mappings
                            words_env two_columns col1_as_int)))
  = column_at 1 (rows two_columns).
Proof.
  apply (normalize_dataframe_keeps_rows_and_unmapped_columns
           words_env two_columns col1_as_int) with (name := "col2").
  - reflexivity.
  - unfold keys, col1_as_int. simpl.
    intros H. apply list_elem_of_singleton in H. discriminate.
Defined.


(** ** Saving a frame *)

Section Saving.
Import Destination.
Context (E : pandas) (H : helpers) (D : destination).

Lemma extends_ret {A : Type} (a : A) : extends (ret a).
Proof. intros tr. exists []. simpl. rewrite app_nil_r. reflexivity. Qed.

Lemma extends_raise {A : Type} : extends (@raise A).
Proof. intros tr. exists []. simpl. rewrite app_nil_r. reflexivity. Qed.

Lemma extends_emit (e : event) : extends (emit e).
Proof. intros tr. exists [e]. reflexivity. Qed.

Lemma extends_bind {A B : Type} (m : M A) (k : A -> M B) :
  extends m -> (forall a, extends (k a)) -> extends (mbind m k).
Proof.
  intros Hm Hk tr. unfold mbind.
  destruct (Hm tr) as [s1 H1].
  destruct (m tr) as [[a |] tr']; simpl in H1; subst tr'.
  - destruct (Hk a (tr ++ s1)%list) as [s2 H2].
    exists (s1 ++ s2)%list. rewrite H2, app_assoc. reflexivity.
  - exists s1. reflexivity.
Qed.

Lemma extends_catch {A : Type} (body handler : M A) :
  extends body -> extends handler -> extends (catch body handler).
Proof.
  intros Hb Hh tr. unfold catch.
  destruct (Hb tr) as [s1 H1].
  destruct (body tr) as [[a |] tr']; simpl in H1; subst tr'.
  - exists s1. reflexivity.
  - destruct (Hh (tr ++ s1)%list) as [s2 H2].
    exists (s1 ++ s2)%list. rewrite H2, app_assoc. reflexivity.
Qed.

Lemma extends_lift {A : Type} (o : option A) : extends (lift o).
Proof. destruct o; [apply extends_ret | apply extends_raise]. Qed.

Lemma extends_run_db (c : db_command) : extends (run_db D c).
Proof.
  unfold run_db. destruct (accepts D c); [apply extends_emit |].
  apply extends_bind; [apply extends_emit | intros _; apply extends_raise].
Qed.

Lemma extends_insert_rows (sql : string) (vals : list (list pyval)) :
  forall inserted, extends (insert_rows D sql vals inserted).
Proof.
  induction vals as [| v r IH]; intros inserted; simpl; [apply extends_ret |].
  destruct (accepts D (ExecuteRow sql v));
    (apply extends_bind; [apply extends_emit | intros _; apply IH]).
Qed.

Lemma extends_insert_frame (column_mappings : mapping) (df_datos : DataFrame)
    (nombre_tabla_destino : string) :
  extends (insert_frame E H D column_mappings df_datos nombre_tabla_destino).
Proof.
  unfold insert_frame.
  destruct (df_empty df_datos); [apply extends_ret |].
  apply extends_bind.
  - destruct column_mappings; [apply extends_ret |].
    destruct (validate_column_mappings _ _) as [[|] errs]; apply extends_emit.
  - intros _. apply extends_bind.
    + destruct column_mappings; [apply extends_lift | apply extends_ret].
    + intros df_normalized. apply extends_catch.
      * destruct (insert_values _); [apply extends_ret |].
        apply extends_bind; [apply extends_run_db | intros _; apply extends_ret].
      * apply extends_insert_rows.
Qed.

(** The validation report is never written before the table has been
    dropped, created and committed. *)
Lemma validation_follows_table_creation
    (self_column_mappings : list (string * mapping)) (df_datos : DataFrame)
    (nombre_tabla_destino : string) (source_table_name : option string)
    (e : event) :
  let result :=
    _save_dataframe_to_destination E H D self_column_mappings df_datos
                                   nombre_tabla_destino source_table_name in
  e ∈ trace result ->
  is_validation_log e = true ->
  exists create_table_sql suffix,
    trace result
    = ([Db (Execute (drop_sql nombre_tabla_destino));
        Db (Execute create_table_sql);
        Db Commit] ++ suffix)%list.
Proof.
  cbv zeta. unfold _save_dataframe_to_destination, save_body.
  set (cm := lookup_mappings self_column_mappings source_table_name).
  set (tail := mbind (insert_frame E H D cm df_datos nombre_tabla_destino) _).
  assert (Htail : extends tail).
  { apply extends_bind; [apply extends_insert_frame |].
    intros n. apply extends_bind; [apply extends_run_db |].
    intros _. apply extends_ret. }
  clearbody tail.
  unfold mbind, run_db, lift, emit, ret, raise.
  destruct (connect_ok D); simpl;
    [| intros Hin; apply elem_of_nil in Hin; contradiction].
  destruct (generate_create_table_sql H df_datos nombre_tabla_destino cm)
    as [sql |]; simpl;
    [| intros Hin; apply elem_of_nil in Hin; contradiction].
  destruct (accepts D (Execute (drop_sql nombre_tabla_destino))); simpl.
  2: { intros Hin Hlog. apply list_elem_of_singleton in Hin. subst e.
       discriminate. }
  destruct (accepts D (Execute sql)); simpl.
  2: { intros Hin Hlog.
       rewrite !elem_of_cons, elem_of_nil in Hin.
       destruct Hin as [-> | [-> | []]]; discriminate. }
  destruct (accepts D Commit) eqn:Hcommit; simpl.
  2: { intros Hin Hlog.
       rewrite !elem_of_cons, elem_of_nil in Hin.
       destruct Hin as [-> | [-> | [-> | []]]]; discriminate. }
  intros _ _.
  destruct (Htail [Db (Execute (drop_sql nombre_tabla_destino));
                   Db (Execute sql); Db Commit]) as [suffix Hsuffix].
  exists sql, suffix.
  destruct (tail _) as [[n |] tr]; simpl in Hsuffix |- *; exact Hsuffix.
Qed.

(** C1, as the code has it.  Validation does not gate materialization.
    In every run the validation report comes after the table has been
    dropped, created and committed.  And for a frame with rows and a
    mapping that fails validation, against a destination that accepts the
    commands, the errors are logged, the normalized rows are inserted and
    committed, and the unit reports success. *)
Theorem validation_errors_do_not_stop_saving
    (self_column_mappings : list (string * mapping)) (df_datos : DataFrame)
    (nombre_tabla_destino : string) (source_table_name : option string) :
  let column_mappings :=
    lookup_mappings self_column_mappings source_table_name in
  let valores :=
    insert_values
      (with_defaults H
         (fst (normalize_dataframe_by_mappings E df_datos column_mappings))
         column_mappings) in
  let result :=
    _save_dataframe_to_destination E H D self_column_mappings df_datos
                                   nombre_tabla_destino source_table_name in
  (forall e,
      e ∈ trace result ->
      is_validation_log e = true ->
      exists create_table_sql suffix,
        trace result
        = ([Db (Execute (drop_sql nombre_tabla_destino));
            Db (Execute create_table_sql);
            Db Commit] ++ suffix)%list)
  /\ (forall create_table_sql validation_errors,
        connect_ok D = true ->
        (forall c, accepts D c = true) ->
        generate_create_table_sql H df_datos nombre_tabla_destino
                                  column_mappings
        = Some create_table_sql ->
        df_empty df_datos = false ->
        column_mappings <> [] ->
        validate_column_mappings df_datos column_mappings
        = (false, validation_errors) ->
        trace result
        = ([Db (Execute (drop_sql nombre_tabla_destino));
            Db (Execute create_table_sql);
            Db Commit;
            LogValidationErrors validation_errors]
           ++ match valores with
              | [] => []
              | _ =>
                  [Db (ExecuteMany
                         (insert_sql nombre_tabla_destino
                            (map (clean_column column_mappings)
                                 (columns df_datos)))
                         valores)]
              end
           ++ [Db Commit])%list
        /\ success result = true
        /\ records_inserted result
           = match valores with
             | [] => 0%Z
             | _ => if (rowcount D =? -1)%Z then Z.of_nat (length valores)
                    else rowcount D
             end).
Proof.
  intros column_mappings valores result. split.
  - intros e. apply validation_follows_table_creation.
  - intros create_table_sql validation_errors
           Hconn Hacc Hsql Hne Hmap Hval.
    subst result. unfold _save_dataframe_to_destination, save_body.
    fold column_mappings. subst valores. clearbody column_mappings.
    unfold insert_frame, mbind, run_db, lift, catch, emit, ret.
    rewrite Hconn, Hsql, !Hacc, Hne, Hval.
    destruct column_mappings as [| kv rest]; [congruence |].
    generalize (insert_values
                  (with_defaults H
                     (fst (normalize_dataframe_by_mappings
                             E df_datos (kv :: rest)))
                     (kv :: rest))).
    intros [| v vs]; simpl; [auto |].
    rewrite Hacc. simpl. auto.
Qed.

End Saving.

(** C1, the input the stated claim misses: a target name that starts with
    a digit is a validation error, and still the table is re-created and
    the row is inserted. *)
Lemma invalid_mapping_is_materialized :
  validate_column_mappings one_cell bad_target_name
  = (false, [INVALID_SQL_NAME "col1" "123_columna"])
  /\ Destination.executed
       (Destination.trace
          (Destination._save_dataframe_to_destination
             words_env plain_helpers accepting process_mappings one_cell
             "Proceso_hoja1" (Some "Hoja1")))
     = [Destination.Execute (Destination.drop_sql "Proceso_hoja1");
        Destination.Execute "CREATE TABLE [Proceso_hoja1] ([123_columna] INT)";
        Destination.Commit;
        Destination.ExecuteMany
          "INSERT INTO [Proceso_hoja1] ([123_columna]) VALUES (?)" [[VInt 1]];
        Destination.Commit]
  /\ Destination.records_inserted
       (Destination._save_dataframe_to_destination
          words_env plain_helpers accepting process_mappings one_cell
          "Proceso_hoja1" (Some "Hoja1")) = 1%Z.
Proof.
  repeat split; vm_compute; reflexivity.
Qed.

Lemma validation_errors_do_not_stop_saving_witness :
  Destination.success
    (Destination._save_dataframe_to_destination
       words_env plain_helpers accepting process_mappings one_cell
       "Proceso_hoja1" (Some "Hoja1")) = true.
Proof.
  destruct (validation_errors_do_not_stop_saving
              words_env plain_helpers accepting process_mappings one_cell
              "Proceso_hoja1" (Some "Hoja1")) as [_ Hsave].
  apply (Hsave "CREATE TABLE [Proceso_hoja1] ([123_columna] INT)"
               [INVALID_SQL_NAME "col1" "123_columna"]);
    try reflexivity.
  discriminate.
Defined.

(** ** The sheet loop *)

Section SheetLoop.
Import Sheets.
Context (L : log_writes) (run : nat -> string -> sheet_run).

(** A loop that runs to its end has listed every sheet: the sheets that
    succeeded with their record counts, and the others as failed. *)
Lemma process_sheets_continue (selected_sheets : list string) :
  forall (hoja_index : nat) (st st' : loop_state),
    process_sheets L run hoja_index selected_sheets st = Continue st' ->
    map ok_sheet_name (hojas_procesadas st')
    = (map ok_sheet_name (hojas_procesadas st)
       ++ succeeded_sheets L run hoja_index selected_sheets)%list
    /\ map err_sheet_name (hojas_con_error st')
       = (map err_sheet_name (hojas_con_error st)
          ++ failed_sheets L run hoja_index selected_sheets)%list
    /\ map ok_registros (hojas_procesadas st')
       = (map ok_registros (hojas_procesadas st)
          ++ succeeded_records L run hoja_index selected_sheets)%list
    /\ total_registros_procesados st'
       = (total_registros_procesados st
          + list_sum (succeeded_records L run hoja_index selected_sheets))%nat.
Proof.
  induction selected_sheets as [| sheet rest IH]; intros idx st st' Hrun;
    simpl in Hrun |- *.
  - injection Hrun as <-. rewrite !app_nil_r. repeat split. lia.
  - destruct (process_sheet L run (S idx) sheet st) as [st1 | msg] eqn:Hstep;
      [| discriminate].
    destruct (IH (S idx) st1 st' Hrun) as (Hok & Herr & Hreg & Htot).
    rewrite Hok, Herr, Hreg, Htot. clear Hok Herr Hreg Htot IH Hrun.
    unfold process_sheet, en_except in Hstep. unfold succeeded.
    destruct (run (S idx) sheet) as [n [|] info | msg]; simpl.
    + destruct (finalizar_exito L (S idx) sheet).
      * destruct (finalizar_error_en_except L (S idx) sheet); [discriminate |].
        injection Hstep as <-. simpl.
        rewrite ?map_app, <- ?app_assoc. repeat split.
      * injection Hstep as <-. simpl.
        rewrite ?map_app, <- ?app_assoc. repeat split. simpl. lia.
    + destruct (finalizar_error L (S idx) sheet);
        [destruct (finalizar_error_en_except L (S idx) sheet);
           [discriminate |] |];
        injection Hstep as <-; simpl;
        rewrite ?map_app, <- ?app_assoc; repeat split.
    + destruct (finalizar_error_en_except L (S idx) sheet); [discriminate |].
      injection Hstep as <-. simpl.
      rewrite ?map_app, <- ?app_assoc. repeat split.
Qed.

(** When the tracker answers in every [except], the loop runs to its
    end. *)
Lemma process_sheets_runs_to_the_end (selected_sheets : list string) :
  (forall hoja_index sheet_name,
      finalizar_error_en_except L hoja_index sheet_name = None) ->
  forall (hoja_index : nat) (st : loop_state),
    exists st', process_sheets L run hoja_index selected_sheets st
                = Continue st'.
Proof.
  intros Hquiet.
  induction selected_sheets as [| sheet rest IH]; intros idx st; simpl;
    [eauto |].
  assert (Hstep : exists st1,
             process_sheet L run (S idx) sheet st = Continue st1).
  { unfold process_sheet, en_except. rewrite Hquiet.
    destruct (run (S idx) sheet) as [n [|] info | msg]; eauto;
      [destruct (finalizar_exito L (S idx) sheet)
      | destruct (finalizar_error L (S idx) sheet)]; eauto. }
  destruct Hstep as [st1 ->]. apply IH.
Qed.

Lemma succeeded_failed_length (selected_sheets : list string) :
  forall hoja_index : nat,
    (length (succeeded_sheets L run hoja_index selected_sheets)
     + length (failed_sheets L run hoja_index selected_sheets))%nat
    = length selected_sheets.
Proof.
  induction selected_sheets as [| sheet rest IH]; intros idx; simpl;
    [reflexivity |].
  specialize (IH (S idx)).
  destruct (succeeded L run (S idx) sheet); simpl; lia.
Qed.

Lemma succeeded_sheets_nonempty (selected_sheets : list string) :
  forall hoja_index : nat,
    succeeded_sheets L run hoja_index selected_sheets <> [] <->
    exists i sheet, selected_sheets !! i = Some sheet
                    /\ succeeded L run (S (hoja_index + i)) sheet = true.
Proof.
  induction selected_sheets as [| sheet rest IH]; intros idx; simpl.
  - split; [congruence |]. intros (i & s & Hi & _). discriminate.
  - destruct (succeeded L run (S idx) sheet) eqn:Hs.
    + split; [| discriminate]. intros _. exists 0%nat, sheet.
      rewrite Nat.add_0_r. auto.
    + rewrite (IH (S idx)). split.
      * intros (i & s & Hi & Hrun). exists (S i), s.
        split; [exact Hi |]. rewrite <- Hrun. f_equal. lia.
      * intros ([| i] & s & Hi & Hrun); simpl in Hi.
        -- injection Hi as <-. rewrite Nat.add_0_r in Hrun. congruence.
        -- exists i, s. split; [exact Hi |]. rewrite <- Hrun.
           f_equal. lia.
Qed.

(** With log writes that return, every sheet is run and lands in exactly
    one of the two result lists, and the consolidated flag is true
    exactly when some sheet succeeded. *)
Lemma sheet_failures_are_isolated_while_logs_respond
    (selected_sheets : list string) :
  logs_respond L ->
  selected_sheets <> [] ->
  exists info,
    _process_excel_sheets_individually L run selected_sheets
    = Some (success info, Consolidado info)
    /\ map ok_sheet_name (detalles_hojas_exitosas info)
       = succeeded_sheets L run 0 selected_sheets
    /\ map err_sheet_name (detalles_hojas_error info)
       = failed_sheets L run 0 selected_sheets
    /\ n_hojas_procesadas info
       = length (succeeded_sheets L run 0 selected_sheets)
    /\ n_hojas_con_error info = length (failed_sheets L run 0 selected_sheets)
    /\ (n_hojas_procesadas info + n_hojas_con_error info)%nat
       = length selected_sheets
    /\ total_hojas info = length selected_sheets
    /\ (success info = true <->
        exists i sheet, selected_sheets !! i = Some sheet
                        /\ succeeded L run (S i) sheet = true).
Proof.
  intros (Hlog & Hfile & Hbefore & Hquiet & Hafter) Hne.
  unfold _process_excel_sheets_individually.
  rewrite Hlog, Hfile, Hbefore. simpl negb. cbv iota.
  destruct selected_sheets as [| sheet rest]; [congruence |].
  destruct (process_sheets_runs_to_the_end (sheet :: rest) Hquiet 0
              initial_state) as [st Hst].
  rewrite Hst. cbv zeta. rewrite Hafter.
  destruct (process_sheets_continue (sheet :: rest) 0 initial_state st Hst)
    as (Hok & Herr & _ & _).
  change (map ok_sheet_name (hojas_procesadas initial_state))
    with (@nil string) in Hok.
  change (map err_sheet_name (hojas_con_error initial_state))
    with (@nil string) in Herr.
  rewrite app_nil_l in Hok, Herr.
  exists {| success := (0 <? length (hojas_procesadas st))%nat;
            n_hojas_procesadas := length (hojas_procesadas st);
            n_hojas_con_error := length (hojas_con_error st);
            total_hojas := length (sheet :: rest);
            total_registros := total_registros_procesados st;
            detalles_hojas_exitosas := hojas_procesadas st;
            detalles_hojas_error := hojas_con_error st |}.
  split; [reflexivity |].
  cbn [success n_hojas_procesadas n_hojas_con_error total_hojas
       detalles_hojas_exitosas detalles_hojas_error].
  assert (Hn1 : length (hojas_procesadas st)
                = length (succeeded_sheets L run 0 (sheet :: rest)))
    by (rewrite <- Hok, length_map; reflexivity).
  assert (Hn2 : length (hojas_con_error st)
                = length (failed_sheets L run 0 (sheet :: rest)))
    by (rewrite <- Herr, length_map; reflexivity).
  split; [exact Hok |]. split; [exact Herr |].
  split; [exact Hn1 |]. split; [exact Hn2 |].
  split; [rewrite Hn1, Hn2; apply succeeded_failed_length |].
  split; [reflexivity |].
  rewrite Hn1. split.
  - intros Hpos. apply Nat.ltb_lt in Hpos.
    apply (succeeded_sheets_nonempty (sheet :: rest) 0).
    intros Hnil. rewrite Hnil in Hpos. simpl in Hpos. lia.
  - intros Hex. apply Nat.ltb_lt.
    apply (succeeded_sheets_nonempty (sheet :: rest) 0) in Hex.
    destruct (succeeded_sheets L run 0 (sheet :: rest));
      [congruence | simpl; lia].
Qed.

End SheetLoop.

(** C5.  The [except] of a sheet calls the tracker without protection.
    With three sheets of which the second fails to materialize while the
    logs database does not answer, the exception of the tracker leaves
    the handler of the sheet: the third sheet is never run and the
    function returns a general failure that reports no processed sheet,
    although the first sheet was saved.  With log writes that return,
    every sheet lands in exactly one of the two result lists, the flag is
    true exactly when some sheet succeeded, and the same three sheets
    give success with two sheets processed and one in error. *)
Theorem tracker_fault_in_the_handler_aborts_all_sheets :
  (Sheets._process_excel_sheets_individually
     logs_down_at_second second_sheet_fails ["Ventas"; "Compras"; "Stock"]
   = Some (false,
           Sheets.ErrorGeneral
             "Error general procesando Excel: logs database is not available"
             3)
   /\ Sheets.succeeded logs_down_at_second second_sheet_fails 1 "Ventas" = true
   /\ Sheets.succeeded logs_down_at_second second_sheet_fails 3 "Stock" = true)
  /\ (forall (L : Sheets.log_writes) (run : nat -> string -> Sheets.sheet_run)
             (selected_sheets : list string),
        Sheets.logs_respond L ->
        selected_sheets <> [] ->
        exists info,
          Sheets._process_excel_sheets_individually L run selected_sheets
          = Some (Sheets.success info, Sheets.Consolidado info)
          /\ map Sheets.ok_sheet_name (Sheets.detalles_hojas_exitosas info)
             = Sheets.succeeded_sheets L run 0 selected_sheets
          /\ map Sheets.err_sheet_name (Sheets.detalles_hojas_error info)
             = Sheets.failed_sheets L run 0 selected_sheets
          /\ (Sheets.n_hojas_procesadas info + Sheets.n_hojas_con_error info)%nat
             = length selected_sheets
          /\ (Sheets.success info = true <->
              exists i sheet, selected_sheets !! i = Some sheet
                              /\ Sheets.succeeded L run (S i) sheet = true))
  /\ (exists info,
        Sheets._process_excel_sheets_individually
          quiet_logs second_sheet_fails ["Ventas"; "Compras"; "Stock"]
        = Some (true, Sheets.Consolidado info)
        /\ Sheets.n_hojas_procesadas info = 2%nat
        /\ Sheets.n_hojas_con_error info = 1%nat
        /\ map Sheets.err_sheet_name (Sheets.detalles_hojas_error info)
           = ["Compras"]).
Proof.
  split; [repeat split |]. split.
  - intros L run selected_sheets Hlogs Hne.
    destruct (sheet_failures_are_isolated_while_logs_respond
                L run selected_sheets Hlogs Hne)
      as (info & Hres & Hok & Herr & _ & _ & Hsum & _ & Hflag).
    exists info. auto.
  - eexists. split; [reflexivity |]. repeat split.
Qed.


(** * Further properties *)

(** ** Shape of normalized names *)

Section NameShape.
Import SheetNames.

Lemma word_char_allowed (c : ascii) : word_char c = true -> allowed_char c = true.
Proof.
  unfold word_char, allowed_char.
  destruct (is_ascii_lower c), (is_ascii_digit c), (Ascii.eqb c "_");
    simpl; congruence.
Qed.

Lemma forallb_impl (p q : ascii -> bool) (s : string) :
  (forall c, p c = true -> q c = true) ->
  PyStr.forallb p s = true -> PyStr.forallb q s = true.
Proof.
  intros Hpq. induction s as [| c r IH]; simpl; [reflexivity |].
  intros H. apply andb_true_iff in H as [Hc Hr].
  rewrite (Hpq c Hc), (IH Hr). reflexivity.
Qed.

Lemma sep_cases (c : ascii) :
  allowed_char c = true -> is_sep c = false -> word_char c = true.
Proof.
  unfold allowed_char, is_sep, word_char.
  destruct (is_ascii_lower c), (is_ascii_digit c),
    (Ascii.eqb c "_"), (Ascii.eqb c "-"); simpl; congruence.
Qed.

(** Collapsing leaves only word characters, with single underscores. *)
Lemma collapse_shape (s : string) :
  PyStr.forallb allowed_char s = true ->
  forall in_run,
    PyStr.forallb word_char (collapse_from in_run s) = true
    /\ no_run in_run (collapse_from in_run s) = true
    /\ no_run false (collapse_from in_run s) = true.
Proof.
  induction s as [| c r IH]; intros Hs in_run; [simpl; destruct in_run; auto |].
  simpl in Hs. apply andb_true_iff in Hs as [Hc Hr].
  specialize (IH Hr). simpl.
  destruct (is_sep c) eqn:Hsep.
  - destruct in_run.
    + destruct (IH true) as (Hw & Hn & Hf). auto.
    + destruct (IH true) as (Hw & Hn & Hf). simpl. rewrite Hw, Hn. auto.
  - destruct (IH false) as (Hw & Hn & _). simpl.
    rewrite Hsep, (sep_cases c Hc Hsep), Hw, Hn. destruct in_run; auto.
Qed.

Lemma no_run_fixed (s : string) :
  forall in_run, no_run in_run s = true -> collapse_from in_run s = s.
Proof.
  induction s as [| c r IH]; intros in_run H; [reflexivity |].
  simpl in H |- *. destruct (is_sep c) eqn:Hsep.
  - apply andb_true_iff in H as [H Hr]. apply andb_true_iff in H as [Hb Hu].
    destruct in_run; [discriminate |].
    apply Ascii.eqb_eq in Hu. subst c. rewrite (IH true Hr). reflexivity.
  - rewrite (IH false H). reflexivity.
Qed.

Lemma no_run_take (n : nat) (s : string) :
  forall in_run, no_run in_run s = true -> no_run in_run (take n s) = true.
Proof.
  revert s. induction n as [| n IH]; intros s in_run H; [reflexivity |].
  destruct s as [| c r]; [reflexivity |]. simpl in H |- *.
  destruct (is_sep c).
  - apply andb_true_iff in H as [H Hr]. rewrite H, (IH r true Hr). reflexivity.
  - apply IH. exact H.
Qed.

Lemma digit_is_word (c : ascii) : isdigit c = true -> word_char c = true ->
  is_ascii_digit c = true /\ is_sep c = false.
Proof.
  destruct c as [[] [] [] [] [] [] [] []]; vm_compute; intros; auto;
    discriminate.
Qed.

(** The candidate name: only lower-case letters, digits and underscores,
    runs of underscores collapsed, not empty, no digit in front, at most
    128 characters. *)
Lemma candidate_shape (name : string) :
  PyStr.forallb word_char (candidate name) = true
  /\ no_run false (candidate name) = true
  /\ (String.length (candidate name) <= 128)%nat
  /\ exists c r, candidate name = String c r /\ isdigit c = false.
Proof.
  unfold candidate.
  set (s := collapse _).
  destruct (collapse_shape
              (PyStr.filter allowed_char
                 (replace_char " " "_"
                    (strip (lower (if String.eqb name "" then "sin_nombre"
                                   else name)))))
              (forallb_filter _ _) false) as (Hw & Hn & _).
  fold (collapse (PyStr.filter allowed_char
                    (replace_char " " "_"
                       (strip (lower (if String.eqb name "" then "sin_nombre"
                                      else name)))))) in Hw, Hn.
  fold s in Hw, Hn.
  assert (Htake : forall x, (String.length (take 128 x) <= 128)%nat).
  { intros x. generalize 128%nat. intros n. revert x.
    induction n as [| n IH]; intros [| c r]; simpl; try lia.
    specialize (IH r). lia. }
  destruct s as [| c r] eqn:Es.
  - simpl. repeat split; try reflexivity; try lia. eauto.
  - destruct (isdigit c) eqn:Hd.
    + change (String.eqb ("tabla_" +:+ String c r) "") with false. cbv iota.
      simpl in Hw. apply andb_true_iff in Hw as [Hc Hr].
      destruct (digit_is_word c Hd Hc) as [_ Hsep].
      simpl in Hn. rewrite Hsep in Hn.
      split; [| split; [| split]].
      * apply forallb_take. simpl. rewrite Hc, Hr. reflexivity.
      * apply no_run_take. simpl. rewrite Hsep. exact Hn.
      * apply Htake.
      * simpl. eauto.
    + change (String.eqb (String c r) "") with false. cbv iota.
      split; [| split; [| split]].
      * apply forallb_take. exact Hw.
      * apply no_run_take. exact Hn.
      * apply Htake.
      * simpl. eauto.
Qed.

End NameShape.

Section NormalizedNames.
Import SheetNames.

Lemma word_char_facts (c : ascii) :
  word_char c = true ->
  lower_char c = c
  /\ is_name_char c = true
  /\ Ascii.eqb c (chr 10) = false
  /\ (isdigit c = false -> is_name_start c = true).
Proof.
  destruct c as [[] [] [] [] [] [] [] []]; vm_compute; intros;
    try discriminate; auto.
Qed.

Lemma digit_word_char (c : ascii) :
  is_ascii_digit c = true -> word_char c = true.
Proof.
  unfold word_char. intros ->. destruct (is_ascii_lower c); reflexivity.
Qed.

Lemma lower_word (s : string) :
  PyStr.forallb word_char s = true -> lower s = s.
Proof.
  induction s as [| c r IH]; simpl; [reflexivity |].
  intros H. apply andb_true_iff in H as [Hc Hr].
  destruct (word_char_facts c Hc) as (-> & _). rewrite (IH Hr). reflexivity.
Qed.

Lemma name_tail_word (s : string) :
  PyStr.forallb word_char s = true -> name_tail s = true.
Proof.
  induction s as [| c r IH]; [reflexivity |].
  intros H. simpl in H. apply andb_true_iff in H as [Hc Hr].
  change (name_tail (String c r))
    with (if Ascii.eqb c (chr 10) && String.eqb r "" then true
          else is_name_char c && name_tail r).
  destruct (word_char_facts c Hc) as (_ & -> & -> & _).
  rewrite (IH Hr). reflexivity.
Qed.

(** A non-empty word without a digit in front is a valid SQL name. *)
Lemma word_is_valid_sql_name (c : ascii) (r : string) :
  PyStr.forallb word_char (String c r) = true ->
  isdigit c = false ->
  valid_sql_name (String c r) = true.
Proof.
  simpl. intros H Hd. apply andb_true_iff in H as [Hc Hr].
  destruct (word_char_facts c Hc) as (_ & _ & _ & Hs).
  rewrite (Hs Hd), (name_tail_word r Hr). reflexivity.
Qed.

(** The two ways out of the duplicate check. *)
Lemma deduplicate_cases (cand : string) (existing_names : list string) :
  PyStr.forallb allowed_char cand = true ->
  (deduplicate cand existing_names = cand
   /\ mem cand (map lower existing_names) = false)
  \/ (mem cand (map lower existing_names) = true
      /\ exists base rest counter,
           cand = base +:+ rest
           /\ deduplicate cand existing_names = suffixed base counter
           /\ mem (suffixed base counter) (map lower existing_names) = false).
Proof.
  intros Hc. unfold deduplicate.
  destruct existing_names as [| e es]; [left; auto |].
  set (existing_lower := map lower (e :: es)).
  destruct (mem cand existing_lower) eqn:Hm; [right | left; auto].
  split; [reflexivity |].
  unfold suffix_start.
  destruct (search_numeric_suffix cand) as [[b g] |] eqn:Hs.
  - destruct (search_numeric_suffix_sound cand b g Hc Hs) as (Heq & _ & _).
    destruct (next_free_enough b existing_lower (int_of_digits g + 1))
      as (_ & Hfree & _).
    exists b, ("_" +:+ g), (next_free (S (length existing_lower)) b
                             (int_of_digits g + 1) existing_lower).
    auto.
  - destruct (next_free_enough cand existing_lower 1) as (_ & Hfree & _).
    exists cand, "", (next_free (S (length existing_lower)) cand 1
                        existing_lower).
    split; [| auto].
    clear. induction cand as [| c r IH]; simpl; [reflexivity |].
    rewrite <- IH. reflexivity.
Qed.

End NormalizedNames.

Section NormalizeNameResults.
Import SheetNames.

Lemma word_char_kept (c : ascii) :
  word_char c = true ->
  isspace c = false /\ Ascii.eqb c " " = false /\ allowed_char c = true.
Proof.
  destruct c as [[] [] [] [] [] [] [] []]; vm_compute; intros;
    try discriminate; auto.
Qed.

Lemma rstrip_word (s : string) :
  PyStr.forallb word_char s = true -> rstrip s = s.
Proof.
  induction s as [| c r IH]; simpl; [reflexivity |].
  intros H. apply andb_true_iff in H as [Hc Hr].
  rewrite (IH Hr). destruct (word_char_kept c Hc) as (-> & _).
  destruct r; reflexivity.
Qed.

Lemma strip_word (s : string) :
  PyStr.forallb word_char s = true -> strip s = s.
Proof.
  intros H. unfold strip.
  replace (lstrip s) with s; [apply rstrip_word, H |].
  destruct s as [| c r]; [reflexivity |]. simpl in H |- *.
  apply andb_true_iff in H as [Hc _].
  destruct (word_char_kept c Hc) as (-> & _). reflexivity.
Qed.

Lemma replace_space_word (s : string) :
  PyStr.forallb word_char s = true -> replace_char " " "_" s = s.
Proof.
  induction s as [| c r IH]; simpl; [reflexivity |].
  intros H. apply andb_true_iff in H as [Hc Hr].
  destruct (word_char_kept c Hc) as (_ & -> & _). rewrite (IH Hr). reflexivity.
Qed.

Lemma filter_word (s : string) :
  PyStr.forallb word_char s = true -> PyStr.filter allowed_char s = s.
Proof.
  induction s as [| c r IH]; simpl; [reflexivity |].
  intros H. apply andb_true_iff in H as [Hc Hr].
  destruct (word_char_kept c Hc) as (_ & _ & ->). rewrite (IH Hr). reflexivity.
Qed.

Lemma take_all (n : nat) (s : string) :
  (String.length s <= n)%nat -> take n s = s.
Proof.
  revert s. induction n as [| n IH]; intros [| c r]; simpl; intros H;
    try reflexivity; try lia.
  rewrite IH by lia. reflexivity.
Qed.

(** The result of [normalize_name] starts with a character that is no
    digit and consists of word characters. *)
Lemma normalize_name_head (name : string) (existing_names : list string) :
  exists c t,
    normalize_name name existing_names = String c t
    /\ isdigit c = false
    /\ PyStr.forallb word_char (String c t) = true.
Proof.
  unfold normalize_name.
  destruct (candidate_shape name) as (Hw & _ & _ & c & t & Hct & Hd).
  destruct (deduplicate_cases (candidate name) existing_names
              (candidate_chars name))
    as [[-> _] | (_ & base & rest & counter & Hsplit & -> & _)].
  - exists c, t. rewrite <- Hct. auto.
  - rewrite Hsplit, forallb_append in Hw.
    apply andb_true_iff in Hw as [Hb _].
    assert (Hs : PyStr.forallb word_char (suffixed base counter) = true).
    { unfold suffixed. rewrite !forallb_append, Hb. simpl.
      destruct (pretty_digits counter) as (Hp & _).
      rewrite (forallb_impl _ _ _ digit_word_char Hp). reflexivity. }
    destruct base as [| b bs].
    + exists "_"%char, (pretty counter). repeat split; auto.
    + exists b, (bs +:+ "_" +:+ pretty counter).
      rewrite Hct in Hsplit. simpl in Hsplit. injection Hsplit as -> _.
      repeat split; auto.
Qed.

Lemma normalize_name_lower (name : string) (existing_names : list string) :
  lower (normalize_name name existing_names)
  = normalize_name name existing_names.
Proof.
  destruct (normalize_name_head name existing_names) as (c & t & -> & _ & Hw).
  apply lower_word, Hw.
Qed.

Lemma normalize_name_free (name : string) (existing_names : list string) :
  mem (normalize_name name existing_names) (map lower existing_names) = false.
Proof.
  unfold normalize_name.
  destruct (deduplicate_cases (candidate name) existing_names
              (candidate_chars name))
    as [[-> H] | (_ & base & rest & counter & _ & -> & H)]; exact H.
Qed.

(** X1.  Whatever the name and the existing names, the result of
    [normalize_name] is a non-empty text of lower-case ASCII letters,
    digits and underscores that does not start with a digit: it passes
    the SQL-name pattern of [validate_column_mappings] and is its own
    lower-case form. *)
Theorem normalize_name_is_valid_identifier
    (name : string) (existing_names : list string) :
  let r := normalize_name name existing_names in
  valid_sql_name r = true
  /\ PyStr.forallb word_char r = true
  /\ lower r = r.
Proof.
  cbv zeta. split; [| split; [| apply normalize_name_lower]];
    destruct (normalize_name_head name existing_names)
      as (c & t & -> & Hd & Hw); [| exact Hw].
  apply word_is_valid_sql_name; assumption.
Qed.

(** X2.  Whatever the name and the existing names, the result of
    [normalize_name] differs from every existing name, letter case
    aside. *)
Theorem normalize_name_is_not_taken
    (name : string) (existing_names : list string) :
  forall e, e ∈ existing_names ->
            lower e <> lower (normalize_name name existing_names).
Proof.
  intros e He Heq. rewrite normalize_name_lower in Heq.
  pose proof (normalize_name_free name existing_names) as Hfree.
  assert (Hin : mem (normalize_name name existing_names)
                    (map lower existing_names) = true).
  { apply mem_true_iff. rewrite <- Heq.
    apply (list_elem_of_fmap_2 lower). exact He. }
  congruence.
Qed.

Lemma normalize_name_is_not_taken_witness :
  lower "Hoja_1" <> lower (normalize_name "Hoja" ["hoja"; "Hoja_1"]).
Proof.
  apply (normalize_name_is_not_taken "Hoja" ["hoja"; "Hoja_1"] "Hoja_1").
  apply list_elem_of_In. simpl. auto.
Defined.

(** X3.  Without existing names, normalizing a normalized name changes
    nothing. *)
Theorem normalize_name_is_idempotent (name : string) :
  normalize_name (normalize_name name []) [] = normalize_name name [].
Proof.
  unfold normalize_name, deduplicate.
  destruct (candidate_shape name) as (Hw & Hn & Hlen & c & t & Hct & Hd).
  set (s := candidate name) in *.
  unfold candidate.
  replace (String.eqb s "") with false by (rewrite Hct; reflexivity).
  rewrite (lower_word s Hw), (strip_word s Hw), (replace_space_word s Hw),
    (filter_word s Hw).
  unfold collapse. rewrite (no_run_fixed s false Hn).
  rewrite Hct, Hd. change (String.eqb (String c t) "") with false.
  cbv iota. rewrite <- Hct. apply take_all, Hlen.
Qed.

(** X4.  [validate_sheet_name] has three outcomes only: a blank name is
    rejected as empty; otherwise the name is normalized and accepted,
    unless the normalized name is longer than 128 characters.  The
    rejections for a leading digit and for an existing name, and the
    index error on an empty normalized name, cannot occur. *)
Theorem validate_sheet_name_outcomes
    (name : string) (existing_names : list string) :
  validate_sheet_name name existing_names
  = if String.eqb name "" || String.eqb (strip name) ""
    then Checked false None (Some EMPTY_NAME)
    else
      let normalized := normalize_name name existing_names in
      if (128 <? String.length normalized)%nat
      then Checked false None (Some LONGER_THAN_128)
      else Checked true (Some normalized) None.
Proof.
  unfold validate_sheet_name.
  destruct (String.eqb name "" || String.eqb (strip name) ""); [reflexivity |].
  cbv zeta.
  destruct (128 <? String.length (normalize_name name existing_names))%nat;
    [reflexivity |].
  rewrite normalize_name_lower, normalize_name_free, andb_false_r.
  destruct (normalize_name_head name existing_names) as (c & t & -> & -> & _).
  reflexivity.
Qed.

(** X5.  A column name that is not blank and whose candidate collides
    with no existing name is accepted by [validate_column_name], with the
    candidate as normalized name: a name is rejected as too long only
    after a collision. *)
Theorem validate_column_name_accepts_free_names
    (name : string) (existing_names : list string) :
  String.eqb name "" || String.eqb (strip name) "" = false ->
  mem (candidate name) (map lower existing_names) = false ->
  validate_column_name name existing_names
  = Checked true (Some (candidate name)) None.
Proof.
  intros Hblank Hfree.
  assert (Hn : normalize_name name existing_names = candidate name).
  { unfold normalize_name, deduplicate.
    destruct existing_names; [reflexivity |]. rewrite Hfree. reflexivity. }
  unfold validate_column_name, validate_sheet_name. rewrite Hblank. cbv zeta.
  pose proof (normalize_name_lower name existing_names) as Hl.
  rewrite Hn in Hl |- *. rewrite Hl, Hfree, andb_false_r.
  destruct (candidate_shape name) as (_ & _ & Hlen & c & t & Hct & Hd).
  destruct (Nat.ltb_spec 128 (String.length (candidate name))); [lia |].
  rewrite Hct, Hd. reflexivity.
Qed.

Lemma validate_column_name_accepts_witness :
  validate_column_name "Precio Unitario" ["cantidad"; "precio"]
  = Checked true (Some "precio_unitario") None.
Proof.
  apply (validate_column_name_accepts_free_names "Precio Unitario"
           ["cantidad"; "precio"]); reflexivity.
Defined.

End NormalizeNameResults.

(** ** Further properties of [normalize_value_by_type] *)

Section ValueResults.
Context (E : pandas).

Ltac uncaught_only :=
  repeat split; try reflexivity;
  match goal with
  | Hc : caught ?x = false |- _ => exact Hc
  end.

(** X6.  An exception leaves [normalize_value_by_type] only when it is
    neither a [ValueError] nor a [TypeError] (those are caught and
    answered with the fallback), and only for a value that is not empty
    under an integer, decimal or temporal type: the boolean and the text
    rules never raise, and an empty value never raises. *)
Theorem normalize_value_raises_only_uncaught
    (value : pyval) (sql_type : string) (nullable : bool)
    (default_value : pyval) (e : exn) :
  normalize_value_by_type E value sql_type nullable default_value = Raise e ->
  caught e = false
  /\ is_empty value = false
  /\ contains_any int_types (upper sql_type)
     || contains_any float_types (upper sql_type)
     || contains_any date_types (upper sql_type) = true.
Proof.
  unfold normalize_value_by_type, try_except, bind. intros H.
  destruct (is_empty value).
  { repeat case_match; discriminate. }
  destruct (contains_any int_types (upper sql_type)).
  { repeat case_match; simplify_eq; uncaught_only. }
  destruct (contains_any float_types (upper sql_type)).
  { repeat case_match; simplify_eq; uncaught_only. }
  destruct (contains_any date_types (upper sql_type)).
  { repeat case_match; simplify_eq; uncaught_only. }
  repeat case_match; discriminate.
Qed.

(** X7.  Under a boolean type and without a configured default, every
    value is normalized to 0 or 1, or to [None] when the column is
    nullable; nothing else comes out. *)
Theorem bit_value_is_zero_one_or_none
    (value : pyval) (sql_type : string) (nullable : bool) :
  contains_any int_types (upper sql_type) = false ->
  contains_any float_types (upper sql_type) = false ->
  contains_any date_types (upper sql_type) = false ->
  contains "BIT" (upper sql_type) = true ->
  exists result,
    normalize_value_by_type E value sql_type nullable VNone = Ok result
    /\ (result = VInt 0 \/ result = VInt 1
        \/ (nullable = true /\ result = VNone)).
Proof.
  intros Hi Hf Hd Hb. unfold normalize_value_by_type.
  rewrite Hi, Hf, Hd, Hb. simpl.
  destruct (is_empty value); [destruct nullable; eauto 6 |].
  destruct value as [| | [|] | z | f | s |];
    try solve [destruct nullable; eauto 6].
  - destruct (z =? 0)%Z; eauto.
  - destruct (float_is_zero f); eauto.
  - repeat case_match; eauto 6.
Qed.

(** The text rule under a declared length, for a value that is not
    empty. *)
Lemma text_branch_result
    (value : pyval) (sql_type : string) (nullable : bool)
    (default_value : pyval) (n : N) :
  declared_max_length sql_type = Some n ->
  is_empty value = false ->
  normalize_value_by_type E value sql_type nullable default_value
  = Ok (VStr (if (n <? N.of_nat (String.length (py_str E value)))%N
              then take (N.to_nat n) (py_str E value)
              else py_str E value)).
Proof.
  intros Hdecl Hne.
  unfold declared_max_length in Hdecl.
  unfold normalize_value_by_type. rewrite Hne.
  destruct (contains_any int_types (upper sql_type)); [discriminate |].
  destruct (contains_any float_types (upper sql_type)); [discriminate |].
  destruct (contains_any date_types (upper sql_type)); [discriminate |].
  destruct (contains "BIT" (upper sql_type)); [discriminate |].
  simpl in Hdecl |- *.
  assert (Hna : is_none value || isna value = false).
  { unfold is_empty in Hne. apply orb_false_iff in Hne as [Hna _].
    rewrite Hna. destruct value; simpl in *; congruence. }
  rewrite Hna.
  destruct (contains "VARCHAR" (upper sql_type) || contains "CHAR" (upper sql_type));
    [| discriminate].
  destruct (search_paren_digits sql_type) as [ds |]; [| discriminate].
  simpl in Hdecl. injection Hdecl as ->. reflexivity.
Qed.

(** X8.  Under a text type with a declared length, a value that is not
    empty and whose text is not longer than that length is returned as
    its text, unchanged. *)
Theorem short_text_is_kept
    (value : pyval) (sql_type : string) (nullable : bool)
    (default_value : pyval) (n : N) :
  declared_max_length sql_type = Some n ->
  is_empty value = false ->
  (N.of_nat (String.length (py_str E value)) <= n)%N ->
  normalize_value_by_type E value sql_type nullable default_value
  = Ok (VStr (py_str E value)).
Proof.
  intros Hdecl Hne Hlen.
  rewrite (text_branch_result _ _ _ _ n Hdecl Hne).
  destruct (N.ltb_spec n (N.of_nat (String.length (py_str E value))));
    [lia | reflexivity].
Qed.

(** X9.  Under an integer type an integer that a double holds exactly
    (up to 2^53 in magnitude) is returned unchanged, whatever the default
    and the nullable flag. *)
Theorem exact_integer_is_kept
    (z : Z) (sql_type : string) (nullable : bool) (default_value : pyval) :
  contains_any int_types (upper sql_type) = true ->
  (Z.abs z <= 2 ^ 53)%Z ->
  normalize_value_by_type E (VInt z) sql_type nullable default_value
  = Ok (VInt z).
Proof.
  intros Hi Hz. unfold normalize_value_by_type. rewrite Hi. simpl.
  unfold float_of_Z, overflows. simpl.
  assert (Hbig : (2 ^ 53 < overflow_threshold)%Z) by (vm_compute; reflexivity).
  destruct (Z.leb_spec (overflow_threshold * 1) (Z.abs z)); [lia |].
  simpl. rewrite Z.quot_1_r. reflexivity.
Qed.

End ValueResults.

Lemma normalize_value_raises_witness :
  caught OverflowError = false
  /\ is_empty (VFloat (FInf false)) = false
  /\ contains_any int_types (upper "INT")
     || contains_any float_types (upper "INT")
     || contains_any date_types (upper "INT") = true.
Proof.
  apply (normalize_value_raises_only_uncaught words_env
           (VFloat (FInf false)) "INT" false VNone OverflowError).
  reflexivity.
Defined.

Lemma bit_value_witness :
  exists result,
    normalize_value_by_type words_env (VStr " Si ") "bit" false VNone = Ok result
    /\ (result = VInt 0 \/ result = VInt 1
        \/ (false = true /\ result = VNone)).
Proof.
  apply (bit_value_is_zero_one_or_none words_env (VStr " Si ") "bit" false);
    reflexivity.
Defined.

Lemma short_text_is_kept_witness :
  normalize_value_by_type words_env (VStr "Hola") "NVARCHAR(4)" false VNone
  = Ok (VStr "Hola").
Proof.
  apply (short_text_is_kept words_env (VStr "Hola") "NVARCHAR(4)" false VNone 4%N);
    [reflexivity | reflexivity | vm_compute; discriminate].
Defined.

Lemma exact_integer_is_kept_witness :
  normalize_value_by_type words_env (VInt (-42)) "BIGINT" true (VStr "0")
  = Ok (VInt (-42)).
Proof.
  apply (exact_integer_is_kept words_env (-42) "BIGINT" true (VStr "0"));
    [reflexivity | vm_compute; discriminate].
Defined.

(** ** Further properties of [validate_column_mappings] *)

Section MappingValidation.

Lemma mem_false_iff (x : string) (xs : list string) :
  mem x xs = false <-> x ∉ xs.
Proof.
  rewrite <- mem_true_iff. destruct (mem x xs); split; congruence.
Qed.

Lemma flat_map_nil_iff {A B : Type} (f : A -> list B) (l : list A) :
  flat_map f l = [] <-> Forall (fun x => f x = []) l.
Proof.
  induction l as [| x r IH]; simpl.
  - split; [constructor | reflexivity].
  - split.
    + intros H. apply app_eq_nil in H as [Hx Hr].
      constructor; [exact Hx | apply IH, Hr].
    + intros H. inversion H as [| ? ? Hx Hr]; subst.
      rewrite Hx. apply IH, Hr.
Qed.

(** The duplicate check passes exactly when the lower-cased SQL names are
    pairwise different and differ from the names seen before. *)
Lemma check_duplicates_nil (m : mapping) :
  forall sql_names,
    check_duplicates sql_names m = [] <->
    (forall x, x ∈ map (fun p => lower (sql_name_of (fst p) (snd p))) m ->
               x ∉ sql_names)
    /\ NoDup (map (fun p => lower (sql_name_of (fst p) (snd p))) m).
Proof.
  induction m as [| [col cfg] rest IH]; intros acc; simpl.
  - split; [| reflexivity]. intros _. split; [| constructor].
    intros x Hx. apply elem_of_nil in Hx. contradiction.
  - set (n := lower (sql_name_of col cfg)).
    set (names := map (fun p => lower (sql_name_of (fst p) (snd p))) rest)
      in *.
    split.
    + intros H. apply app_eq_nil in H as [Hn Hrest].
      apply IH in Hrest as [Hfresh Hnd].
      assert (Hmem : n ∉ acc).
      { apply mem_false_iff. destruct (mem n acc); [discriminate | reflexivity]. }
      split.
      * intros x Hx. apply elem_of_cons in Hx as [-> | Hx]; [exact Hmem |].
        intros Hacc. apply (Hfresh x Hx). apply elem_of_app. auto.
      * constructor; [| exact Hnd]. intros Hin.
        apply (Hfresh n Hin). apply elem_of_app. right.
        apply list_elem_of_singleton. reflexivity.
    + intros [Hfresh Hnd]. inversion Hnd as [| ? ? Hn Hnd']; subst.
      assert (Hmem : mem n acc = false).
      { apply mem_false_iff, Hfresh, list_elem_of_here. }
      rewrite Hmem. simpl. apply IH. split; [| exact Hnd'].
      intros x Hx Hacc. apply elem_of_app in Hacc as [Hacc | Hacc].
      * apply (Hfresh x); [apply list_elem_of_further, Hx | exact Hacc].
      * apply list_elem_of_singleton in Hacc. subst x. contradiction.
Qed.

(** X10.  A mapping is valid exactly when every mapped column is in the
    frame, every SQL type contains a known type word, every SQL name has
    at most 128 characters and the shape of an identifier, and no two SQL
    names are equal up to letter case.  In particular the empty mapping
    is valid, and neither the nullable flag nor the default value is
    looked at. *)
Theorem validate_column_mappings_valid_iff (df : DataFrame) (m : mapping) :
  fst (validate_column_mappings df m) = true <->
  Forall (fun p =>
            mem (fst p) (columns df) = true
            /\ contains_any valid_types
                            (upper (default "" (cfg_sql_type (snd p)))) = true
            /\ (String.length (sql_name_of (fst p) (snd p)) <= 128)%nat
            /\ valid_sql_name (sql_name_of (fst p) (snd p)) = true) m
  /\ NoDup (map (fun p => lower (sql_name_of (fst p) (snd p))) m).
Proof.
  unfold validate_column_mappings. simpl fst.
  set (errors := (check_columns df m ++ _)%list).
  assert (Hnil : (match errors with [] => true | _ => false end) = true
                 <-> errors = []).
  { destruct errors; split; congruence. }
  rewrite Hnil. unfold errors. clear Hnil errors.
  rewrite !app_nil. unfold check_columns, check_types, check_names.
  rewrite !flat_map_nil_iff, check_duplicates_nil, !Forall_forall.
  split.
  - intros (Hc & [_ Hd] & Ht & Hn). split; [| exact Hd].
    intros [col cfg] Hin. specialize (Hc _ Hin). specialize (Ht _ Hin).
    specialize (Hn _ Hin). cbv beta iota in Hc, Ht, Hn.
    simpl fst. simpl snd.
    apply app_eq_nil in Hn as [Hlen Hshape].
    destruct (mem col (columns df)); [| discriminate].
    destruct (contains_any valid_types _); [| discriminate].
    destruct (valid_sql_name _); [| discriminate].
    destruct (Nat.ltb_spec 128 (String.length (sql_name_of col cfg)));
      [discriminate |].
    auto.
  - intros [Hall Hd]. repeat split; try exact Hd.
    + intros [col cfg] Hin. destruct (Hall _ Hin) as (Hc & _).
      simpl fst in Hc. rewrite Hc. reflexivity.
    + intros x _ Hx. apply elem_of_nil in Hx. contradiction.
    + intros [col cfg] Hin. destruct (Hall _ Hin) as (_ & Ht & _).
      simpl snd in Ht. rewrite Ht. reflexivity.
    + intros [col cfg] Hin. destruct (Hall _ Hin) as (_ & _ & Hlen & Hv).
      simpl fst in Hlen, Hv. simpl snd in Hlen, Hv. rewrite Hv.
      destruct (Nat.ltb_spec 128 (String.length (sql_name_of col cfg)));
        [lia | reflexivity].
Qed.

End MappingValidation.

(** ** Further properties of [infer_sql_type] *)

Section InferredTypes.
Context (E : pandas).

(** The types [infer_sql_type] can suggest. *)
Lemma infer_sql_type_cases (series : Series) (sample_size : nat) :
  sql_type (infer_sql_type E series sample_size)
    ∈ ["NVARCHAR(255)"; "BIT"; "TINYINT"; "SMALLINT"; "INT"; "BIGINT";
       "FLOAT"; "DATETIME2"; "DATE"]
  \/ exists size : N,
       sql_type (infer_sql_type E series sample_size)
       = "NVARCHAR(" +:+ pretty size +:+ ")".
Proof.
  unfold infer_sql_type.
  destruct (dropna _); [left; simpl; rewrite !elem_of_cons; auto 10 |].
  destruct (boolean_like _ _); [left; simpl; rewrite !elem_of_cons; auto 10 |].
  destruct (dtype series); simpl;
    repeat match goal with
           | |- context [if ?c then _ else _] => destruct c
           end;
    try (left; rewrite !elem_of_cons; auto 12; fail).
  right. eexists. reflexivity.
Qed.

(** X11.  Whatever the column, the suggested type passes the type check
    of [validate_column_mappings]. *)
Theorem inferred_type_passes_type_check (series : Series) (sample_size : nat) :
  contains_any valid_types
               (upper (sql_type (infer_sql_type E series sample_size))) = true.
Proof.
  destruct (infer_sql_type_cases series sample_size) as [H | [size ->]].
  - rewrite !elem_of_cons, elem_of_nil in H.
    repeat (destruct H as [-> | H]; [reflexivity |]). contradiction.
  - unfold contains_any. apply existsb_exists. exists "VARCHAR".
    split; [simpl; tauto |]. reflexivity.
Qed.

Lemma fold_min_le (r : list Z) :
  forall x, (fold_left Z.min r x <= x)%Z
            /\ (forall z, z ∈ r -> (fold_left Z.min r x <= z)%Z)
            /\ fold_left Z.min r x ∈ x :: r.
Proof.
  induction r as [| y r IH]; intros x; simpl.
  - split; [lia |]. split; [| apply list_elem_of_here].
    intros z Hz. apply elem_of_nil in Hz. contradiction.
  - destruct (IH (Z.min x y)) as (Hle & Hall & Hin).
    split; [lia |]. split.
    + intros z Hz. apply elem_of_cons in Hz as [-> | Hz]; [lia | auto].
    + apply elem_of_cons in Hin as [Heq | Hin].
      * rewrite Heq. destruct (Z.min_spec x y) as [[_ ->] | [_ ->]];
          rewrite !elem_of_cons; auto.
      * rewrite !elem_of_cons. auto.
Qed.

Lemma fold_max_ge (r : list Z) :
  forall x, (x <= fold_left Z.max r x)%Z
            /\ (forall z, z ∈ r -> (z <= fold_left Z.max r x)%Z)
            /\ fold_left Z.max r x ∈ x :: r.
Proof.
  induction r as [| y r IH]; intros x; simpl.
  - split; [lia |]. split; [| apply list_elem_of_here].
    intros z Hz. apply elem_of_nil in Hz. contradiction.
  - destruct (IH (Z.max x y)) as (Hle & Hall & Hin).
    split; [lia |]. split.
    + intros z Hz. apply elem_of_cons in Hz as [-> | Hz]; [lia | auto].
    + apply elem_of_cons in Hin as [Heq | Hin].
      * rewrite Heq. destruct (Z.max_spec x y) as [[_ ->] | [_ ->]];
          rewrite !elem_of_cons; auto.
      * rewrite !elem_of_cons. auto.
Qed.

Lemma min_max_bounds (l : list Z) (z : Z) :
  z ∈ l -> (min_of l <= z <= max_of l)%Z.
Proof.
  destruct l as [| x r]; intros Hz; [apply elem_of_nil in Hz; contradiction |].
  simpl. destruct (fold_min_le r x) as (Hx & Hr & _).
  destruct (fold_max_ge r x) as (Hx' & Hr' & _).
  apply elem_of_cons in Hz as [-> | Hz]; [lia |].
  specialize (Hr z Hz). specialize (Hr' z Hz). lia.
Qed.

Lemma min_max_attained (l : list Z) :
  l <> [] -> min_of l ∈ l /\ max_of l ∈ l.
Proof.
  destruct l as [| x r]; [congruence |]. intros _. simpl.
  destruct (fold_min_le r x) as (_ & _ & H1).
  destruct (fold_max_ge r x) as (_ & _ & H2). auto.
Qed.

Lemma int_values_spec (l : list pyval) (z : Z) :
  z ∈ int_values l <-> VInt z ∈ l.
Proof.
  unfold int_values. induction l as [| v r IH]; simpl.
  - rewrite !elem_of_nil. reflexivity.
  - rewrite elem_of_app, IH, elem_of_cons.
    destruct v; simpl; rewrite ?elem_of_nil, ?list_elem_of_singleton;
      split; intros [H | H]; auto; try discriminate; try contradiction;
      try (injection H as ->; auto); subst; auto.
Qed.

Lemma dropna_spec (l : list pyval) (v : pyval) :
  v ∈ dropna l <-> v ∈ l /\ isna v = false.
Proof.
  unfold dropna. rewrite !list_elem_of_In, filter_In, negb_true_iff.
  reflexivity.
Qed.

(** X12.  For a column of an integer dtype, every integer of the
    analysed sample lies in the range of the suggested type: 0 to 255
    for TINYINT, the 16-bit range for SMALLINT, the 32-bit range for
    INT. *)
Theorem integer_type_holds_every_value
    (series : Series) (sample_size : nat) (z : Z) :
  dtype series = DInt ->
  VInt z ∈ sampled E series sample_size ->
  let t := sql_type (infer_sql_type E series sample_size) in
  (t = "TINYINT" -> (0 <= z <= 255)%Z)
  /\ (t = "SMALLINT" -> (-32768 <= z <= 32767)%Z)
  /\ (t = "INT" -> (-2147483648 <= z <= 2147483647)%Z).
Proof.
  intros Hd Hz. cbv zeta. unfold infer_sql_type. rewrite Hd.
  assert (Hin : z ∈ int_values (dropna (sampled E series sample_size))).
  { apply int_values_spec, dropna_spec. auto. }
  apply min_max_bounds in Hin.
  destruct (dropna (sampled E series sample_size)) as [| v r] eqn:Hnn;
    [simpl; repeat split; discriminate |].
  destruct (boolean_like E (v :: r)); [simpl; repeat split; discriminate |].
  set (lo := min_of _) in *. set (hi := max_of _) in *.
  destruct (Z.leb_spec 0 lo), (Z.leb_spec hi 255),
    (Z.leb_spec (-32768) lo), (Z.leb_spec hi 32767),
    (Z.leb_spec (-2147483648) lo), (Z.leb_spec hi 2147483647);
    simpl; (split; [| split]); intros Ht; try discriminate; lia.
Qed.

(** X13.  A wider integer type is suggested only when a value of the
    sample needs it: SMALLINT when some integer is outside 0 to 255, INT
    when some integer is outside the 16-bit range, BIGINT when some
    integer is outside the 32-bit range. *)
Theorem integer_type_is_the_smallest
    (series : Series) (sample_size : nat) :
  dtype series = DInt ->
  let t := sql_type (infer_sql_type E series sample_size) in
  (t = "SMALLINT" ->
   exists z, VInt z ∈ sampled E series sample_size
             /\ ~ (0 <= z <= 255)%Z)
  /\ (t = "INT" ->
      exists z, VInt z ∈ sampled E series sample_size
                /\ ~ (-32768 <= z <= 32767)%Z)
  /\ (t = "BIGINT" ->
      exists z, VInt z ∈ sampled E series sample_size
                /\ ~ (-2147483648 <= z <= 2147483647)%Z).
Proof.
  intros Hd. cbv zeta. unfold infer_sql_type. rewrite Hd.
  destruct (dropna (sampled E series sample_size)) as [| v r] eqn:Hnn;
    [simpl; repeat split; discriminate |].
  destruct (boolean_like E (v :: r)); [simpl; repeat split; discriminate |].
  assert (Hfrom : forall z, z ∈ int_values (v :: r) ->
                            VInt z ∈ sampled E series sample_size).
  { intros z Hz. apply int_values_spec in Hz. rewrite <- Hnn in Hz.
    apply dropna_spec in Hz. tauto. }
  destruct (int_values (v :: r)) as [| x xs] eqn:Hints.
  { simpl. repeat split; discriminate. }
  destruct (min_max_attained (x :: xs)) as [Hlo Hhi]; [discriminate |].
  set (lo := min_of _) in *. set (hi := max_of _) in *.
  pose proof (Hfrom lo Hlo) as Hlo'. pose proof (Hfrom hi Hhi) as Hhi'.
  destruct (Z.leb_spec 0 lo), (Z.leb_spec hi 255),
    (Z.leb_spec (-32768) lo), (Z.leb_spec hi 32767),
    (Z.leb_spec (-2147483648) lo), (Z.leb_spec hi 2147483647);
    simpl; (split; [| split]); intros Ht; try discriminate;
    first [ exists lo; split; [exact Hlo' | lia]
          | exists hi; split; [exact Hhi' | lia] ].
Qed.

Lemma fold_max_N_ge (l : list N) :
  forall a, (a <= fold_left N.max l a)%N
            /\ forall x, x ∈ l -> (x <= fold_left N.max l a)%N.
Proof.
  induction l as [| y r IH]; intros a; simpl.
  - split; [lia |]. intros x Hx. apply elem_of_nil in Hx. contradiction.
  - destruct (IH (N.max a y)) as [Ha Hr]. split; [lia |].
    intros x Hx. apply elem_of_cons in Hx as [-> | Hx]; [lia | auto].
Qed.

Lemma max_length_bounds (non_null : list pyval) (v : pyval) :
  v ∈ non_null ->
  (N.of_nat (String.length (py_str E v)) <= max_length E non_null)%N.
Proof.
  intros Hv. unfold max_length.
  apply (fold_max_N_ge _ 0%N).
  apply (list_elem_of_fmap_2
           (fun v => N.of_nat (String.length (py_str E v)))).
  exact Hv.
Qed.

Lemma varchar_size_holds (L : N) : (L <= varchar_size L)%N.
Proof.
  destruct (N.le_gt_cases L 500) as [H | H].
  - destruct (varchar_size_small L H) as (_ & Hmax & _). lia.
  - rewrite (varchar_size_large L H).
    assert (L <= L * 5 / 4)%N; [| lia].
    apply N.div_le_lower_bound; lia.
Qed.

(** X14.  When a column is typed as pure text, the suggested NVARCHAR
    size holds every value of the analysed sample: normalizing such a
    value (not blank) under the suggested type returns its text in full,
    never truncated. *)
Theorem inferred_text_type_keeps_sampled_values
    (series : Series) (sample_size : nat) (v : pyval)
    (nullable : bool) (default_value : pyval) :
  let non_null := dropna (sampled E series sample_size) in
  dtype series = DObject ->
  boolean_like E non_null = false ->
  above_nine_tenths (numeric_ok E non_null) (length non_null) = false ->
  above_nine_tenths (to_datetime_coerce_count E non_null) (length non_null)
  = false ->
  v ∈ non_null ->
  is_empty v = false ->
  normalize_value_by_type E v (sql_type (infer_sql_type E series sample_size))
                          nullable default_value
  = Ok (VStr (py_str E v)).
Proof.
  intros non_null Hd Hb Hnum Hdate Hv Hne.
  assert (Ht : sql_type (infer_sql_type E series sample_size)
               = "NVARCHAR(" +:+ pretty (varchar_size (max_length E non_null))
                 +:+ ")").
  { unfold infer_sql_type. fold non_null. rewrite Hb, Hd, Hnum, Hdate.
    destruct non_null; [apply elem_of_nil in Hv; contradiction | reflexivity]. }
  rewrite Ht.
  destruct (declared_max_length_of_char_types
              (varchar_size (max_length E non_null))) as (_ & Hdecl & _).
  rewrite (text_branch_result E _ _ _ _ _ Hdecl Hne).
  pose proof (max_length_bounds non_null v Hv) as Hlen.
  pose proof (varchar_size_holds (max_length E non_null)) as Hsize.
  destruct (N.ltb_spec (varchar_size (max_length E non_null))
                       (N.of_nat (String.length (py_str E v))));
    [lia | reflexivity].
Qed.

(** X15.  The profile is marked as mixed exactly when a share warning is
    issued: more than nine tenths but not all of the values converted,
    and the confidence is that share, above 0.9 and below 1.  Without
    the mark there is no warning, or the one for an empty column or for
    an unknown dtype. *)
Theorem mixed_types_means_share_warning (series : Series) (sample_size : nat) :
  let p := infer_sql_type E series sample_size in
  (mixed_types p = true ->
   exists k n,
     (warnings p = [NonNumericShare k n] \/ warnings p = [NonDateShare k n])
     /\ (k < n)%nat
     /\ confidence p = rate k n
     /\ (9 # 10 < confidence p)%Q /\ (confidence p < 1)%Q)
  /\ (mixed_types p = false ->
      warnings p = [] \/ warnings p = [EmptyColumn]
      \/ warnings p = [UnknownDtype]).
Proof.
  cbv zeta.
  assert (Hrate : forall k n, above_nine_tenths k n = true -> (k < n)%nat ->
                              (9 # 10 < rate k n)%Q /\ (rate k n < 1)%Q).
  { intros k n Ha Hk. unfold above_nine_tenths in Ha. apply Nat.ltb_lt in Ha.
    unfold rate, Qlt. simpl.
    assert (Hn : Zpos (Pos.of_nat n) = Z.of_nat n) by lia.
    rewrite Hn. lia. }
  unfold infer_sql_type.
  destruct (dropna _) as [| v r]; [simpl; split; [discriminate | auto] |].
  destruct (boolean_like _ _); [simpl; split; [discriminate | auto] |].
  destruct (dtype series); simpl; try (split; [discriminate | auto]).
  set (n := S (length r)).
  destruct (above_nine_tenths (numeric_ok E (v :: r)) n) eqn:Hnum.
  - simpl. destruct (Nat.ltb_spec (numeric_ok E (v :: r)) n) as [Hk | Hk].
    + split; [| discriminate]. intros _.
      exists (numeric_ok E (v :: r)), n. destruct (Hrate _ _ Hnum Hk). auto 6.
    + split; [discriminate | auto].
  - destruct (above_nine_tenths (to_datetime_coerce_count E (v :: r)) n)
      eqn:Hdate; simpl; [| split; [discriminate | auto]].
    destruct (Nat.ltb_spec (to_datetime_coerce_count E (v :: r)) n)
      as [Hk | Hk].
    + split; [| discriminate]. intros _.
      exists (to_datetime_coerce_count E (v :: r)), n.
      destruct (Hrate _ _ Hdate Hk). auto 6.
    + split; [discriminate | auto].
Qed.

End InferredTypes.

Lemma integer_type_holds_witness :
  ("SMALLINT" = "TINYINT" -> (0 <= 1000 <= 255)%Z)
  /\ ("SMALLINT" = "SMALLINT" -> (-32768 <= 1000 <= 32767)%Z)
  /\ ("SMALLINT" = "INT" -> (-2147483648 <= 1000 <= 2147483647)%Z).
Proof.
  apply (integer_type_holds_every_value words_env MoreSamples.small_ints
           1000 1000%Z); [reflexivity |].
  apply list_elem_of_In. simpl. auto.
Defined.

Lemma integer_type_is_the_smallest_witness :
  ("SMALLINT" = "SMALLINT" ->
   exists z, VInt z ∈ [VInt 3; VInt 200; VInt 1000] /\ ~ (0 <= z <= 255)%Z)
  /\ ("SMALLINT" = "INT" ->
      exists z, VInt z ∈ [VInt 3; VInt 200; VInt 1000]
                /\ ~ (-32768 <= z <= 32767)%Z)
  /\ ("SMALLINT" = "BIGINT" ->
      exists z, VInt z ∈ [VInt 3; VInt 200; VInt 1000]
                /\ ~ (-2147483648 <= z <= 2147483647)%Z).
Proof.
  apply (integer_type_is_the_smallest words_env MoreSamples.small_ints 1000).
  reflexivity.
Defined.

Lemma inferred_text_type_keeps_witness :
  normalize_value_by_type words_env (VStr "yes") "NVARCHAR(50)" false VNone
  = Ok (VStr "yes").
Proof.
  apply (inferred_text_type_keeps_sampled_values words_env bool_words 1000
           (VStr "yes") false VNone); try reflexivity.
  apply list_elem_of_In. simpl. auto 10.
Defined.

(** ** Further properties of [normalize_dataframe_by_mappings] *)

Section ColumnNormalization.
Context (E : pandas).

(** X16.  A mapping whose keys are all missing from the frame changes
    nothing: the frame comes back as it was, with one warning per key,
    in the order of the mapping. *)
Theorem missing_columns_only_warn (df : DataFrame) (column_mappings : mapping) :
  Forall (fun k => mem k (columns df) = false) (keys column_mappings) ->
  normalize_dataframe_by_mappings E df column_mappings
  = (df, map ColumnMissing (keys column_mappings)).
Proof.
  unfold normalize_dataframe_by_mappings, keys.
  induction column_mappings as [| [col cfg] rest IH]; intros H;
    [reflexivity |].
  simpl in H. inversion H as [| ? ? Hcol Hrest]; subst.
  simpl. unfold normalize_column. rewrite Hcol. simpl.
  rewrite (IH Hrest). reflexivity.
Qed.

Lemma map_res_ok_lookup {A B : Type} (f : A -> res B) (l : list A) :
  forall ys, map_res f l = Ok ys ->
             forall i x, l !! i = Some x ->
                         exists y, ys !! i = Some y /\ f x = Ok y.
Proof.
  induction l as [| a r IH]; intros ys H i x Hi; [discriminate |].
  simpl in H. destruct (f a) as [b |] eqn:Hfa; [| discriminate].
  destruct (map_res f r) as [zs |] eqn:Hr; [| discriminate].
  injection H as <-. destruct i as [| i]; simpl in Hi |- *.
  - injection Hi as <-. eauto.
  - apply (IH zs eq_refl i x Hi).
Qed.

Lemma map_res_raise {A B : Type} (f : A -> res B) (l : list A) (e : exn) :
  map_res f l = Raise e -> exists x, x ∈ l /\ f x = Raise e.
Proof.
  induction l as [| a r IH]; intros H; [discriminate |].
  simpl in H. destruct (f a) as [b | e'] eqn:Hfa.
  - destruct (map_res f r) as [zs | e''] eqn:Hr; [discriminate |].
    injection H as ->. destruct (IH eq_refl) as (x & Hx & Hfx).
    exists x. split; [apply list_elem_of_further, Hx | exact Hfx].
  - injection H as ->. exists a. split; [apply list_elem_of_here | exact Hfa].
Qed.

Lemma positions_from_mem (name : string) (cols : list string) :
  forall i, positions_from i name cols <> [] -> mem name cols = true.
Proof.
  induction cols as [| c r IH]; intros i H; simpl in H |- *; [congruence |].
  rewrite String.eqb_sym. destruct (String.eqb c name); [reflexivity |].
  apply (IH (S i) H).
Qed.

(** X17.  A mapped column whose label occurs once in the frame is
    normalized as a whole or not at all.  Either there is no warning, the
    normalizer returned a value for every cell, and every cell of the
    column holds what [Series.apply] stores for the normalized value of
    the cell it replaces (the value itself or its conversion to the dtype
    inferred from all the results); or the normalizer raised on some
    cell, the frame is left exactly as it was and the warning carries
    that exception. *)
Theorem column_is_normalized_or_left
    (df : DataFrame) (original_col : string) (cfg : config) (j : nat) :
  positions original_col (columns df) = [j] ->
  let f := fun x =>
    normalize_value_by_type E x (default "NVARCHAR(255)" (cfg_sql_type cfg))
                            (default true (cfg_nullable cfg))
                            (cfg_default_value cfg) in
  let result := normalize_column E df original_col cfg in
  (snd result = []
   /\ exists vals,
        length vals = length (rows df)
        /\ forall i row, rows df !! i = Some row ->
             exists v row',
               vals !! i = Some v
               /\ f (cell row j) = Ok v
               /\ rows (fst result) !! i = Some row'
               /\ (j < length row -> cell row' j = apply_result E vals v))
  \/ (exists e, snd result = [NormalizeError original_col e]
                /\ fst result = df
                /\ exists row, row ∈ rows df /\ f (cell row j) = Raise e).
Proof.
  intros Hpos. cbv zeta. unfold normalize_column.
  assert (Hmem : mem original_col (columns df) = true).
  { apply (positions_from_mem _ _ 0%nat). fold (positions original_col (columns df)).
    rewrite Hpos. discriminate. }
  rewrite Hmem, Hpos. simpl negb. cbv iota.
  destruct (map_res _ (column_values j (rows df))) as [vals | e] eqn:Hmap.
  - left. simpl. split; [reflexivity |]. exists vals. split.
    + apply map_res_length in Hmap. unfold column_values in Hmap.
      rewrite length_map in Hmap. exact Hmap.
    + intros i row Hi.
      assert (Hcell : column_values j (rows df) !! i = Some (cell row j)).
      { unfold column_values. rewrite list_lookup_fmap, Hi. reflexivity. }
      destruct (map_res_ok_lookup _ _ _ Hmap i _ Hcell) as (y & Hy & Hfy).
      exists y, (<[j := apply_result E vals y]> row).
      split; [exact Hy |]. split; [exact Hfy |]. split.
      * unfold set_column. rewrite lookup_zip_with, Hi. simpl.
        rewrite list_lookup_fmap, Hy. reflexivity.
      * intros Hj. unfold cell.
        rewrite list_lookup_insert_eq by exact Hj. reflexivity.
  - right. exists e. simpl. split; [reflexivity |]. split; [reflexivity |].
    destruct (map_res_raise _ _ _ Hmap) as (x & Hx & Hfx).
    unfold column_values in Hx. apply list_elem_of_fmap in Hx as (row & -> & Hrow).
    eauto.
Qed.

End ColumnNormalization.

Lemma missing_columns_only_warn_witness :
  normalize_dataframe_by_mappings words_env two_columns
                                  MoreSamples.unknown_column
  = (two_columns, [ColumnMissing "col9"]).
Proof.
  apply (missing_columns_only_warn words_env two_columns
           MoreSamples.unknown_column).
  repeat constructor.
Defined.

Lemma column_is_normalized_or_left_witness :
  let f := fun x => normalize_value_by_type words_env x "INT" false (VStr "0") in
  let result := normalize_column words_env two_columns "col1"
                  {| cfg_renamed_to := Some "col1"; cfg_sql_type := Some "INT";
                     cfg_nullable := Some false;
                     cfg_default_value := VStr "0" |} in
  (snd result = []
   /\ exists vals,
        length vals = length (rows two_columns)
        /\ forall i row, rows two_columns !! i = Some row ->
             exists v row',
               vals !! i = Some v
               /\ f (cell row 0) = Ok v
               /\ rows (fst result) !! i = Some row'
               /\ (0 < length row ->
                   cell row' 0 = apply_result words_env vals v))
  \/ (exists e, snd result = [NormalizeError "col1" e]
                /\ fst result = two_columns
                /\ exists row, row ∈ rows two_columns
                               /\ f (cell row 0) = Raise e).
Proof.
  apply (column_is_normalized_or_left words_env two_columns "col1"
           {| cfg_renamed_to := Some "col1"; cfg_sql_type := Some "INT";
              cfg_nullable := Some false; cfg_default_value := VStr "0" |}
           0%nat).
  reflexivity.
Defined.

(** ** Further properties of [_save_dataframe_to_destination] *)

Section SaveOutcomes.
Import Destination.
Context (E : pandas) (H : helpers) (D : destination).





(** X20.  An empty frame still replaces the table: against a destination
    that accepts the commands the table is dropped, created and
    committed, nothing is validated, normalized or inserted, the final
    commit is issued and the result is success with zero records. *)
Theorem empty_frame_recreates_the_table
    (self_column_mappings : list (string * mapping)) (df_datos : DataFrame)
    (nombre_tabla_destino : string) (source_table_name : option string)
    (create_table_sql : string) :
  df_empty df_datos = true ->
  connect_ok D = true ->
  generate_create_table_sql H df_datos nombre_tabla_destino
    (lookup_mappings self_column_mappings source_table_name)
  = Some create_table_sql ->
  accepts D (Execute (drop_sql nombre_tabla_destino)) = true ->
  accepts D (Execute create_table_sql) = true ->
  accepts D Commit = true ->
  _save_dataframe_to_destination E H D self_column_mappings df_datos
                                 nombre_tabla_destino source_table_name
  = {| success := true; records_inserted := 0;
       trace := [Db (Execute (drop_sql nombre_tabla_destino));
                 Db (Execute create_table_sql); Db Commit; Db Commit] |}.
Proof.
  intros Hempty Hconn Hgen Hdrop Hcreate Hcommit.
  unfold _save_dataframe_to_destination, save_body, insert_frame.
  unfold mbind, run_db, lift, emit, ret, raise.
  rewrite Hconn, Hgen, Hdrop, Hcreate, Hcommit, Hempty. reflexivity.
Qed.

(** X21.  When the connection fails, the CREATE TABLE text cannot be
    built or the drop is rejected, the result is a failure, no command
    on the connection was carried out, and the only command the
    destination can have carried out is the save of the summary row in
    state [ERROR] with zero records. *)
Theorem failed_setup_leaves_only_the_error_row
    (self_column_mappings : list (string * mapping)) (df_datos : DataFrame)
    (nombre_tabla_destino : string) (source_table_name : option string) :
  connect_ok D = false
  \/ generate_create_table_sql H df_datos nombre_tabla_destino
       (lookup_mappings self_column_mappings source_table_name) = None
  \/ accepts D (Execute (drop_sql nombre_tabla_destino)) = false ->
  let result :=
    _save_dataframe_to_destination E H D self_column_mappings df_datos
                                   nombre_tabla_destino source_table_name in
  let resumen_error := SaveResumen "ERROR" nombre_tabla_destino 0 in
  success result = false
  /\ executed (trace result) = []
  /\ executed (destination_trace E H D self_column_mappings df_datos
                 nombre_tabla_destino source_table_name)
     = if accepts D resumen_error then [resumen_error] else [].
Proof.
  intros Hfail. cbv zeta. unfold destination_trace, resumen.
  assert (Hsetup :
            success (_save_dataframe_to_destination E H D self_column_mappings
                       df_datos nombre_tabla_destino source_table_name)
            = false
            /\ executed (trace (_save_dataframe_to_destination E H D
                                  self_column_mappings df_datos
                                  nombre_tabla_destino source_table_name))
               = []).
  { unfold _save_dataframe_to_destination, save_body.
    unfold mbind at 1 2 3. unfold run_db, lift, emit, ret, raise.
    destruct (connect_ok D); [| auto].
    destruct (generate_create_table_sql H df_datos nombre_tabla_destino _)
      as [sql |]; [| auto].
    destruct (accepts D (Execute (drop_sql nombre_tabla_destino)));
      [| unfold mbind; simpl; auto].
    destruct Hfail as [? | [? | ?]]; discriminate. }
  destruct Hsetup as [Hsuccess Hexecuted].
  split; [exact Hsuccess |]. split; [exact Hexecuted |].
  rewrite Hsuccess. unfold executed in *. rewrite flat_map_app, Hexecuted.
  destruct (accepts D (SaveResumen "ERROR" nombre_tabla_destino 0));
    reflexivity.
Qed.

End SaveOutcomes.


Lemma empty_frame_recreates_witness :
  Destination._save_dataframe_to_destination words_env plain_helpers accepting
    [] MoreSamples.no_rows "t" None
  = {| Destination.success := true; Destination.records_inserted := 0;
       Destination.trace :=
         [Destination.Db (Destination.Execute (Destination.drop_sql "t"));
          Destination.Db (Destination.Execute "CREATE TABLE [t] ([col1] INT)");
          Destination.Db Destination.Commit;
          Destination.Db Destination.Commit] |}.
Proof.
  apply (empty_frame_recreates_the_table words_env plain_helpers accepting
           [] MoreSamples.no_rows "t" None "CREATE TABLE [t] ([col1] INT)");
    reflexivity.
Defined.


Lemma failed_setup_witness :
  Destination.success
    (Destination._save_dataframe_to_destination words_env plain_helpers
       MoreSamples.unreachable [] one_cell "t" None) = false
  /\ Destination.executed
       (Destination.trace
          (Destination._save_dataframe_to_destination words_env plain_helpers
             MoreSamples.unreachable [] one_cell "t" None)) = []
  /\ Destination.executed
       (Destination.destination_trace words_env plain_helpers
          MoreSamples.unreachable [] one_cell "t" None)
     = [Destination.SaveResumen "ERROR" "t" 0].
Proof.
  apply (failed_setup_leaves_only_the_error_row words_env plain_helpers
           MoreSamples.unreachable [] one_cell "t" None).
  left. reflexivity.
Defined.

(** ** Further properties of the sheet loop *)

Section SheetTotals.
Import Sheets.
Context (L : log_writes) (run : nat -> string -> sheet_run).

(** X22.  Whenever the function returns the consolidated result, every
    sheet listed as successful carries the record count that its run
    returned, and [total_registros] is the sum of these counts: the
    records of a sheet whose save failed, that raised, or whose success
    the tracker could not record are not counted. *)
Theorem total_counts_successful_sheets_only
    (selected_sheets : list string) (flag : bool) (info : consolidated) :
  _process_excel_sheets_individually L run selected_sheets
  = Some (flag, Consolidado info) ->
  map ok_registros (detalles_hojas_exitosas info)
  = succeeded_records L run 0 selected_sheets
  /\ total_registros info
     = list_sum (succeeded_records L run 0 selected_sheets).
Proof.
  unfold _process_excel_sheets_individually, error_general.
  destruct (configurar_logging L); simpl negb; cbv iota; [| discriminate].
  destruct (get_excel_file L);
    [destruct (except_general L); discriminate |].
  destruct selected_sheets as [| sheet rest];
    [destruct (except_general L); discriminate |].
  destruct (antes_del_bucle L);
    [destruct (except_general L); discriminate |].
  destruct (process_sheets L run 0 (sheet :: rest) initial_state)
    as [st | msg] eqn:Hst;
    [| destruct (except_general L); discriminate].
  cbv zeta.
  destruct (despues_del_bucle L _);
    [destruct (except_general L); discriminate |].
  intros Hres. injection Hres as _ <-.
  cbn [detalles_hojas_exitosas total_registros].
  destruct (process_sheets_continue L run (sheet :: rest) 0 initial_state st
              Hst) as (_ & _ & Hreg & Htot).
  split; [exact Hreg | exact Htot].
Qed.

End SheetTotals.

Lemma total_counts_successful_sheets_witness :
  map Sheets.ok_registros
      [{| Sheets.ok_sheet_name := "Ventas";
          Sheets.ok_table_name := "Proceso_hojaVentas";
          Sheets.ok_registros := 10; Sheets.ok_resultado_id := "N/A" |};
       {| Sheets.ok_sheet_name := "Stock";
          Sheets.ok_table_name := "Proceso_hojaStock";
          Sheets.ok_registros := 10; Sheets.ok_resultado_id := "N/A" |}]
  = Sheets.succeeded_records quiet_logs second_sheet_fails 0
      ["Ventas"; "Compras"; "Stock"]
  /\ 20%nat
     = list_sum (Sheets.succeeded_records quiet_logs second_sheet_fails 0
                   ["Ventas"; "Compras"; "Stock"]).
Proof.
  apply (total_counts_successful_sheets_only quiet_logs second_sheet_fails
           ["Ventas"; "Compras"; "Stock"] true
           {| Sheets.success := true; Sheets.n_hojas_procesadas := 2;
              Sheets.n_hojas_con_error := 1; Sheets.total_hojas := 3;
              Sheets.total_registros := 20;
              Sheets.detalles_hojas_exitosas :=
                [{| Sheets.ok_sheet_name := "Ventas";
                    Sheets.ok_table_name := "Proceso_hojaVentas";
                    Sheets.ok_registros := 10;
                    Sheets.ok_resultado_id := "N/A" |};
                 {| Sheets.ok_sheet_name := "Stock";
                    Sheets.ok_table_name := "Proceso_hojaStock";
                    Sheets.ok_registros := 10;
                    Sheets.ok_resultado_id := "N/A" |}];
              Sheets.detalles_hojas_error :=
                [{| Sheets.err_sheet_name := "Compras";
                    Sheets.err_error := "Error guardando DataFrame" |}] |}).
  reflexivity.
Defined.

(** ** Table names *)

Section TableNameFacts.
Import TableNames.

Lemma map_chars_append (f : ascii -> ascii) (a b : string) :
  map_chars f (a +:+ b) = map_chars f a +:+ map_chars f b.
Proof. induction a as [| c r IH]; simpl; [| rewrite IH]; reflexivity. Qed.

Lemma replace_char_append (x y : ascii) (a b : string) :
  replace_char x y (a +:+ b) = replace_char x y a +:+ replace_char x y b.
Proof. induction a as [| c r IH]; simpl; [| rewrite IH]; reflexivity. Qed.

Lemma digit_is_plain (c : ascii) :
  is_ascii_digit c = true ->
  is_word c = true /\ is_underscore c = false
  /\ Ascii.eqb c " " = false /\ Ascii.eqb c "-" = false.
Proof.
  destruct c as [[] [] [] [] [] [] [] []]; vm_compute; intros;
    try discriminate; auto.
Qed.

(** Digits pass the three cleaning steps unchanged. *)
Lemma clean_digits (d : string) :
  PyStr.forallb is_ascii_digit d = true ->
  sub_non_word (replace_char "-" "_" (replace_char " " "_" d)) = d
  /\ PyStr.forallb (fun c => negb (is_underscore c)) d = true.
Proof.
  unfold sub_non_word.
  induction d as [| c r IH]; [simpl; auto |].
  intros H. simpl in H. apply andb_true_iff in H as [Hc Hr].
  destruct (IH Hr) as [IH1 IH2].
  destruct (digit_is_plain c Hc) as (Hw & Hu & Hs & Hh).
  cbn [replace_char map_chars PyStr.forallb].
  rewrite Hs, Hh, Hw, Hu, IH1, IH2. auto.
Qed.

Lemma sub_runs_split (p : ascii -> bool) (a rest : string) (c : ascii) :
  p c = true ->
  forall in_run,
    sub_runs p in_run (a +:+ String c rest)
    = sub_runs p in_run (a +:+ String c "") +:+ sub_runs p true rest.
Proof.
  intros Hc. induction a as [| x r IH]; intros in_run; simpl.
  - rewrite Hc. destruct in_run; reflexivity.
  - destruct (p x); [destruct in_run |]; simpl; rewrite IH; reflexivity.
Qed.

Lemma sub_runs_none (p : ascii -> bool) (s : string) :
  PyStr.forallb (fun c => negb (p c)) s = true ->
  forall in_run, sub_runs p in_run s = s.
Proof.
  induction s as [| c r IH]; intros H in_run; [reflexivity |].
  simpl in H |- *. apply andb_true_iff in H as [Hc Hr].
  apply negb_true_iff in Hc. rewrite Hc, (IH Hr). reflexivity.
Qed.

Lemma lstrip_char_append (ch c : ascii) (a rest : string) :
  Ascii.eqb c ch = false ->
  lstrip_char ch (a +:+ String c rest) = lstrip_char ch a +:+ String c rest.
Proof.
  intros Hc. induction a as [| x r IH]; simpl; [rewrite Hc; reflexivity |].
  destruct (Ascii.eqb x ch); [exact IH | reflexivity].
Qed.

Lemma rstrip_char_none (ch : ascii) (s : string) :
  PyStr.forallb (fun c => negb (Ascii.eqb c ch)) s = true ->
  rstrip_char ch s = s.
Proof.
  induction s as [| c r IH]; simpl; [reflexivity |].
  intros H. apply andb_true_iff in H as [Hc Hr].
  apply negb_true_iff in Hc. rewrite (IH Hr), Hc. destruct r; reflexivity.
Qed.

Lemma rstrip_char_append (ch : ascii) (a b : string) :
  rstrip_char ch b <> "" ->
  rstrip_char ch (a +:+ b) = a +:+ rstrip_char ch b.
Proof.
  intros Hb. induction a as [| x r IH]; simpl; [reflexivity |].
  rewrite IH. destruct (r +:+ rstrip_char ch b) eqn:E; [| reflexivity].
  destruct r; simpl in E; [contradiction | discriminate].
Qed.

(** The table name of a sheet: a prefix that depends on the process name
    only, then [hoja] and the index. *)
Lemma sheet_table_name_split (name : string) (hoja_index : nat) :
  sheet_table_name name hoja_index
  = lstrip_char "_"
      (sub_runs is_underscore false
         (sub_non_word
            (replace_char "-" "_" (replace_char " " "_" name)) +:+ "_"))
    +:+ "hoja" +:+ pretty hoja_index.
Proof.
  unfold sheet_table_name.
  destruct (pretty_digits (N.of_nat hoja_index)) as (Hdig & Hne & _).
  change (pretty (N.of_nat hoja_index)) with (pretty hoja_index) in Hdig, Hne.
  destruct (clean_digits _ Hdig) as [Hclean Hnou].
  rewrite !replace_char_append. unfold sub_non_word at 1.
  rewrite !map_chars_append. fold (sub_non_word (replace_char "-" "_"
    (replace_char " " "_" name))).
  fold (sub_non_word (replace_char "-" "_"
    (replace_char " " "_" (pretty hoja_index)))).
  rewrite Hclean.
  set (a := sub_non_word _).
  change (map_chars _ (replace_char "-" "_" (replace_char " " "_" "_hoja")))
    with "_hoja".
  change ("_hoja" +:+ pretty hoja_index)
    with (String "_" ("hoja" +:+ pretty hoja_index)).
  rewrite (sub_runs_split is_underscore a _ "_" eq_refl).
  assert (Hplain : PyStr.forallb (fun c => negb (is_underscore c))
                     ("hoja" +:+ pretty hoja_index) = true).
  { rewrite forallb_append, Hnou. reflexivity. }
  rewrite (sub_runs_none _ _ Hplain).
  unfold strip_char.
  change ("hoja" +:+ pretty hoja_index)
    with (String "h" ("oja" +:+ pretty hoja_index)).
  rewrite (lstrip_char_append "_" "h" _ _ eq_refl).
  change (String "h" ("oja" +:+ pretty hoja_index))
    with ("hoja" +:+ pretty hoja_index).
  rewrite rstrip_char_append; rewrite (rstrip_char_none "_" _ Hplain);
    [reflexivity | discriminate].
Qed.

(** X23.  Within one process, the sheets get pairwise different table
    names: the name is a prefix computed from the process name alone,
    followed by [hoja] and the loop index. *)
Theorem sheet_table_names_differ_by_index (name : string) (i j : nat) :
  i <> j -> sheet_table_name name i <> sheet_table_name name j.
Proof.
  intros Hij. rewrite !sheet_table_name_split. intros Heq.
  apply (inj (String.app _)) in Heq.
  apply (inj (String.app "hoja")) in Heq.
  apply (inj pretty) in Heq. contradiction.
Qed.

Lemma sheet_table_names_differ_witness :
  sheet_table_name "Mi Proceso-2024 (v1)" 1
  <> sheet_table_name "Mi Proceso-2024 (v1)" 2.
Proof.
  apply (sheet_table_names_differ_by_index "Mi Proceso-2024 (v1)" 1 2).
  lia.
Defined.

Lemma forallb_map_chars (p : ascii -> bool) (f : ascii -> ascii) (s : string) :
  (forall c, p (f c) = true) -> PyStr.forallb p (map_chars f s) = true.
Proof.
  intros Hf. induction s as [| c r IH]; simpl; [reflexivity |].
  rewrite Hf, IH. reflexivity.
Qed.

Lemma forallb_sub_runs (p q : ascii -> bool) (s : string) :
  p "_"%char = true ->
  PyStr.forallb (fun c => p c || q c) s = true ->
  forall in_run, PyStr.forallb p (sub_runs q in_run s) = true.
Proof.
  intros Hu. induction s as [| c r IH]; intros H in_run; [reflexivity |].
  simpl in H |- *. apply andb_true_iff in H as [Hc Hr].
  destruct (q c) eqn:Hq.
  - destruct in_run; simpl; rewrite ?Hu; apply (IH Hr).
  - rewrite orb_false_r in Hc. simpl. rewrite Hc. apply (IH Hr).
Qed.

Lemma forallb_lstrip_char (p : ascii -> bool) (ch : ascii) (s : string) :
  PyStr.forallb p s = true -> PyStr.forallb p (lstrip_char ch s) = true.
Proof.
  induction s as [| c r IH]; simpl; [reflexivity |].
  intros H. destruct (Ascii.eqb c ch); [| exact H].
  apply andb_true_iff in H as [_ Hr]. apply (IH Hr).
Qed.

Lemma forallb_rstrip_char (p : ascii -> bool) (ch : ascii) (s : string) :
  PyStr.forallb p s = true -> PyStr.forallb p (rstrip_char ch s) = true.
Proof.
  induction s as [| c r IH]; simpl; [reflexivity |].
  intros H. apply andb_true_iff in H as [Hc Hr]. specialize (IH Hr).
  destruct (rstrip_char ch r) as [| x t].
  - destruct (Ascii.eqb c ch); simpl; rewrite ?Hc; reflexivity.
  - simpl in IH |- *. rewrite Hc, IH. reflexivity.
Qed.

Lemma sub_non_word_is_word (c : ascii) :
  is_word (if is_word c then c else "_"%char) = true.
Proof. destruct (is_word c) eqn:E; [exact E | reflexivity]. Qed.

(** X24.  The table name of a sheet consists of letters, digits and
    underscores only, and ends in [hoja] followed by the loop index; in
    particular it is never empty. *)
Theorem sheet_table_name_is_a_word (name : string) (hoja_index : nat) :
  PyStr.forallb is_word (sheet_table_name name hoja_index) = true
  /\ exists prefix,
       sheet_table_name name hoja_index
       = prefix +:+ "hoja" +:+ pretty hoja_index.
Proof.
  split; [| rewrite sheet_table_name_split; eauto].
  unfold sheet_table_name, strip_char.
  apply forallb_rstrip_char, forallb_lstrip_char.
  apply (forallb_sub_runs is_word is_underscore); [reflexivity |].
  apply (forallb_impl is_word (fun c => is_word c || is_underscore c));
    [intros c ->; reflexivity |].
  apply forallb_map_chars. intros c. apply sub_non_word_is_word.
Qed.

Lemma lstrip_char_head (ch : ascii) (s : string) :
  lstrip_char ch s = ""
  \/ exists c r, lstrip_char ch s = String c r /\ Ascii.eqb c ch = false.
Proof.
  induction s as [| c r IH]; simpl; [auto |].
  destruct (Ascii.eqb c ch) eqn:Hc; [exact IH | eauto].
Qed.

Lemma rstrip_char_head (ch c : ascii) (r : string) :
  Ascii.eqb c ch = false ->
  exists r', rstrip_char ch (String c r) = String c r'.
Proof.
  intros Hc. simpl. destruct (rstrip_char ch r); [rewrite Hc |]; eauto.
Qed.

Lemma rstrip_char_idempotent (ch : ascii) (s : string) :
  rstrip_char ch (rstrip_char ch s) = rstrip_char ch s.
Proof.
  induction s as [| c r IH]; simpl; [reflexivity |].
  destruct (rstrip_char ch r) as [| x t] eqn:Hr.
  - destruct (Ascii.eqb c ch) eqn:Hc; simpl; [| rewrite Hc]; reflexivity.
  - change (rstrip_char ch (String c (String x t)))
      with (match rstrip_char ch (String x t) with
            | EmptyString =>
                if Ascii.eqb c ch then EmptyString else String c EmptyString
            | r' => String c r'
            end).
    rewrite IH. reflexivity.
Qed.

Lemma length_rstrip_char (ch : ascii) (s : string) :
  (String.length (rstrip_char ch s) <= String.length s)%nat.
Proof.
  induction s as [| c r IH]; simpl; [lia |].
  destruct (rstrip_char ch r); [destruct (Ascii.eqb c ch) |]; simpl in *; lia.
Qed.

Lemma length_take_le (n : nat) (s : string) :
  (String.length (take n s) <= n)%nat.
Proof.
  revert s. induction n as [| n IH]; intros [| c r]; simpl; try lia.
  specialize (IH r). lia.
Qed.

(** The length limit applied to a name that starts with no underscore
    and ends with none. *)
Lemma limited_name_shape (c : ascii) (r : string) :
  Ascii.eqb c "_" = false ->
  rstrip_char "_" (String c r) = String c r ->
  PyStr.forallb is_word (String c r) = true ->
  let limited :=
    if (50 <? String.length (String c r))%nat
    then rstrip_char "_" (take 50 (String c r))
    else String c r in
  limited <> ""
  /\ (String.length limited <= 50)%nat
  /\ PyStr.forallb is_word limited = true
  /\ strip_char "_" limited = limited.
Proof.
  intros Hc Hr Hw. cbv zeta.
  destruct (Nat.ltb_spec 50 (String.length (String c r))) as [Hlong | Hshort].
  - change (take 50 (String c r)) with (String c (take 49 r)).
    destruct (rstrip_char_head "_" c (take 49 r) Hc) as [r' Hr'].
    pose proof (length_rstrip_char "_" (String c (take 49 r))) as Hlen.
    pose proof (length_take_le 49 r) as Htake.
    assert (Hidem := rstrip_char_idempotent "_" (String c (take 49 r))).
    assert (Hword : PyStr.forallb is_word
                      (rstrip_char "_" (String c (take 49 r))) = true).
    { apply forallb_rstrip_char.
      change (String c (take 49 r)) with (take 50 (String c r)).
      apply forallb_take, Hw. }
    rewrite Hr' in *. split; [discriminate |].
    split; [cbn [String.length] in Hlen |- *; lia |]. split; [exact Hword |].
    unfold strip_char. simpl lstrip_char. rewrite Hc. exact Hidem.
  - split; [discriminate |]. split; [exact Hshort |]. split; [exact Hw |].
    unfold strip_char. simpl lstrip_char. rewrite Hc. exact Hr.
Qed.

Lemma kept_or_underscore (c : ascii) :
  let c' := if is_word c || isspace c || Ascii.eqb c "-" then c else "_"%char in
  is_word c' || (isspace c' || Ascii.eqb c' "-") = true.
Proof.
  cbv zeta.
  destruct (is_word c) eqn:Hw; simpl; [rewrite Hw; reflexivity |].
  destruct (isspace c) eqn:Hs; simpl; [rewrite Hw, Hs; reflexivity |].
  destruct (Ascii.eqb c "-") eqn:Hh; simpl; [| reflexivity].
  rewrite Hw, Hs, Hh. reflexivity.
Qed.

Lemma digit_string_is_word (s : string) :
  PyStr.forallb isdigit s = true -> PyStr.forallb is_word s = true.
Proof.
  apply forallb_impl. intros c Hc. unfold is_word, isalnum. rewrite Hc.
  reflexivity.
Qed.

(** X25.  Whatever the sheet name, [_normalize_table_name] returns a
    name that is not empty, has at most 50 characters, consists of
    letters, digits and underscores, and neither starts nor ends with an
    underscore. *)
Theorem normalized_table_name_shape (sheet_name : string) :
  let r := _normalize_table_name sheet_name in
  r <> ""
  /\ (String.length r <= 50)%nat
  /\ PyStr.forallb is_word r = true
  /\ strip_char "_" r = r.
Proof.
  cbv zeta. unfold _normalize_table_name.
  set (cleaned := sub_runs _ false _).
  assert (Hw : PyStr.forallb is_word (strip_char "_" cleaned) = true).
  { unfold strip_char. apply forallb_rstrip_char, forallb_lstrip_char.
    apply (forallb_sub_runs is_word
             (fun c => isspace c || Ascii.eqb c "-")); [reflexivity |].
    apply forallb_map_chars. intros c. apply kept_or_underscore. }
  assert (Hr : rstrip_char "_" (strip_char "_" cleaned)
               = strip_char "_" cleaned)
    by apply rstrip_char_idempotent.
  assert (Hhead : strip_char "_" cleaned = ""
                  \/ exists c r, strip_char "_" cleaned = String c r
                                 /\ Ascii.eqb c "_" = false).
  { unfold strip_char.
    destruct (lstrip_char_head "_" cleaned) as [-> | (c & r & -> & Hc)];
      [left; reflexivity |].
    right. destruct (rstrip_char_head "_" c r Hc) as [r' ->]. eauto. }
  set (t := strip_char "_" cleaned) in *. clearbody t. clear cleaned.
  destruct Hhead as [-> | (c & r & -> & Hc)].
  - simpl. repeat split; try discriminate; try reflexivity. lia.
  - change (String.eqb (String c r) "") with false. cbv iota.
    rewrite orb_false_l.
    destruct (str_isdigit (String c r)) eqn:Hdig.
    + change ("Hoja_" +:+ String c r)
        with (String "H" ("oja_" +:+ String c r)).
      apply limited_name_shape; [reflexivity | |].
      * change (String "H" ("oja_" +:+ String c r))
          with ("Hoja_" +:+ String c r).
        rewrite rstrip_char_append; rewrite Hr; [reflexivity | discriminate].
      * change (String "H" ("oja_" +:+ String c r))
          with ("Hoja_" +:+ String c r).
        rewrite forallb_append. unfold str_isdigit in Hdig.
        apply andb_true_iff in Hdig as [_ Hdig].
        rewrite (digit_string_is_word _ Hdig). reflexivity.
    + apply limited_name_shape; assumption.
Qed.

End TableNameFacts.

(** ** The column names of the INSERT statement *)

Section InsertColumns.
Import Destination.

Lemma name_char_kept (c : ascii) :
  is_name_char c = true ->
  Ascii.eqb c " " = false /\ Ascii.eqb c "-" = false
  /\ isalnum c || Ascii.eqb c "_" = true.
Proof.
  destruct c as [[] [] [] [] [] [] [] []]; vm_compute; intros;
    try discriminate; auto.
Qed.

Lemma clean_name_chars (s : string) :
  PyStr.forallb is_name_char s = true ->
  PyStr.filter (fun c => isalnum c || Ascii.eqb c "_")
               (replace_char "-" "_" (replace_char " " "_" s)) = s.
Proof.
  induction s as [| c r IH]; [reflexivity |].
  intros H. simpl in H. apply andb_true_iff in H as [Hc Hr].
  destruct (name_char_kept c Hc) as (Hs & Hh & Hk).
  cbn [replace_char PyStr.filter]. rewrite Hs, Hh, Hk, (IH Hr). reflexivity.
Qed.

(** A name the pattern accepts is made of name characters, except for a
    final line feed. *)
Lemma name_tail_chars (s : string) :
  name_tail s = true ->
  PyStr.forallb is_name_char s = true
  \/ exists t, s = t +:+ newline /\ PyStr.forallb is_name_char t = true.
Proof.
  induction s as [| c r IH]; [left; reflexivity |].
  intros H.
  change (name_tail (String c r))
    with (if Ascii.eqb c (chr 10) && String.eqb r "" then true
          else is_name_char c && name_tail r) in H.
  destruct (Ascii.eqb c (chr 10) && String.eqb r "") eqn:Hnl.
  - right. exists "". apply andb_true_iff in Hnl as [Hc Hr].
    apply Ascii.eqb_eq in Hc. apply String.eqb_eq in Hr. subst. auto.
  - apply andb_true_iff in H as [Hc Hr].
    destruct (IH Hr) as [Hall | (t & -> & Ht)].
    + left. simpl. rewrite Hc, Hall. reflexivity.
    + right. exists (String c t). simpl. rewrite Hc, Ht. auto.
Qed.

(** X26.  For a column whose configured SQL name passes the name check
    of [validate_column_mappings], the INSERT statement uses that name as
    it is; the one exception is a name that ends in a line feed, which
    the check accepts and the cleaning drops. *)
Theorem insert_uses_the_validated_name
    (m : mapping) (col : string) (cfg : config) :
  lookup_config m col = Some cfg ->
  valid_sql_name (sql_name_of col cfg) = true ->
  clean_column m col = sql_name_of col cfg
  \/ sql_name_of col cfg = clean_column m col +:+ newline.
Proof.
  intros Hcfg Hvalid. unfold clean_column. rewrite Hcfg.
  fold (sql_name_of col cfg).
  destruct (sql_name_of col cfg) as [| c r]; [discriminate |].
  simpl in Hvalid. apply andb_true_iff in Hvalid as [Hc Hr].
  assert (Hc' : is_name_char c = true)
    by (unfold is_name_char; rewrite Hc; reflexivity).
  destruct (name_tail_chars r Hr) as [Hall | (t & -> & Ht)].
  - left. apply clean_name_chars. simpl. rewrite Hc', Hall. reflexivity.
  - right.
    assert (Hclean : forall a b, PyStr.filter (fun c => isalnum c || Ascii.eqb c "_")
               (replace_char "-" "_" (replace_char " " "_" (a +:+ b)))
             = PyStr.filter (fun c => isalnum c || Ascii.eqb c "_")
                 (replace_char "-" "_" (replace_char " " "_" a))
               +:+ PyStr.filter (fun c => isalnum c || Ascii.eqb c "_")
                     (replace_char "-" "_" (replace_char " " "_" b))).
    { intros a b. induction a as [| x a IH]; [reflexivity |].
      cbn [String.append replace_char PyStr.filter]. rewrite IH.
      destruct (isalnum _ || _); reflexivity. }
    change (String c (t +:+ newline)) with (String c t +:+ newline).
    rewrite Hclean, (clean_name_chars (String c t)).
    + change (PyStr.filter _ (replace_char "-" "_"
                (replace_char " " "_" newline))) with "".
      replace (String c t +:+ "") with (String c t); [reflexivity |].
      clear. generalize (String c t). intros s.
      induction s as [| x s IH]; simpl; [| rewrite <- IH]; reflexivity.
    + simpl. rewrite Hc', Ht. reflexivity.
Qed.

Lemma insert_uses_the_validated_name_witness :
  clean_column col1_as_int "col1" = "col1"
  \/ "col1" = clean_column col1_as_int "col1" +:+ newline.
Proof.
  apply (insert_uses_the_validated_name col1_as_int "col1"
           {| cfg_renamed_to := Some "col1"; cfg_sql_type := Some "INT";
              cfg_nullable := Some false; cfg_default_value := VStr "0" |});
    reflexivity.
Defined.

End InsertColumns.

(** ** The boolean rule of [infer_sql_type] *)


(** ** The loop over SQL tables *)

Section SqlTableLoop.
Import SqlTables.
Context (save : string -> string -> list row -> option (list string) -> bool).

Lemma dict_mem_keys {V : Type} (k : string) (d : dict V) :
  dict_mem k d = true <-> k ∈ map fst d.
Proof.
  unfold dict_mem. induction d as [| [k' v] r IH]; simpl.
  - split; [discriminate | intros H; apply elem_of_nil in H; contradiction].
  - rewrite orb_true_iff, IH, String.eqb_eq, elem_of_cons.
    split; intros [? | ?]; auto.
Qed.

Lemma dict_touch_facts (k : string) (d : dict (list row)) :
  NoDup (map fst d) ->
  NoDup (map fst (dict_touch k d)) /\ rows_held (dict_touch k d) = rows_held d.
Proof.
  intros Hnd. unfold dict_touch.
  destruct (dict_mem k d) eqn:Hm; [auto |].
  split.
  - rewrite map_app. simpl. apply NoDup_app. split; [exact Hnd |].
    split; [| apply NoDup_singleton].
    intros x Hx Hk. apply list_elem_of_singleton in Hk. subst x.
    apply dict_mem_keys in Hx. congruence.
  - unfold rows_held. rewrite map_app, list_sum_app. simpl. lia.
Qed.

Lemma dict_append_facts (k : string) (x : row) (d : dict (list row)) :
  map fst (dict_append k x d)
  = (if dict_mem k d then map fst d else map fst d ++ [k])%list
  /\ rows_held (dict_append k x d) = S (rows_held d).
Proof.
  unfold rows_held, dict_mem.
  induction d as [| [k' l] r [IHk IHr]]; simpl; [auto |].
  destruct (String.eqb k' k) eqn:Hk; simpl.
  - split; [reflexivity |]. rewrite length_app. simpl. lia.
  - rewrite IHk, IHr. split; [| lia].
    destruct (existsb _ r); reflexivity.
Qed.

Lemma dict_append_NoDup (k : string) (x : row) (d : dict (list row)) :
  NoDup (map fst d) -> NoDup (map fst (dict_append k x d)).
Proof.
  intros Hnd. destruct (dict_append_facts k x d) as [-> _].
  destruct (dict_mem k d) eqn:Hm; [exact Hnd |].
  apply NoDup_app. split; [exact Hnd |]. split; [| apply NoDup_singleton].
  intros y Hy Hk. apply list_elem_of_singleton in Hk. subst y.
  apply dict_mem_keys in Hy. congruence.
Qed.

Lemma group_record_grouped (g : grouping) (r : registro) :
  grouped g -> grouped (group_record g r).
Proof.
  intros [Hnd Htot]. unfold grouped, group_record.
  destruct r as [t cols n | t e | t x].
  - destruct (named t) as [k |]; [| auto].
    cbn [tablas_data total_registros].
    destruct (n =? 0)%Z; [| auto].
    destruct (dict_touch_facts k _ Hnd) as [H1 H2]. rewrite H2. auto.
  - cbn [tablas_data total_registros]. auto.
  - destruct (named t) as [k |]; [| auto].
    cbn [tablas_data total_registros].
    destruct (dict_append_facts k x (tablas_data g)) as [_ H2].
    rewrite H2, Htot. split; [apply dict_append_NoDup, Hnd | reflexivity].
Qed.

Lemma group_records_from (datos_sql : list registro) :
  forall g, grouped g ->
            grouped (fold_left group_record datos_sql g)
            /\ total_registros (fold_left group_record datos_sql g)
               = (total_registros g + named_rows datos_sql)%nat.
Proof.
  unfold named_rows.
  induction datos_sql as [| r rest IH]; intros g Hg; simpl; [auto |].
  destruct (IH _ (group_record_grouped g r Hg)) as [H1 H2].
  split; [exact H1 |]. rewrite H2.
  destruct r as [t cols n | t e | t x]; simpl; try lia;
    destruct (named t); simpl; lia.
Qed.

Lemma touch_all_facts (names : list string) :
  forall d, NoDup (map fst d) ->
            let d' := fold_left (fun d k => dict_touch k d) names d in
            NoDup (map fst d') /\ rows_held d' = rows_held d.
Proof.
  induction names as [| k rest IH]; intros d Hnd; simpl; [auto |].
  destruct (dict_touch_facts k d Hnd) as [H1 H2].
  destruct (IH _ H1) as [H3 H4]. split; [exact H3 | congruence].
Qed.

Lemma save_tables_counts (name : string) (columnas : dict (list string))
    (tablas : dict (list row)) :
  forall exitosas con_error,
    let r := save_tables save name columnas tablas exitosas con_error in
    (fst r + snd r = exitosas + con_error + length tablas)%nat
    /\ (exitosas <= fst r)%nat.
Proof.
  induction tablas as [| [t rows] rest IH]; intros ok ko; simpl; [lia |].
  destruct (save _ _ _ _); [destruct (IH (S ok) ko) | destruct (IH ok (S ko))];
    lia.
Qed.

(** The summary in terms of the grouping. *)
Lemma summary_of (name : string) (datos_sql : list registro) (s : summary) :
  _process_sql_tables_individually save name datos_sql = inr s ->
  let g := group_records datos_sql in
  let tablas :=
    fold_left (fun d k => dict_touch k d) (map fst (tablas_columnas g))
              (tablas_data g) in
  let r := save_tables save name (tablas_columnas g) tablas 0 0 in
  s = {| success := (0 <? fst r)%nat; tablas_procesadas := fst r;
         n_tablas_con_error := snd r; total := total_registros g;
         detalles_tablas := map (fun p => (fst p, length (snd p))) tablas |}.
Proof.
  unfold _process_sql_tables_individually. cbv zeta.
  destruct (negb _ && _);
    [destruct (tablas_con_error _) as [| [? ?] [| ? ?]]; discriminate |].
  set (g := group_records datos_sql).
  set (tablas := fold_left _ _ _).
  destruct (save_tables save name (tablas_columnas g) tablas 0 0)
    as [ok ko] eqn:Hr.
  destruct (tablas_data g), (tablas_columnas g); intros H;
    try discriminate; injection H as <-; reflexivity.
Qed.

(** X28.  When the function reaches the loop over the tables, the
    reported total is the number of extracted rows that name a table,
    and it is the sum of the row counts listed per table.  It does not
    depend on whether the tables could be saved: the rows of a table
    whose save failed are counted too. *)
Theorem sql_total_counts_every_row
    (name : string) (datos_sql : list registro) (s : summary) :
  _process_sql_tables_individually save name datos_sql = inr s ->
  total s = named_rows datos_sql
  /\ total s = list_sum (map snd (detalles_tablas s)).
Proof.
  intros Hs. apply summary_of in Hs. cbv zeta in Hs. subst s. simpl.
  assert (Hg0 : grouped no_groups) by (split; [constructor | reflexivity]).
  destruct (group_records_from datos_sql no_groups Hg0) as [[Hnd Htot] Hn].
  fold (group_records datos_sql) in Hnd, Htot, Hn.
  split; [exact Hn |].
  destruct (touch_all_facts (map fst (tablas_columnas (group_records datos_sql)))
              _ Hnd) as [_ Hrows].
  rewrite Htot, <- Hrows. unfold rows_held. rewrite map_map. reflexivity.
Qed.



End SqlTableLoop.

Lemma sql_total_counts_witness :
  (2 = SqlTables.named_rows MoreSamples.three_entries)%nat
  /\ (2 = list_sum (map snd [("dbo.t", 1); ("dbo.u", 1)]))%nat.
Proof.
  apply (sql_total_counts_every_row (fun _ _ _ _ => false) "p"
           MoreSamples.three_entries
           {| SqlTables.success := false; SqlTables.tablas_procesadas := 0;
              SqlTables.n_tablas_con_error := 2; SqlTables.total := 2;
              SqlTables.detalles_tablas := [("dbo.t", 1); ("dbo.u", 1)] |}).
  reflexivity.
Defined.


(** ** Validation followed by normalization *)

Section ValidThenNormalized.
Context (E : pandas).

Lemma normalize_column_warning (df : DataFrame) (col : string) (cfg : config) :
  mem col (columns df) = true ->
  forall w, w ∈ snd (normalize_column E df col cfg) ->
            exists e, w = NormalizeError col e.
Proof.
  intros Hmem w. unfold normalize_column. rewrite Hmem. simpl negb. cbv iota.
  destruct (positions col (columns df)) as [| j [| j' js]].
  - destruct (rows df); simpl; intros Hw;
      [apply elem_of_nil in Hw; contradiction |].
    apply list_elem_of_singleton in Hw. eauto.
  - destruct (map_res _ _); simpl; intros Hw;
      [apply elem_of_nil in Hw; contradiction |].
    apply list_elem_of_singleton in Hw. eauto.
  - destruct (rows df); simpl; intros Hw;
      [apply elem_of_nil in Hw; contradiction |].
    apply list_elem_of_singleton in Hw. eauto.
Qed.

Lemma normalize_columns_warnings (m : mapping) :
  forall df,
    Forall (fun p => mem (fst p) (columns df) = true) m ->
    forall w, w ∈ snd (normalize_columns E df m) ->
              exists col e, w = NormalizeError col e.
Proof.
  induction m as [| [col cfg] rest IH]; intros df Hall w; simpl.
  - intros Hw. apply elem_of_nil in Hw. contradiction.
  - inversion Hall as [| ? ? Hcol Hrest]; subst. simpl in Hcol.
    pose proof (normalize_column_warning df col cfg Hcol) as Hone.
    pose proof (normalize_column_frame E df col cfg) as Hframe.
    cbv zeta in Hframe. destruct Hframe as (Hcols & _).
    destruct (normalize_column E df col cfg) as [df1 w1].
    simpl in Hone, Hcols.
    specialize (IH df1). rewrite Hcols in IH. specialize (IH Hrest).
    destruct (normalize_columns E df1 rest) as [df2 w2]. simpl in IH |- *.
    intros Hw. apply elem_of_app in Hw as [Hw | Hw].
    + destruct (Hone w Hw) as [e ->]. eauto.
    + apply IH, Hw.
Qed.

(** X30.  For a mapping that [validate_column_mappings] reports as valid,
    [normalize_dataframe_by_mappings] on the same frame issues no
    warning for a missing column: every warning it returns reports an
    exception raised while normalizing a column. *)
Theorem valid_mapping_has_no_missing_column
    (df : DataFrame) (column_mappings : mapping) :
  fst (validate_column_mappings df column_mappings) = true ->
  forall w, w ∈ snd (normalize_dataframe_by_mappings E df column_mappings) ->
            exists col e, w = NormalizeError col e.
Proof.
  intros Hvalid. unfold normalize_dataframe_by_mappings.
  apply normalize_columns_warnings.
  unfold validate_column_mappings in Hvalid. simpl fst in Hvalid.
  destruct (check_columns df column_mappings ++ _)%list eqn:Herr;
    [| discriminate].
  apply app_eq_nil in Herr as [Hcols _].
  unfold check_columns in Hcols. apply flat_map_nil_iff in Hcols.
  eapply Forall_impl; [exact Hcols |].
  intros [col cfg] Hc. simpl in Hc |- *.
  destruct (mem col (columns df)); [reflexivity | discriminate].
Qed.

End ValidThenNormalized.

Lemma valid_mapping_has_no_missing_column_witness :
  exists col e, NormalizeError "col1" OverflowError = NormalizeError col e.
Proof.
  apply (valid_mapping_has_no_missing_column words_env
           MoreSamples.infinite_cell col1_as_int eq_refl
           (NormalizeError "col1" OverflowError)).
  apply list_elem_of_In. simpl. auto.
Defined.
